(** * Session recorder of concurrent-browser-mcp: a shallow embedding

    The development follows [session-recorder.ts]: the values that flow
    through the recorder's [any]-typed fields, the sanitizer and the capture
    policy, the session store with its persistence, the script and test
    generators, the replay engine and its result comparator. *)

From Stdlib Require Import String Ascii List ZArith Bool Arith Lia.
From Stdlib Require Import DecimalString DecimalZ DecimalFacts DecimalPos.
Import ListNotations.

Local Open Scope string_scope.
Local Open Scope list_scope.

(** ** Outcomes of fallible code

    A call either returns or throws; [Throw] carries the error message. *)

Inductive res (A : Type) : Type :=
| Ok (a : A)
| Throw (msg : string).

Arguments Ok {A} a.
Arguments Throw {A} msg.

Definition bind {A B : Type} (c : res A) (k : A -> res B) : res B :=
  match c with
  | Ok a => k a
  | Throw m => Throw m
  end.

Notation "'let*' x ':=' c 'in' k" := (bind c (fun x => k))
  (at level 10, x name, c at level 100, k at level 200).

(** ** JavaScript values

    The [any]-typed payloads (parameters, results, metadata, page data) are
    JavaScript values.  Numbers are the integer-valued ones, printed in plain
    decimal; strings are sequences of code units, here of eight bits; an
    object is the list of its own enumerable properties in enumeration
    order. *)

#[local] Set Warnings "-register-all".

Inductive JsValue : Type :=
| JUndefined
| JNull
| JBool (b : bool)
| JNum (z : Z)
| JStr (s : string)
| JArr (items : list JsValue)
| JObj (props : list (string * JsValue)).

Definition Props := list (string * JsValue).

(** ToBoolean. *)
Definition truthy (v : JsValue) : bool :=
  match v with
  | JUndefined | JNull => false
  | JBool b => b
  | JNum z => negb (z =? 0)%Z
  | JStr s => negb (s =? "")%string
  | JArr _ | JObj _ => true
  end.

Definition nullish (v : JsValue) : bool :=
  match v with
  | JUndefined | JNull => true
  | _ => false
  end.

(** Own-property lookup. *)
Fixpoint lookup (k : string) (ps : Props) : option JsValue :=
  match ps with
  | [] => None
  | (k', v) :: rest => if (k' =? k)%string then Some v else lookup k rest
  end.

(** [o[k] = v] on the property list of an object: an existing key keeps its
    place, a new key goes last. *)
Fixpoint setProp (ps : Props) (k : string) (v : JsValue) : Props :=
  match ps with
  | [] => [(k, v)]
  | (k', v') :: rest =>
      if (k' =? k)%string then (k', v) :: rest else (k', v') :: setProp rest k v
  end.

Definition decimal (z : Z) : string := NilZero.string_of_int (Z.to_int z).

Definition indexKey (i : nat) : string := decimal (Z.of_nat i).

Fixpoint indexed {A : Type} (f : A -> JsValue) (i : nat) (l : list A) : Props :=
  match l with
  | [] => []
  | x :: rest => (indexKey i, f x) :: indexed f (S i) rest
  end.

(** Object spread [{ ...v }]: the own enumerable properties of [v]; the
    indices of an array or of a string, nothing for the other primitives. *)
Definition spread (v : JsValue) : Props :=
  match v with
  | JObj ps => ps
  | JArr items => indexed (fun x => x) 0 items
  | JStr s => indexed (fun c => JStr (String c "")) 0 (list_ascii_of_string s)
  | _ => []
  end.

(** Member access [v.k] for the identifier keys the recorder reads.  Reading a
    member of [undefined] or [null] throws; a string or an array has [length];
    any other member of a primitive or of an array is [undefined]. *)
Definition getProp (v : JsValue) (k : string) : res JsValue :=
  match v with
  | JUndefined => Throw "TypeError: Cannot read properties of undefined"
  | JNull => Throw "TypeError: Cannot read properties of null"
  | JObj ps => Ok (match lookup k ps with Some x => x | None => JUndefined end)
  | JStr s =>
      Ok (if (k =? "length")%string then JNum (Z.of_nat (String.length s)) else JUndefined)
  | JArr items =>
      Ok (if (k =? "length")%string then JNum (Z.of_nat (List.length items)) else JUndefined)
  | JBool _ | JNum _ => Ok JUndefined
  end.

(** Optional chaining [v?.k]. *)
Definition optGet (v : JsValue) (k : string) : JsValue :=
  match getProp v k with
  | Ok x => x
  | Throw _ => JUndefined
  end.

(** Assignment [o.k = v] in strict mode. *)
Definition assign (o : JsValue) (k : string) (v : JsValue) : res JsValue :=
  match o with
  | JObj ps => Ok (JObj (setProp ps k v))
  | JUndefined | JNull => Throw "TypeError: Cannot set properties of undefined"
  | _ => Throw "TypeError: Cannot create property"
  end.

(** ToString, as a template literal applies it. *)
Fixpoint toString (v : JsValue) : string :=
  match v with
  | JUndefined => "undefined"
  | JNull => "null"
  | JBool true => "true"
  | JBool false => "false"
  | JNum z => decimal z
  | JStr s => s
  | JArr items =>
      String.concat ","
        (map (fun x => if nullish x then "" else toString x) items)
  | JObj _ => "[object Object]"
  end.

Definition isDigit (c : ascii) : bool :=
  let n := nat_of_ascii c in ((48 <=? n)%nat && (n <=? 57)%nat)%bool.

Fixpoint allDigits (s : string) : bool :=
  match s with
  | EmptyString => true
  | String c rest => isDigit c && allDigits rest
  end.

(** StringToNumber on plain decimal integer literals; [None] is NaN. *)
Definition stringToNumber (s : string) : option Z :=
  match s with
  | EmptyString => Some 0%Z
  | String "-" rest =>
      if negb (rest =? "") && allDigits rest
      then option_map Z.of_int (NilZero.int_of_string s) else None
  | String "+" rest =>
      if negb (rest =? "") && allDigits rest
      then option_map Z.of_int (NilZero.int_of_string rest) else None
  | _ => if allDigits s then option_map Z.of_int (NilZero.int_of_string s) else None
  end.

(** ToNumber; [None] is NaN. *)
Definition toNumber (v : JsValue) : option Z :=
  match v with
  | JUndefined => None
  | JNull => Some 0%Z
  | JBool b => Some (if b then 1 else 0)%Z
  | JNum z => Some z
  | JStr s => stringToNumber s
  | JArr _ | JObj _ => stringToNumber (toString v)
  end.

(** [a > b] on numbers, false when an operand is NaN. *)
Definition numGt (a b : option Z) : bool :=
  match a, b with
  | Some x, Some y => (y <? x)%Z
  | _, _ => false
  end.

(** Strict equality [a === b].  The operands come from distinct allocations
    (a recorded payload and a fresh one), so two objects or arrays are never
    the same reference. *)
Definition strictEq (a b : JsValue) : bool :=
  match a, b with
  | JUndefined, JUndefined => true
  | JNull, JNull => true
  | JBool x, JBool y => Bool.eqb x y
  | JNum x, JNum y => (x =? y)%Z
  | JStr x, JStr y => (x =? y)%string
  | _, _ => false
  end.

(** [s.substring(0, n)]; only a string has the method. *)
Definition substring0 (v : JsValue) (n : nat) : res string :=
  match v with
  | JStr s => Ok (String.substring 0 n s)
  | JUndefined | JNull => Throw "TypeError: Cannot read properties of undefined"
  | _ => Throw "TypeError: substring is not a function"
  end.

(** [s.replace(/'/g, "\\'")] on a string: a backslash before each quote. *)
Fixpoint escapeQuotes (s : string) : string :=
  match s with
  | EmptyString => EmptyString
  | String c rest =>
      if Ascii.eqb c "'"%char
      then String "\"%char (String "'"%char (escapeQuotes rest))
      else String c (escapeQuotes rest)
  end.

Definition replaceQuotes (v : JsValue) : res string :=
  match v with
  | JStr s => Ok (escapeQuotes s)
  | JUndefined | JNull => Throw "TypeError: Cannot read properties of undefined"
  | _ => Throw "TypeError: replace is not a function"
  end.

(** The rest of [s] after the prefix [p], when [s] starts with [p]. *)
Fixpoint stripPrefix (p s : string) : option string :=
  match p, s with
  | EmptyString, _ => Some s
  | String a p', String b s' => if Ascii.eqb a b then stripPrefix p' s' else None
  | String _ _, EmptyString => None
  end.

(** [s.includes(sub)] *)
Definition includesStr (s sub : string) : bool :=
  match String.index 0 sub s with
  | Some _ => true
  | None => false
  end.

(** [s.endsWith(suffix)] *)
Definition endsWith (s suffix : string) : bool :=
  let n := String.length s in
  let m := String.length suffix in
  ((m <=? n)%nat && (String.substring (n - m) m s =? suffix)%string)%bool.

(** ** Sanitizer and capture policy *)

Definition REDACTED : string := "***REDACTED***".
Definition SCREENSHOT_DATA : string := "[SCREENSHOT_DATA]".
Definition TRUNCATED : string := "...[TRUNCATED]".

Definition sensitiveFields : list string := ["password"; "token"; "apiKey"; "secret"].

Definition propOf (ps : Props) (k : string) : JsValue :=
  match lookup k ps with
  | Some x => x
  | None => JUndefined
  end.

(** The loop body of [sanitizeParameters]:
    [if (sanitized[field]) sanitized[field] = '***REDACTED***']. *)
Definition redactField (sanitized : Props) (field : string) : Props :=
  if truthy (propOf sanitized field)
  then setProp sanitized field (JStr REDACTED)
  else sanitized.

Definition sanitizeParameters (params : JsValue) : JsValue :=
  let sanitized := spread params in
  let sanitized := fold_left redactField sensitiveFields sanitized in
  let sanitized :=
    if truthy (propOf sanitized "screenshot")
    then setProp sanitized "screenshot" (JStr SCREENSHOT_DATA)
    else sanitized in
  JObj sanitized.

(** One of the three truncations of [sanitizeResult], on the [data] object:
    [if (data?.f && data.f.length > 1000) data.f = data.f.substring(0, 1000) + '...[TRUNCATED]']. *)
Definition truncateField (field : string) (data : JsValue) : res JsValue :=
  let f := optGet data field in
  if truthy f && numGt (toNumber (optGet f "length")) (Some 1000%Z)
  then
    let* cut := substring0 f 1000 in
    assign data field (JStr (cut ++ TRUNCATED)%string)
  else Ok data.

Definition placeholderScreenshot (data : JsValue) : res JsValue :=
  if truthy (optGet data "screenshot")
  then assign data "screenshot" (JStr SCREENSHOT_DATA)
  else Ok data.

Definition sanitizeResult (result : JsValue) : res JsValue :=
  if negb (truthy result) then Ok result else
  let* data := getProp result "data" in
  if negb (truthy data) then Ok result else
  let sanitized := spread result in
  let* data := truncateField "html" data in
  let* data := placeholderScreenshot data in
  let* data := truncateField "markdown" data in
  let* data := truncateField "content" data in
  Ok (JObj (setProp sanitized "data" data)).

Definition dataCapturingTools : list string :=
  ["browser_get_page_info"; "browser_screenshot"; "browser_get_markdown";
   "browser_get_element_text"; "browser_navigate"].

Definition includes (l : list string) (x : string) : bool :=
  existsb (fun y => (y =? x)%string) l.

Definition processResult (captureFullPageData : bool) (result : JsValue) (tool : string)
  : res JsValue :=
  if negb (truthy result) then Ok result else
  if captureFullPageData && includes dataCapturingTools tool then Ok result
  else sanitizeResult result.

(** ** The JSON codec of the platform

    [JSON.stringify(value, null, 2)] and [JSON.parse(text)], which
    [saveSession], [exportAsScript] and [loadSession] call.  An object keeps
    the order of its property list on both sides; the platform's rule that
    integer-like keys enumerate first is not part of this model. *)

Module JSON.

Definition dquote : ascii := ascii_of_nat 34.
Definition backslash : ascii := ascii_of_nat 92.
Definition newline : ascii := ascii_of_nat 10.

Definition hexDigit (n : nat) : ascii :=
match n with
| 0 => "0" | 1 => "1" | 2 => "2" | 3 => "3" | 4 => "4" | 5 => "5" | 6 => "6"
| 7 => "7" | 8 => "8" | 9 => "9" | 10 => "a" | 11 => "b" | 12 => "c"
| 13 => "d" | 14 => "e" | _ => "f"
end%char.

(** QuoteJSONString, one code unit at a time. *)
Definition quoteChar (c : ascii) : string :=
let n := nat_of_ascii c in
if Ascii.eqb c dquote then String backslash (String dquote "")
else if Ascii.eqb c backslash then String backslash (String backslash "")
else if (n =? 8)%nat then String backslash "b"
else if (n =? 12)%nat then String backslash "f"
else if (n =? 10)%nat then String backslash "n"
else if (n =? 13)%nat then String backslash "r"
else if (n =? 9)%nat then String backslash "t"
else if (n <? 32)%nat then
  String backslash
    (String "u" (String "0" (String "0"
       (String (hexDigit (n / 16)) (String (hexDigit (n mod 16)) "")))))
else String c "".

Fixpoint quoteBody (s : string) : string :=
match s with
| EmptyString => EmptyString
| String c rest => (quoteChar c ++ quoteBody rest)%string
end.

Definition quote (s : string) : string :=
String dquote (quoteBody s ++ String dquote "")%string.

Fixpoint spaces (n : nat) : string :=
match n with
| 0 => EmptyString
| S m => String " " (spaces m)
end.

(** The text of a non-empty array or object: its parts, one per line at the
  inner indentation, between the brackets. *)
Definition wrap (opening closing : string) (indent : nat) (partial : list string) : string :=
match partial with
| [] => (opening ++ closing)%string
| _ =>
    (opening ++ String newline (spaces (indent + 2))
       ++ String.concat (String "," (String newline (spaces (indent + 2)))) partial
       ++ String newline (spaces indent) ++ closing)%string
end.

(** SerializeJSONProperty with a gap of two spaces; [None] is [undefined]. *)
Fixpoint serialize (indent : nat) (v : JsValue) : option string :=
match v with
| JUndefined => None
| JNull => Some "null"
| JBool true => Some "true"
| JBool false => Some "false"
| JNum z => Some (decimal z)
| JStr s => Some (quote s)
| JArr items =>
    Some (wrap "[" "]" indent
            (map (fun x =>
                    match serialize (indent + 2) x with
                    | Some t => t
                    | None => "null"
                    end) items))
| JObj props =>
    Some (wrap "{" "}" indent
            ((fix members (ps : list (string * JsValue)) : list string :=
                match ps with
                | [] => []
                | (k, x) :: rest =>
                    match serialize (indent + 2) x with
                    | Some t => (quote k ++ ": " ++ t)%string :: members rest
                    | None => members rest
                    end
                end) props))
end.

Definition stringify (v : JsValue) : option string := serialize 0 v.

(** *** Parsing *)

Definition isWs (c : ascii) : bool :=
let n := nat_of_ascii c in
((n =? 32) || (n =? 9) || (n =? 10) || (n =? 13))%nat.

Fixpoint skipWs (s : string) : string :=
match s with
| String c rest => if isWs c then skipWs rest else s
| EmptyString => EmptyString
end.

Definition hexValue (c : ascii) : option nat :=
let n := nat_of_ascii c in
if ((48 <=? n) && (n <=? 57))%nat then Some (n - 48)
else if ((97 <=? n) && (n <=? 102))%nat then Some (n - 87)
else if ((65 <=? n) && (n <=? 70))%nat then Some (n - 55)
else None.

(** The code unit of a [\uXXXX] escape; units above 255 are outside the
  strings of this model. *)
Definition unicodeEscape (h1 h2 h3 h4 : ascii) : option ascii :=
match hexValue h1, hexValue h2, hexValue h3, hexValue h4 with
| Some a, Some b, Some c, Some d =>
    let n := ((a * 16 + b) * 16 + c) * 16 + d in
    if (n <? 256)%nat then Some (ascii_of_nat n) else None
| _, _, _, _ => None
end.

Definition simpleEscape (e : ascii) : option ascii :=
if Ascii.eqb e dquote then Some dquote
else if Ascii.eqb e backslash then Some backslash
else if Ascii.eqb e "/" then Some "/"%char
else if Ascii.eqb e "b" then Some (ascii_of_nat 8)
else if Ascii.eqb e "f" then Some (ascii_of_nat 12)
else if Ascii.eqb e "n" then Some (ascii_of_nat 10)
else if Ascii.eqb e "r" then Some (ascii_of_nat 13)
else if Ascii.eqb e "t" then Some (ascii_of_nat 9)
else None.

Definition consChar (c : ascii) (r : option (string * string)) : option (string * string) :=
match r with
| Some (t, rest) => Some (String c t, rest)
| None => None
end.

(** The characters of a string literal after its opening quote, up to and
  including the closing quote. *)
Fixpoint parseChars (s : string) : option (string * string) :=
match s with
| EmptyString => None
| String c rest =>
    if Ascii.eqb c dquote then Some (EmptyString, rest)
    else if Ascii.eqb c backslash then
      match rest with
      | String e rest1 =>
          if Ascii.eqb e "u" then
            match rest1 with
            | String h1 (String h2 (String h3 (String h4 rest2))) =>
                match unicodeEscape h1 h2 h3 h4 with
                | Some u => consChar u (parseChars rest2)
                | None => None
                end
            | _ => None
            end
          else
            match simpleEscape e with
            | Some u => consChar u (parseChars rest1)
            | None => None
            end
      | EmptyString => None
      end
    else if (nat_of_ascii c <? 32)%nat then None
    else consChar c (parseChars rest)
end.

Fixpoint spanDigits (s : string) : string * string :=
match s with
| String c rest =>
    if isDigit c then let (ds, r) := spanDigits rest in (String c ds, r)
    else (EmptyString, s)
| EmptyString => (EmptyString, EmptyString)
end.

(** After the integer part, a fraction or an exponent would follow one of
  these characters. *)
Definition startsFraction (s : string) : bool :=
match s with
| String c _ => Ascii.eqb c "." || Ascii.eqb c "e" || Ascii.eqb c "E"
| EmptyString => false
end.

Definition wellFormedDigits (ds : string) : bool :=
match ds with
| EmptyString => false
| String "0" EmptyString => true
| String "0" _ => false
| _ => true
end.

(** A number of the integer form: an optional minus sign, then a single zero
  or digits without a leading zero; a number with a fraction or an exponent
  is outside the numbers of this model. *)
Definition parseNumber (s : string) : option (JsValue * string) :=
let (sign, body) :=
  match s with
  | String "-" rest => ("-", rest)
  | _ => (EmptyString, s)
  end in
let (ds, rest) := spanDigits body in
if wellFormedDigits ds && negb (startsFraction rest) then
  match NilZero.int_of_string (sign ++ ds) with
  | Some d => Some (JNum (Z.of_int d), rest)
  | None => None
  end
else None.

(** CreateDataProperty for each member in turn: a repeated key keeps its first
  place and takes its last value. *)
Definition fromEntries (entries : list (string * JsValue)) : Props :=
fold_left (fun acc kv => setProp acc (fst kv) (snd kv)) entries [].

Definition headIs (c : ascii) (s : string) : option string :=
match s with
| String c' rest => if Ascii.eqb c c' then Some rest else None
| EmptyString => None
end.

(** The JSON grammar; [fuel] bounds the nesting and the number of members,
  both below the length of the text. *)
Fixpoint parseValue (fuel : nat) (s : string) : option (JsValue * string) :=
match fuel with
| 0 => None
| S fuel' =>
    match skipWs s with
    | EmptyString => None
    | String c rest =>
        if Ascii.eqb c "{" then
          match headIs "}" (skipWs rest) with
          | Some rest' => Some (JObj [], rest')
          | None =>
              match parseMembers fuel' rest with
              | Some (entries, rest') => Some (JObj (fromEntries entries), rest')
              | None => None
              end
          end
        else if Ascii.eqb c "[" then
          match headIs "]" (skipWs rest) with
          | Some rest' => Some (JArr [], rest')
          | None =>
              match parseElements fuel' rest with
              | Some (items, rest') => Some (JArr items, rest')
              | None => None
              end
          end
        else if Ascii.eqb c dquote then
          match parseChars rest with
          | Some (t, rest') => Some (JStr t, rest')
          | None => None
          end
        else if Ascii.eqb c "t" then
          option_map (fun r => (JBool true, r)) (stripPrefix "rue" rest)
        else if Ascii.eqb c "f" then
          option_map (fun r => (JBool false, r)) (stripPrefix "alse" rest)
        else if Ascii.eqb c "n" then
          option_map (fun r => (JNull, r)) (stripPrefix "ull" rest)
        else parseNumber (String c rest)
    end
end

with parseElements (fuel : nat) (s : string) : option (list JsValue * string) :=
match fuel with
| 0 => None
| S fuel' =>
    match parseValue fuel' s with
    | Some (v, rest) =>
        match skipWs rest with
        | String c rest' =>
            if Ascii.eqb c "," then
              match parseElements fuel' rest' with
              | Some (vs, rest'') => Some (v :: vs, rest'')
              | None => None
              end
            else if Ascii.eqb c "]" then Some ([v], rest')
            else None
        | EmptyString => None
        end
    | None => None
    end
end

with parseMembers (fuel : nat) (s : string) : option (list (string * JsValue) * string) :=
match fuel with
| 0 => None
| S fuel' =>
    match headIs dquote (skipWs s) with
    | Some afterQuote =>
        match parseChars afterQuote with
        | Some (k, afterKey) =>
            match headIs ":" (skipWs afterKey) with
            | Some afterColon =>
                match parseValue fuel' afterColon with
                | Some (v, rest) =>
                    match skipWs rest with
                    | String c rest' =>
                        if Ascii.eqb c "," then
                          match parseMembers fuel' rest' with
                          | Some (kvs, rest'') => Some ((k, v) :: kvs, rest'')
                          | None => None
                          end
                        else if Ascii.eqb c "}" then Some ([(k, v)], rest')
                        else None
                    | EmptyString => None
                    end
                | None => None
                end
            | None => None
            end
        | None => None
        end
    | None => None
    end
end.

(** [JSON.parse]: one value, then only white space; [None] is a SyntaxError. *)
Definition parse (text : string) : option JsValue :=
match parseValue (S (String.length text)) text with
| Some (v, rest) =>
    match skipWs rest with
    | EmptyString => Some v
    | _ => None
    end
| None => None
end.

(** The values [stringify] writes in full: no [undefined] anywhere, and no
  key twice in one object. *)
Fixpoint keyIn (k : string) (ps : list (string * JsValue)) : bool :=
match ps with
| [] => false
| (k', _) :: rest => (k' =? k)%string || keyIn k rest
end.

Fixpoint representable (v : JsValue) : bool :=
match v with
| JUndefined => false
| JNull | JBool _ | JNum _ | JStr _ => true
| JArr items => forallb representable items
| JObj props =>
    (fix members (ps : list (string * JsValue)) : bool :=
       match ps with
       | [] => true
       | (k, x) :: rest => negb (keyIn k rest) && representable x && members rest
       end) props
end.

End JSON.

(** ** Data model *)

Record Viewport : Type := { width : Z; height : Z }.

Record SessionConfig : Type := {
  headless : option bool;
  viewport : option Viewport;
  userAgent : option string
}.

Module ActionRecord.
Record t : Type := {
  id : string;
  timestamp : string;
  tool : string;
  parameters : JsValue;
  result : JsValue;
  error : option string;
  duration : option Z;
  metadata : JsValue;
  pageData : JsValue
}.

Definition withPageData (a : t) (p : JsValue) : t :=
  {| id := id a; timestamp := timestamp a; tool := tool a;
     parameters := parameters a; result := result a; error := error a;
     duration := duration a; metadata := metadata a; pageData := p |}.
End ActionRecord.

Module Session.
Record t : Type := {
  id : string;
  instanceId : string;
  browserType : string;
  startedAt : string;
  endedAt : option string;
  actions : list ActionRecord.t;
  metadata : JsValue;
  config : option SessionConfig
}.

(** [session.actions.push(record)] *)
Definition push (s : t) (a : ActionRecord.t) : t :=
  {| id := id s; instanceId := instanceId s; browserType := browserType s;
     startedAt := startedAt s; endedAt := endedAt s;
     actions := actions s ++ [a]; metadata := metadata s; config := config s |}.

(** [session.endedAt = stamp] *)
Definition close (s : t) (stamp : string) : t :=
  {| id := id s; instanceId := instanceId s; browserType := browserType s;
     startedAt := startedAt s; endedAt := Some stamp;
     actions := actions s; metadata := metadata s; config := config s |}.
End Session.

(** The argument of [startSession]. *)
Record StartConfig : Type := {
  sc_browserType : string;
  sc_headless : option bool;
  sc_viewport : option Viewport;
  sc_userAgent : option string;
  sc_metadata : JsValue
}.

(** The argument of [recordAction]. *)
Record ActionInput : Type := {
  in_tool : string;
  in_parameters : JsValue;
  in_result : JsValue;
  in_error : option string;
  in_metadata : JsValue;
  in_pageData : JsValue
}.

(** *** Sessions as the objects they are in memory and on disk *)

Definition optional {A : Type} (f : A -> JsValue) (o : option A) : JsValue :=
  match o with
  | Some x => f x
  | None => JUndefined
  end.

Definition viewportToJs (v : Viewport) : JsValue :=
  JObj [("width", JNum (width v)); ("height", JNum (height v))].

Definition configToJs (c : SessionConfig) : JsValue :=
  JObj [("headless", optional JBool (headless c));
        ("viewport", optional viewportToJs (viewport c));
        ("userAgent", optional JStr (userAgent c))].

Definition actionToJs (a : ActionRecord.t) : JsValue :=
  JObj [("id", JStr (ActionRecord.id a));
        ("timestamp", JStr (ActionRecord.timestamp a));
        ("tool", JStr (ActionRecord.tool a));
        ("parameters", ActionRecord.parameters a);
        ("result", ActionRecord.result a);
        ("error", optional JStr (ActionRecord.error a));
        ("duration", optional JNum (ActionRecord.duration a));
        ("metadata", ActionRecord.metadata a);
        ("pageData", ActionRecord.pageData a)].

(** The object [startSession] builds, with [endedAt] added by [endSession]. *)
Definition sessionToJs (s : Session.t) : JsValue :=
  JObj ([("id", JStr (Session.id s));
         ("instanceId", JStr (Session.instanceId s));
         ("browserType", JStr (Session.browserType s));
         ("startedAt", JStr (Session.startedAt s));
         ("actions", JArr (map actionToJs (Session.actions s)));
         ("metadata", Session.metadata s)]
        ++ match Session.config s with
           | Some c => [("config", configToJs c)]
           | None => []
           end
        ++ match Session.endedAt s with
           | Some e => [("endedAt", JStr e)]
           | None => []
           end).

(** The typed view [as Session] of a parsed document: a missing key reads as
    an absent field.  A document of another shape has no typed view. *)
Definition field (ps : Props) (k : string) : JsValue := propOf ps k.

Definition asString (v : JsValue) : option string :=
  match v with JStr s => Some s | _ => None end.

Definition asOptional {A : Type} (f : JsValue -> option A) (v : JsValue) : option (option A) :=
  match v with
  | JUndefined => Some None
  | _ => option_map Some (f v)
  end.

Definition asBool (v : JsValue) : option bool :=
  match v with JBool b => Some b | _ => None end.

Definition asNum (v : JsValue) : option Z :=
  match v with JNum z => Some z | _ => None end.

Definition asViewport (v : JsValue) : option Viewport :=
  match v with
  | JObj ps =>
      match asNum (field ps "width"), asNum (field ps "height") with
      | Some w, Some h => Some {| width := w; height := h |}
      | _, _ => None
      end
  | _ => None
  end.

Definition asConfig (v : JsValue) : option SessionConfig :=
  match v with
  | JObj ps =>
      match asOptional asBool (field ps "headless"),
            asOptional asViewport (field ps "viewport"),
            asOptional asString (field ps "userAgent") with
      | Some h, Some vp, Some ua =>
          Some {| headless := h; viewport := vp; userAgent := ua |}
      | _, _, _ => None
      end
  | _ => None
  end.

Definition asAction (v : JsValue) : option ActionRecord.t :=
  match v with
  | JObj ps =>
      match asString (field ps "id"), asString (field ps "timestamp"),
            asString (field ps "tool"),
            asOptional asString (field ps "error"),
            asOptional asNum (field ps "duration") with
      | Some i, Some ts, Some tl, Some e, Some d =>
          Some {| ActionRecord.id := i; ActionRecord.timestamp := ts;
                  ActionRecord.tool := tl;
                  ActionRecord.parameters := field ps "parameters";
                  ActionRecord.result := field ps "result";
                  ActionRecord.error := e; ActionRecord.duration := d;
                  ActionRecord.metadata := field ps "metadata";
                  ActionRecord.pageData := field ps "pageData" |}
      | _, _, _, _, _ => None
      end
  | _ => None
  end.

Fixpoint asActions (vs : list JsValue) : option (list ActionRecord.t) :=
  match vs with
  | [] => Some []
  | v :: rest =>
      match asAction v, asActions rest with
      | Some a, Some l => Some (a :: l)
      | _, _ => None
      end
  end.

Definition asSession (v : JsValue) : option Session.t :=
  match v with
  | JObj ps =>
      match asString (field ps "id"), asString (field ps "instanceId"),
            asString (field ps "browserType"), asString (field ps "startedAt"),
            asOptional asString (field ps "endedAt"),
            match field ps "actions" with JArr l => asActions l | _ => None end,
            asOptional asConfig (field ps "config") with
      | Some i, Some inst, Some bt, Some st, Some en, Some acts, Some cfg =>
          Some {| Session.id := i; Session.instanceId := inst;
                  Session.browserType := bt; Session.startedAt := st;
                  Session.endedAt := en; Session.actions := acts;
                  Session.metadata := field ps "metadata";
                  Session.config := cfg |}
      | _, _, _, _, _, _, _ => None
      end
  | _ => None
  end.

(** ** The recorder and its host *)

(** [Map<string, V>]: insertion order, one entry per key. *)
Fixpoint mapGet {V : Type} (k : string) (m : list (string * V)) : option V :=
  match m with
  | [] => None
  | (k', v) :: rest => if (k' =? k)%string then Some v else mapGet k rest
  end.

Fixpoint mapSet {V : Type} (k : string) (v : V) (m : list (string * V)) : list (string * V) :=
  match m with
  | [] => [(k, v)]
  | (k', v') :: rest =>
      if (k' =? k)%string then (k', v) :: rest else (k', v') :: mapSet k v rest
  end.

Record SessionRecorder : Type := {
  sessions : list (string * Session.t);
  sessionsDir : string;
  autoSave : bool;
  recordingEnabled : bool;
  captureFullPageData : bool
}.

(** What the recorder reaches outside itself: the file system, the clock, the
    identifier generator and the pending timers.  The file system holds the
    files by path and the directories made so far, and accepts every write;
    the clock and the generator answer their n-th call with the n-th value. *)
Record Host : Type := {
  files : list (string * string);
  directories : list string;
  clock : nat -> Z;
  toISOString : Z -> string;
  clockReads : nat;
  uuidv4 : nat -> string;
  uuidReads : nat;
  timers : list (Z * string)
}.

Record World : Type := { recorder : SessionRecorder; host : Host }.

Definition M (A : Type) : Type := World -> res A * World.

Definition ret {A : Type} (a : A) : M A := fun w => (Ok a, w).

Definition throw {A : Type} (msg : string) : M A := fun w => (Throw msg, w).

Definition bindM {A B : Type} (c : M A) (k : A -> M B) : M B :=
  fun w =>
    match c w with
    | (Ok a, w') => k a w'
    | (Throw m, w') => (Throw m, w')
    end.

Notation "x <- c ;; k" := (bindM c (fun x => k))
  (at level 61, c at next level, right associativity).

Definition liftRes {A : Type} (r : res A) : M A := fun w => (r, w).

Definition withHost (w : World) (h : Host) : World :=
  {| recorder := recorder w; host := h |}.

Definition withSessions (w : World) (m : list (string * Session.t)) : World :=
  {| recorder :=
       {| sessions := m;
          sessionsDir := sessionsDir (recorder w);
          autoSave := autoSave (recorder w);
          recordingEnabled := recordingEnabled (recorder w);
          captureFullPageData := captureFullPageData (recorder w) |};
     host := host w |}.

(** [Date.now()] *)
Definition dateNow : M Z := fun w =>
  let h := host w in
  (Ok (clock h (clockReads h)),
   withHost w {| files := files h; directories := directories h; clock := clock h;
                 toISOString := toISOString h; clockReads := S (clockReads h);
                 uuidv4 := uuidv4 h; uuidReads := uuidReads h; timers := timers h |}).

(** [new Date().toISOString()] *)
Definition nowISO : M string := fun w =>
  match dateNow w with
  | (Ok ms, w') => (Ok (toISOString (host w) ms), w')
  | (Throw m, w') => (Throw m, w')
  end.

Definition newUuid : M string := fun w =>
  let h := host w in
  (Ok (uuidv4 h (uuidReads h)),
   withHost w {| files := files h; directories := directories h; clock := clock h;
                 toISOString := toISOString h; clockReads := clockReads h;
                 uuidv4 := uuidv4 h; uuidReads := S (uuidReads h); timers := timers h |}).

Definition writeFile (path content : string) : M unit := fun w =>
  let h := host w in
  (Ok tt,
   withHost w {| files := mapSet path content (files h); directories := directories h;
                 clock := clock h; toISOString := toISOString h;
                 clockReads := clockReads h; uuidv4 := uuidv4 h;
                 uuidReads := uuidReads h; timers := timers h |}).

Definition readFile (path : string) : M string := fun w =>
  match mapGet path (files (host w)) with
  | Some content => (Ok content, w)
  | None => (Throw ("ENOENT: no such file or directory, open '" ++ path ++ "'")%string, w)
  end.

(** [fs.mkdir(dir, { recursive: true })] *)
Definition mkdir (dir : string) : M unit := fun w =>
  let h := host w in
  (Ok tt,
   withHost w {| files := files h;
                 directories :=
                   if includes (directories h) dir then directories h
                   else directories h ++ [dir];
                 clock := clock h; toISOString := toISOString h;
                 clockReads := clockReads h; uuidv4 := uuidv4 h;
                 uuidReads := uuidReads h; timers := timers h |}).

(** [setTimeout(() => this.sessions.delete(instanceId), ms)] *)
Definition scheduleEviction (ms : Z) (instanceId : string) : M unit := fun w =>
  let h := host w in
  (Ok tt,
   withHost w {| files := files h; directories := directories h; clock := clock h;
                 toISOString := toISOString h; clockReads := clockReads h;
                 uuidv4 := uuidv4 h; uuidReads := uuidReads h;
                 timers := timers h ++ [(ms, instanceId)] |}).

Definition getRecorder : M SessionRecorder := fun w => (Ok (recorder w), w).

Definition setSession (instanceId : string) (s : Session.t) : M unit := fun w =>
  (Ok tt, withSessions w (mapSet instanceId s (sessions (recorder w)))).

(** [path.join(dir, name)] for a plain directory and file name. *)
Definition pathJoin (dir name : string) : string := (dir ++ "/" ++ name)%string.

(** [s.replace(/[:.]/g, '-')] *)
Fixpoint dashes (s : string) : string :=
  match s with
  | EmptyString => EmptyString
  | String c rest =>
      String (if Ascii.eqb c ":" || Ascii.eqb c "." then "-"%char else c) (dashes rest)
  end.

Definition ensureSessionsDir : M unit :=
  r <- getRecorder ;;
  fun w =>
    if includes (directories (host w)) (sessionsDir r) then (Ok tt, w)
    else mkdir (sessionsDir r) w.

Definition getSession (instanceId : string) : M (option Session.t) :=
  r <- getRecorder ;; ret (mapGet instanceId (sessions r)).

Definition getAllSessions : M (list Session.t) :=
  r <- getRecorder ;; ret (map snd (sessions r)).

Definition saveSession (instanceId : string) : M string :=
  r <- getRecorder ;;
  match mapGet instanceId (sessions r) with
  | None => throw ("Session not found for instance: " ++ instanceId)%string
  | Some session =>
      _ <- ensureSessionsDir ;;
      stamp <- nowISO ;;
      let filename :=
        ("session_" ++ Session.id session ++ "_" ++ dashes stamp ++ ".json")%string in
      let filepath := pathJoin (sessionsDir r) filename in
      match JSON.stringify (sessionToJs session) with
      | Some text => _ <- writeFile filepath text ;; ret filepath
      | None => throw "TypeError: The data argument must be of type string"
      end
  end.

Definition loadSession (filepath : string) : M JsValue :=
  content <- readFile filepath ;;
  match JSON.parse content with
  | Some v => ret v
  | None => throw "SyntaxError: Unexpected token in JSON"
  end.

Definition startSession (instanceId : string) (config : StartConfig) : M string :=
  r <- getRecorder ;;
  if negb (recordingEnabled r) then ret EmptyString
  else
    sessionId <- newUuid ;;
    stamp <- nowISO ;;
    let session :=
      {| Session.id := sessionId;
         Session.instanceId := instanceId;
         Session.browserType := sc_browserType config;
         Session.startedAt := stamp;
         Session.endedAt := None;
         Session.actions := [];
         Session.metadata := sc_metadata config;
         Session.config :=
           Some {| headless := sc_headless config;
                   viewport := sc_viewport config;
                   userAgent := sc_userAgent config |} |} in
    _ <- setSession instanceId session ;;
    _ <- (if autoSave r then _ <- saveSession instanceId ;; ret tt else ret tt) ;;
    ret sessionId.

(** [action.result ? this.processResult(action.result, action.tool) : undefined] *)
Definition storedResult (captureFullPageData : bool) (action : ActionInput) : res JsValue :=
  if truthy (in_result action)
  then processResult captureFullPageData (in_result action) (in_tool action)
  else Ok JUndefined.

Definition recordAction (instanceId : string) (action : ActionInput) : M unit :=
  r <- getRecorder ;;
  if negb (recordingEnabled r) then ret tt
  else
    match mapGet instanceId (sessions r) with
    | None => ret tt
    | Some session =>
        startTime <- dateNow ;;
        recordId <- newUuid ;;
        stamp <- nowISO ;;
        let params := sanitizeParameters (in_parameters action) in
        stored <- liftRes (storedResult (captureFullPageData r) action) ;;
        finish <- dateNow ;;
        let actionRecord :=
          {| ActionRecord.id := recordId;
             ActionRecord.timestamp := stamp;
             ActionRecord.tool := in_tool action;
             ActionRecord.parameters := params;
             ActionRecord.result := stored;
             ActionRecord.error := in_error action;
             ActionRecord.duration := Some (finish - startTime)%Z;
             ActionRecord.metadata := in_metadata action;
             ActionRecord.pageData := in_pageData action |} in
        _ <- setSession instanceId (Session.push session actionRecord) ;;
        if autoSave r then _ <- saveSession instanceId ;; ret tt else ret tt
    end.

Definition endSession (instanceId : string) : M unit :=
  r <- getRecorder ;;
  if negb (recordingEnabled r) then ret tt
  else
    match mapGet instanceId (sessions r) with
    | None => ret tt
    | Some session =>
        stamp <- nowISO ;;
        _ <- setSession instanceId (Session.close session stamp) ;;
        _ <- (if autoSave r then _ <- saveSession instanceId ;; ret tt else ret tt) ;;
        scheduleEviction 60000 instanceId
    end.

Definition setRecordingEnabled (enabled : bool) : M unit := fun w =>
  (Ok tt,
   {| recorder :=
        {| sessions := sessions (recorder w);
           sessionsDir := sessionsDir (recorder w);
           autoSave := autoSave (recorder w);
           recordingEnabled := enabled;
           captureFullPageData := captureFullPageData (recorder w) |};
      host := host w |}).

Definition isRecordingEnabled : M bool :=
  r <- getRecorder ;; ret (recordingEnabled r).

Fixpoint mapDelete {V : Type} (k : string) (m : list (string * V)) : list (string * V) :=
  match m with
  | [] => []
  | (k', v) :: rest => if (k' =? k)%string then rest else (k', v) :: mapDelete k rest
  end.

(** The timer [endSession] left, when it fires: [this.sessions.delete(instanceId)]. *)
Definition evict (instanceId : string) : M unit := fun w =>
  (Ok tt, withSessions w (mapDelete instanceId (sessions (recorder w)))).

Definition clearSessions : M unit := fun w => (Ok tt, withSessions w []).

(** The options of the constructor and the recorder it builds in the working
    directory [cwd]; an absent option takes its default. *)
Record RecorderOptions : Type := {
  opt_sessionsDir : option string;
  opt_autoSave : option bool;
  opt_recordingEnabled : option bool;
  opt_captureFullPageData : option bool
}.

Definition newSessionRecorder (cwd : string) (options : RecorderOptions) : SessionRecorder :=
  {| sessions := [];
     sessionsDir :=
       match opt_sessionsDir options with
       | Some d => if (d =? "")%string then pathJoin cwd "sessions" else d
       | None => pathJoin cwd "sessions"
       end;
     autoSave := match opt_autoSave options with Some b => b | None => true end;
     recordingEnabled :=
       match opt_recordingEnabled options with Some b => b | None => true end;
     captureFullPageData :=
       match opt_captureFullPageData options with Some b => b | None => true end |}.

Definition readdir (dir : string) : M (list string) := fun w =>
  (Ok (flat_map
         (fun entry =>
            match stripPrefix (dir ++ "/")%string (fst entry) with
            | Some name => if includesStr name "/" then [] else [name]
            | None => []
            end)
         (files (host w))),
   w).

(** The loop of [listSavedSessions]: a file that does not load is skipped. *)
Fixpoint loadAll (dir : string) (names : list string) : M (list (string * JsValue)) :=
  match names with
  | [] => ret []
  | file :: rest =>
      if endsWith file ".json" then
        fun w =>
          match loadSession (pathJoin dir file) w with
          | (Ok session, w') =>
              (more <- loadAll dir rest ;; ret ((file, session) :: more)) w'
          | (Throw _, w') => loadAll dir rest w'
          end
      else loadAll dir rest
  end.

Definition listSavedSessions : M (list (string * JsValue)) :=
  r <- getRecorder ;;
  _ <- ensureSessionsDir ;;
  names <- readdir (sessionsDir r) ;;
  loadAll (sessionsDir r) names.

(** The loop of [findSessionById]; reading [id] of a document that is [null]
    throws, which the enclosing [try] turns into "not found". *)
Fixpoint firstWithId (sessionId : string) (items : list (string * JsValue)) : option JsValue :=
  match items with
  | [] => None
  | (_, session) :: rest =>
      match getProp session "id" with
      | Ok i => if strictEq i (JStr sessionId) then Some session
                else firstWithId sessionId rest
      | Throw _ => None
      end
  end.

Definition findSessionById (sessionId : string) : M (option JsValue) := fun w =>
  match listSavedSessions w with
  | (Ok items, w') => (Ok (firstWithId sessionId items), w')
  | (Throw _, w') => (Ok None, w')
  end.

(** A loaded document used as a [Session].  What the code goes on to do with
    a document of another shape is outside this model, which stops there with
    an error. *)
Definition typed (v : JsValue) : M Session.t :=
  match asSession v with
  | Some s => ret s
  | None => throw "TypeError: the document is not a session"
  end.

(** ** Script export *)

Definition param (action : ActionRecord.t) (k : string) : res JsValue :=
  getProp (ActionRecord.parameters action) k.

(** [a ?? b] *)
Definition orElseNullish (a b : JsValue) : JsValue := if nullish a then b else a.

(** [a || b] *)
Definition orElse (a b : JsValue) : JsValue := if truthy a then a else b.

Definition actionToPlaywrightCommand (action : ActionRecord.t) : res (option string) :=
  let tool := ActionRecord.tool action in
  if (tool =? "browser_navigate")%string then
    let* url := param action "url" in
    Ok (Some ("await page.goto('" ++ toString url ++ "');")%string)
  else if (tool =? "browser_click")%string then
    let* selector := param action "selector" in
    Ok (Some ("await page.click('" ++ toString selector ++ "');")%string)
  else if (tool =? "browser_type")%string then
    let* selector := param action "selector" in
    let* text := param action "text" in
    Ok (Some ("await page.type('" ++ toString selector ++ "', '" ++ toString text ++ "');")%string)
  else if (tool =? "browser_fill")%string then
    let* selector := param action "selector" in
    let* value := param action "value" in
    Ok (Some ("await page.fill('" ++ toString selector ++ "', '" ++ toString value ++ "');")%string)
  else if (tool =? "browser_select_option")%string then
    let* selector := param action "selector" in
    let* value := param action "value" in
    Ok (Some ("await page.selectOption('" ++ toString selector ++ "', '"
                ++ toString value ++ "');")%string)
  else if (tool =? "browser_screenshot")%string then
    let* fullPage := param action "fullPage" in
    Ok (Some ("await page.screenshot({ fullPage: "
                ++ toString (orElseNullish fullPage (JBool false)) ++ " });")%string)
  else if (tool =? "browser_go_back")%string then Ok (Some "await page.goBack();")
  else if (tool =? "browser_go_forward")%string then Ok (Some "await page.goForward();")
  else if (tool =? "browser_refresh")%string then Ok (Some "await page.reload();")
  else if (tool =? "browser_wait_for_element")%string then
    let* selector := param action "selector" in
    Ok (Some ("await page.waitForSelector('" ++ toString selector ++ "');")%string)
  else if (tool =? "browser_evaluate")%string then
    let* script := param action "script" in
    Ok (Some ("await page.evaluate(() => { " ++ toString script ++ " });")%string)
  else Ok None.

Fixpoint commandLines (actions : list ActionRecord.t) : res (list string) :=
  match actions with
  | [] => Ok []
  | action :: rest =>
      let* command := actionToPlaywrightCommand action in
      let* more := commandLines rest in
      Ok (match command with
          | Some c => ("  " ++ c)%string :: more
          | None => more
          end)
  end.

Definition boolText (b : bool) : string := if b then "true" else "false".

Definition joinLines (lines : list string) : string :=
  String.concat (String JSON.newline "") lines.

Definition generatePlaywrightScript (session : Session.t) : res string :=
  let config := Session.config session in
  let vp := match config with Some c => viewport c | None => None end in
  let ua := match config with Some c => userAgent c | None => None end in
  let hl := match config with Some c => headless c | None => None end in
  let header :=
    [ ("// Generated Playwright script from session " ++ Session.id session)%string;
      ("// Created: " ++ Session.startedAt session)%string;
      "";
      "import { chromium, firefox, webkit } from 'playwright';";
      "";
      "async function replay() {";
      ("  const browser = await " ++ Session.browserType session ++ ".launch({")%string;
      ("    headless: " ++ boolText (match hl with Some b => b | None => true end))%string;
      "  });";
      "";
      "  const context = await browser.newContext({";
      match vp with
      | Some v =>
          ("    viewport: { width: " ++ decimal (width v) ++ ", height: "
             ++ decimal (height v) ++ " },")%string
      | None => ""
      end;
      match ua with
      | Some u => if (u =? "")%string then "" else ("    userAgent: '" ++ u ++ "'")%string
      | None => ""
      end;
      "  });";
      "";
      "  const page = await context.newPage();";
      "" ] in
  let* commands := commandLines (Session.actions session) in
  Ok (joinLines (header ++ commands
                   ++ [""; "  await browser.close();"; "}"; ""; "replay();"])).

Inductive ExportFormat : Type := FormatJson | FormatPlaywright.

Definition exportAsScript (instanceId : string) (format : ExportFormat) : M string :=
  r <- getRecorder ;;
  match mapGet instanceId (sessions r) with
  | None => throw ("Session not found for instance: " ++ instanceId)%string
  | Some session =>
      match format with
      | FormatJson =>
          match JSON.stringify (sessionToJs session) with
          | Some text => ret text
          | None => throw "TypeError: nothing to serialize"
          end
      | FormatPlaywright => liftRes (generatePlaywrightScript session)
      end
  end.

(** ** Test generation *)

Record TestOptions : Type := {
  testName : option string;
  expectedString : option string;
  timeout : option Z
}.

Definition actionToPlaywrightTest (action : ActionRecord.t) : res (option string) :=
  let tool := ActionRecord.tool action in
  if (tool =? "browser_navigate")%string then
    let* url := param action "url" in
    Ok (Some ("  await page.goto('" ++ toString url ++ "');")%string)
  else if (tool =? "browser_click")%string then
    let* selector := param action "selector" in
    Ok (Some ("  await page.click('" ++ toString selector ++ "');")%string)
  else if (tool =? "browser_type")%string then
    let* rawText := param action "text" in
    let* text := replaceQuotes rawText in
    let* selector := param action "selector" in
    Ok (Some ("  await page.type('" ++ toString selector ++ "', '" ++ text ++ "');")%string)
  else if (tool =? "browser_fill")%string then
    let* rawValue := param action "value" in
    let* value := replaceQuotes rawValue in
    let* selector := param action "selector" in
    Ok (Some ("  await page.fill('" ++ toString selector ++ "', '" ++ value ++ "');")%string)
  else if (tool =? "browser_select_option")%string then
    let* selector := param action "selector" in
    let* value := param action "value" in
    Ok (Some ("  await page.selectOption('" ++ toString selector ++ "', '"
                ++ toString value ++ "');")%string)
  else if (tool =? "browser_screenshot")%string then
    let* fullPage := param action "fullPage" in
    Ok (Some ("  await page.screenshot({ fullPage: "
                ++ toString (orElseNullish fullPage (JBool false)) ++ " });")%string)
  else if (tool =? "browser_go_back")%string then Ok (Some "  await page.goBack();")
  else if (tool =? "browser_go_forward")%string then Ok (Some "  await page.goForward();")
  else if (tool =? "browser_refresh")%string then Ok (Some "  await page.reload();")
  else if (tool =? "browser_wait_for_element")%string then
    let* selector := param action "selector" in
    let* timeout := param action "timeout" in
    Ok (Some ("  await page.waitForSelector('" ++ toString selector ++ "', { timeout: "
                ++ toString (orElse timeout (JNum 30000)) ++ " });")%string)
  else if (tool =? "browser_evaluate")%string then
    let* script := param action "script" in
    Ok (Some ("  await page.evaluate(() => { " ++ toString script ++ " });")%string)
  else Ok None.

Definition notCreateInstance (a : ActionRecord.t) : bool :=
  negb (ActionRecord.tool a =? "browser_create_instance")%string.

(** The loop of [generatePlaywrightTest] over the actions to replay. *)
Fixpoint testActionLines (actions : list ActionRecord.t) : res (list string) :=
  match actions with
  | [] => Ok []
  | action :: rest =>
      let comment := ("  // Action: " ++ ActionRecord.tool action)%string in
      let* code := actionToPlaywrightTest action in
      let* more := testActionLines rest in
      Ok (comment
            :: match code with Some c => [c] | None => [] end
            ++ ["  await page.waitForTimeout(100);"; ""] ++ more)
  end.

Definition livenessLines : list string :=
  ["  // Verify page loaded without errors";
   "  const url = page.url();";
   "  expect(url).toBeTruthy();"].

(** The text [generatePlaywrightTest] builds once the session is resolved. *)
Definition testSource (session : Session.t) (options : TestOptions) : res string :=
  let name :=
    match testName options with
    | Some n => if (n =? "")%string then ("Test session " ++ Session.id session)%string else n
    | None => ("Test session " ++ Session.id session)%string
    end in
  let limit :=
    match timeout options with
    | Some t => if (t =? 0)%Z then 30000%Z else t
    | None => 30000%Z
    end in
  let lines :=
    [ "import { test, expect } from '@playwright/test';";
      "";
      ("test('" ++ name ++ "', async ({ page }) => {")%string;
      ("  test.setTimeout(" ++ decimal limit ++ ");")%string;
      "" ] in
  let lines :=
    match Session.config session with
    | Some {| viewport := Some v |} =>
        lines ++ [ "  // Set viewport";
                   ("  await page.setViewportSize({ width: " ++ decimal (width v)
                      ++ ", height: " ++ decimal (height v) ++ " });")%string;
                   "" ]
    | _ => lines
    end in
  let actionsToReplay := filter notCreateInstance (Session.actions session) in
  let* body := testActionLines actionsToReplay in
  let lines := lines ++ body in
  let lines :=
    match expectedString options with
    | Some e =>
        if (e =? "")%string then lines
        else lines ++ [ "  // Verify expected content";
                        "  const content = await page.content();";
                        ("  expect(content).toContain('" ++ escapeQuotes e ++ "');")%string ]
    | None => lines
    end in
  let lines := lines ++ livenessLines in
  let lines := lines ++ ["});"] in
  Ok (joinLines lines).

Definition generatePlaywrightTest (sessionIdOrPath : string) (options : TestOptions) : M string :=
  session <-
    (if includesStr sessionIdOrPath "/" || includesStr sessionIdOrPath ".json" then
       v <- loadSession sessionIdOrPath ;; typed v
     else
       r <- getRecorder ;;
       match find (fun s => (Session.id s =? sessionIdOrPath)%string) (map snd (sessions r)) with
       | Some s => ret s
       | None =>
           found <- findSessionById sessionIdOrPath ;;
           match found with
           | Some v => typed v
           | None => throw ("Session not found: " ++ sessionIdOrPath)%string
           end
       end) ;;
  liftRes (testSource session options).

(** ** Result comparison *)

Record Comparison : Type := { match_ : bool; differences : JsValue }.

Definition pairOf (original replay : JsValue) : JsValue :=
  JObj [("original", original); ("replay", replay)].

Definition numSub (a b : option Z) : option Z :=
  match a, b with
  | Some x, Some y => Some (x - y)%Z
  | _, _ => None
  end.

Definition numAbs (a : option Z) : option Z := option_map Z.abs a.

Definition numToJs (a : option Z) : JsValue :=
  match a with
  | Some z => JNum z
  | None => JUndefined
  end.

(** [lengthDiff > originalLength * 0.1], decided on the integers: the
    difference exceeds a tenth of the length when ten times the difference
    exceeds the length.  The floating-point comparison gives the same answer
    for every length a string can have. *)
Definition exceedsTenth (lengthDiff originalLength : option Z) : bool :=
  match lengthDiff, originalLength with
  | Some d, Some n => (n <? 10 * d)%Z
  | _, _ => false
  end.

Definition compareResults (original replay : JsValue) (_tool : string) (compareContent : bool)
  : Comparison :=
  if negb compareContent then
    let same := strictEq (optGet original "success") (optGet replay "success") in
    {| match_ := same;
       differences := if negb same then pairOf original replay else JUndefined |}
  else
    let differences : Props := [] in
    let hasSignificantDifferences := false in
    let originalUrl := optGet (optGet original "data") "url" in
    let replayUrl := optGet (optGet replay "data") "url" in
    let '(differences, hasSignificantDifferences) :=
      if negb (strictEq originalUrl replayUrl)
      then (setProp differences "url" (pairOf originalUrl replayUrl), true)
      else (differences, hasSignificantDifferences) in
    let originalTitle := optGet (optGet original "data") "title" in
    let replayTitle := optGet (optGet replay "data") "title" in
    let differences :=
      if negb (strictEq originalTitle replayTitle)
      then setProp differences "title" (pairOf originalTitle replayTitle)
      else differences in
    let originalContent := optGet (optGet original "data") "content" in
    let replayContent := optGet (optGet replay "data") "content" in
    let differences :=
      if truthy originalContent && truthy replayContent then
        let originalLength := optGet originalContent "length" in
        let replayLength := optGet replayContent "length" in
        let lengthDiff := numAbs (numSub (toNumber originalLength) (toNumber replayLength)) in
        if exceedsTenth lengthDiff (toNumber originalLength)
        then setProp differences "contentLength"
               (JObj [("original", originalLength); ("replay", replayLength);
                      ("difference", numToJs lengthDiff)])
        else differences
      else differences in
    {| match_ := negb hasSignificantDifferences;
       differences := match differences with
                      | [] => JUndefined
                      | _ => JObj differences
                      end |}.

Definition pageStateActions : list string :=
  ["browser_navigate"; "browser_click"; "browser_type"; "browser_fill";
   "browser_select_option"; "browser_go_back"; "browser_go_forward";
   "browser_refresh"; "browser_evaluate"].

Definition isPageStateAction (tool : string) : bool := includes pageStateActions tool.

(** ** Replay *)

Record CreateConfig : Type := {
  cc_browserType : string;
  cc_headless : option bool;
  cc_viewport : option Viewport;
  cc_userAgent : option string
}.

(** What a replay does to its collaborators, in order. *)
Inductive ReplayEvent : Type :=
| Create (config : CreateConfig) (metadata : JsValue)
| Invoke (tool : string) (params : JsValue)
| Wait (ms : Z).

Record ReplayOutcome : Type := {
  ro_success : bool;
  ro_instanceId : JsValue;
  ro_errors : option (list string)
}.

Record ComparisonEntry : Type := {
  ce_actionId : string;
  ce_tool : string;
  ce_match : bool;
  ce_differences : JsValue
}.

Record VerifiedOutcome : Type := {
  vo_success : bool;
  vo_instanceId : JsValue;
  vo_comparison : option (list ComparisonEntry);
  vo_errors : option (list string);
  (** the action records of the replayed list, after the loop wrote to them *)
  vo_actions : list ActionRecord.t
}.

Record VerifyOptions : Type := {
  verifyResults : option bool;
  captureNewData : option bool;
  comparePageContent : option bool;
  stopOnError : option bool;
  delayBetweenActions : option Z
}.

Definition flag (o : option bool) : bool :=
  match o with
  | Some b => b
  | None => false
  end.

Definition nonEmpty {A : Type} (l : list A) : option (list A) :=
  match l with
  | [] => None
  | _ => Some l
  end.

Section Replay.

(** The browser manager and the tool surface. *)
Variable Env : Type.
Variable createInstance : CreateConfig -> JsValue -> Env -> res JsValue * Env.
Variable executeTools : string -> JsValue -> Env -> res JsValue * Env.
(** [capturePageData], which reads the live page and never throws. *)
Variable capturePageData : JsValue -> Env -> JsValue * Env.

Record ReplayState : Type := { env : Env; events : list ReplayEvent }.

Definition emit (st : ReplayState) (e : Env) (ev : list ReplayEvent) : ReplayState :=
  {| env := e; events := events st ++ ev |}.

Definition createConfigOf (sessionData : Session.t) : CreateConfig :=
  let c := Session.config sessionData in
  {| cc_browserType := Session.browserType sessionData;
     cc_headless := match c with Some c => headless c | None => None end;
     cc_viewport := match c with Some c => viewport c | None => None end;
     cc_userAgent := match c with Some c => userAgent c | None => None end |}.

(** [{ ...action.parameters, instanceId }] *)
Definition replayParams (action : ActionRecord.t) (instanceId : JsValue) : JsValue :=
  JObj (setProp (spread (ActionRecord.parameters action)) "instanceId" instanceId).

(** The loop of [replaySession]. *)
Fixpoint replayLoop (instanceId : JsValue) (actions : list ActionRecord.t)
    (errors : list string) (st : ReplayState) : list string * ReplayState :=
  match actions with
  | [] => (errors, st)
  | action :: rest =>
      let params := replayParams action instanceId in
      let '(r, e) := executeTools (ActionRecord.tool action) params (env st) in
      let st := emit st e [Invoke (ActionRecord.tool action) params] in
      match (let* result := r in
             let* success := getProp result "success" in
             Ok (result, success)) with
      | Ok (result, success) =>
          let errors :=
            if truthy success then errors
            else errors ++ [("Action " ++ ActionRecord.id action ++ " failed: "
                               ++ toString (optGet result "error"))%string] in
          replayLoop instanceId rest errors (emit st e [Wait 100])
      | Throw error =>
          replayLoop instanceId rest
            (errors ++ [("Action " ++ ActionRecord.id action ++ " error: " ++ error)%string])
            st
      end
  end.

Definition failedReplay (msg : string) : ReplayOutcome :=
  {| ro_success := false; ro_instanceId := JUndefined; ro_errors := Some [msg] |}.

(** [replaySession] once the session is at hand. *)
Definition replaySessionData (sessionData : Session.t) (st : ReplayState)
  : ReplayOutcome * ReplayState :=
  let config := createConfigOf sessionData in
  let '(created, e) := createInstance config (Session.metadata sessionData) (env st) in
  let st := emit st e [Create config (Session.metadata sessionData)] in
  match (let* createResult := created in
         let* success := getProp createResult "success" in
         if negb (truthy success) then Ok (inl (optGet createResult "error"))
         else
           let* data := getProp createResult "data" in
           let* instanceId := getProp data "instanceId" in
           Ok (inr instanceId)) with
  | Throw error => (failedReplay ("Replay failed: " ++ error)%string, st)
  | Ok (inl error) =>
      (failedReplay ("Failed to create instance: " ++ toString error)%string, st)
  | Ok (inr instanceId) =>
      let '(errors, st) := replayLoop instanceId (Session.actions sessionData) [] st in
      ({| ro_success := match errors with [] => true | _ => false end;
          ro_instanceId := instanceId;
          ro_errors := nonEmpty errors |}, st)
  end.

(** [typeof session === 'string' ? await this.loadSession(session) : session] *)
Definition sessionArgument (session : Session.t + string) : M Session.t :=
  match session with
  | inl s => ret s
  | inr filepath => v <- loadSession filepath ;; typed v
  end.

Definition replaySession (session : Session.t + string) (w : World) (st : ReplayState)
  : res ReplayOutcome * World * ReplayState :=
  match sessionArgument session w with
  | (Ok sessionData, w') =>
      let '(outcome, st') := replaySessionData sessionData st in
      (Ok outcome, w', st')
  | (Throw m, w') => (Throw m, w', st)
  end.

Record LoopState : Type := {
  ls_errors : list string;
  ls_comparison : list ComparisonEntry;
  ls_actions : list ActionRecord.t;
  ls_state : ReplayState
}.

(** The loop of [replaySessionWithVerification]; [i] counts from zero and
    [ls_actions] collects the records already passed. *)
Fixpoint verifyLoop (options : VerifyOptions) (instanceId : JsValue) (i : nat)
    (actions : list ActionRecord.t) (acc : LoopState) : LoopState :=
  match actions with
  | [] => acc
  | action :: rest =>
      let st := ls_state acc in
      let label :=
        ("Action " ++ decimal (Z.of_nat (i + 1)) ++ " ("
           ++ ActionRecord.tool action ++ ")")%string in
      let params := replayParams action instanceId in
      let '(r, e) := executeTools (ActionRecord.tool action) params (env st) in
      let st := emit st e [Invoke (ActionRecord.tool action) params] in
      let stop (errors : list string) :=
        {| ls_errors := errors; ls_comparison := ls_comparison acc;
           ls_actions := ls_actions acc ++ action :: rest; ls_state := st |} in
      match (let* result := r in
             let* success := getProp result "success" in
             Ok (result, success)) with
      | Throw error =>
          let errors := ls_errors acc ++ [(label ++ " error: " ++ error)%string] in
          if flag (stopOnError options) then stop errors
          else
            verifyLoop options instanceId (S i) rest
              {| ls_errors := errors; ls_comparison := ls_comparison acc;
                 ls_actions := ls_actions acc ++ [action]; ls_state := st |}
      | Ok (result, success) =>
          let errors :=
            if truthy success then ls_errors acc
            else ls_errors acc
                   ++ [(label ++ " failed: " ++ toString (optGet result "error"))%string] in
          if negb (truthy success) && flag (stopOnError options) then stop errors
          else
            let comparison :=
              if flag (verifyResults options) && truthy (ActionRecord.result action) then
                let c := compareResults (ActionRecord.result action) result
                           (ActionRecord.tool action) (flag (comparePageContent options)) in
                ls_comparison acc
                  ++ [{| ce_actionId := ActionRecord.id action;
                         ce_tool := ActionRecord.tool action;
                         ce_match := match_ c;
                         ce_differences := differences c |}]
              else ls_comparison acc in
            let '(action', st) :=
              if flag (captureNewData options) && isPageStateAction (ActionRecord.tool action)
              then
                let '(pageData, e') := capturePageData instanceId (env st) in
                (ActionRecord.withPageData action pageData, emit st e' [])
              else (action, st) in
            let delay :=
              match delayBetweenActions options with
              | Some d => d
              | None => 100%Z
              end in
            verifyLoop options instanceId (S i) rest
              {| ls_errors := errors; ls_comparison := comparison;
                 ls_actions := ls_actions acc ++ [action'];
                 ls_state := emit st (env st) [Wait delay] |}
      end
  end.

Definition failedVerification (msg : string) (actions : list ActionRecord.t)
  : VerifiedOutcome :=
  {| vo_success := false; vo_instanceId := JUndefined; vo_comparison := None;
     vo_errors := Some [msg]; vo_actions := actions |}.

Definition replayVerifiedData (sessionData : Session.t) (options : VerifyOptions)
    (st : ReplayState) : VerifiedOutcome * ReplayState :=
  let actionsToReplay := filter notCreateInstance (Session.actions sessionData) in
  let config := createConfigOf sessionData in
  let '(created, e) := createInstance config (Session.metadata sessionData) (env st) in
  let st := emit st e [Create config (Session.metadata sessionData)] in
  match (let* createResult := created in
         let* success := getProp createResult "success" in
         if negb (truthy success) then Ok (inl (optGet createResult "error"))
         else
           let* data := getProp createResult "data" in
           let* instanceId := getProp data "instanceId" in
           Ok (inr instanceId)) with
  | Throw error =>
      (failedVerification ("Replay failed: " ++ error)%string actionsToReplay, st)
  | Ok (inl error) =>
      (failedVerification ("Failed to create instance: " ++ toString error)%string
         actionsToReplay, st)
  | Ok (inr instanceId) =>
      let final :=
        verifyLoop options instanceId 0 actionsToReplay
          {| ls_errors := []; ls_comparison := []; ls_actions := []; ls_state := st |} in
      ({| vo_success := match ls_errors final with [] => true | _ => false end;
          vo_instanceId := instanceId;
          vo_comparison := nonEmpty (ls_comparison final);
          vo_errors := nonEmpty (ls_errors final);
          vo_actions := ls_actions final |}, ls_state final)
  end.

Definition replaySessionWithVerification (session : Session.t + string)
    (options : VerifyOptions) (w : World) (st : ReplayState)
  : res VerifiedOutcome * World * ReplayState :=
  match sessionArgument session w with
  | (Ok sessionData, w') =>
      let '(outcome, st') := replayVerifiedData sessionData options st in
      (Ok outcome, w', st')
  | (Throw m, w') => (Throw m, w', st)
  end.

(** The tool calls among the events. *)
Fixpoint invocations (evs : list ReplayEvent) : list (string * JsValue) :=
  match evs with
  | [] => []
  | Invoke tool params :: rest => (tool, params) :: invocations rest
  | _ :: rest => invocations rest
  end.

(** A creation that succeeds with the identity [instanceId]. *)
Definition creates (sessionData : Session.t) (st : ReplayState) (instanceId : JsValue)
  : Prop :=
  exists createResult success data e,
    createInstance (createConfigOf sessionData) (Session.metadata sessionData) (env st)
    = (Ok createResult, e) /\
    getProp createResult "success" = Ok success /\ truthy success = true /\
    getProp createResult "data" = Ok data /\
    getProp data "instanceId" = Ok instanceId.

End Replay.

(** ** The sanitizer on shared objects

    The caller of [recordAction] keeps its parameter and result objects.  Here
    an object is a cell of a store and a value refers to it, so that a write
    through one reference is seen through every other one. *)

Module Shared.

Inductive value : Type :=
| VUndefined
| VNull
| VBool (b : bool)
| VNum (z : Z)
| VStr (s : string)
| VRef (l : nat).

Inductive cell : Type :=
| Plain (props : list (string * value))
| Array (items : list value).

Definition heap : Type := list cell.

Definition deref (h : heap) (l : nat) : cell := nth l h (Plain []).

(** A new object. *)
Definition alloc (h : heap) (c : cell) : nat * heap := (List.length h, h ++ [c]).

Fixpoint store (h : heap) (l : nat) (c : cell) : heap :=
  match h, l with
  | [], _ => []
  | _ :: rest, 0 => c :: rest
  | x :: rest, S l' => x :: store rest l' c
  end.

(** The value a reference stands for, read [fuel] levels deep. *)
Fixpoint reify (fuel : nat) (h : heap) (v : value) : JsValue :=
  match v with
  | VUndefined => JUndefined
  | VNull => JNull
  | VBool b => JBool b
  | VNum z => JNum z
  | VStr s => JStr s
  | VRef l =>
      match fuel with
      | 0 => JUndefined
      | S fuel' =>
          match deref h l with
          | Plain props => JObj (map (fun kv => (fst kv, reify fuel' h (snd kv))) props)
          | Array items => JArr (map (reify fuel' h) items)
          end
      end
  end.

(** What a holder of [v] can observe of it. *)
Definition observe (h : heap) (v : value) : JsValue := reify (S (List.length h)) h v.

Definition truthy (v : value) : bool :=
  match v with
  | VUndefined | VNull => false
  | VBool b => b
  | VNum z => negb (z =? 0)%Z
  | VStr s => negb (s =? "")%string
  | VRef _ => true
  end.

Definition propOf (ps : list (string * value)) (k : string) : value :=
  match mapGet k ps with
  | Some x => x
  | None => VUndefined
  end.

Definition getProp (h : heap) (v : value) (k : string) : res value :=
  match v with
  | VUndefined => Throw "TypeError: Cannot read properties of undefined"
  | VNull => Throw "TypeError: Cannot read properties of null"
  | VRef l =>
      match deref h l with
      | Plain props => Ok (propOf props k)
      | Array items =>
          Ok (if (k =? "length")%string then VNum (Z.of_nat (List.length items))
              else VUndefined)
      end
  | VStr s =>
      Ok (if (k =? "length")%string then VNum (Z.of_nat (String.length s)) else VUndefined)
  | VBool _ | VNum _ => Ok VUndefined
  end.

Definition optGet (h : heap) (v : value) (k : string) : value :=
  match getProp h v k with
  | Ok x => x
  | Throw _ => VUndefined
  end.

Definition assign (h : heap) (o : value) (k : string) (v : value) : res heap :=
  match o with
  | VRef l =>
      match deref h l with
      | Plain props => Ok (store h l (Plain (mapSet k v props)))
      | Array _ => Throw "TypeError: Cannot create property"
      end
  | VUndefined | VNull => Throw "TypeError: Cannot set properties of undefined"
  | _ => Throw "TypeError: Cannot create property"
  end.

Fixpoint indexedFrom {A : Type} (f : A -> value) (i : nat) (l : list A)
  : list (string * value) :=
  match l with
  | [] => []
  | x :: rest => (indexKey i, f x) :: indexedFrom f (S i) rest
  end.

Definition spread (h : heap) (v : value) : list (string * value) :=
  match v with
  | VRef l =>
      match deref h l with
      | Plain props => props
      | Array items => indexedFrom (fun x => x) 0 items
      end
  | VStr s => indexedFrom (fun c => VStr (String c "")) 0 (list_ascii_of_string s)
  | _ => []
  end.

Definition toNumber (h : heap) (v : value) : option Z := toNumber (observe h v).

Definition substring0 (v : value) (n : nat) : res string :=
  match v with
  | VStr s => Ok (String.substring 0 n s)
  | VUndefined | VNull => Throw "TypeError: Cannot read properties of undefined"
  | _ => Throw "TypeError: substring is not a function"
  end.

Definition redactField (sanitized : value) (h : res heap) (field : string) : res heap :=
  let* h := h in
  if truthy (optGet h sanitized field)
  then assign h sanitized field (VStr REDACTED)
  else Ok h.

Definition sanitizeParameters (h : heap) (params : value) : res (value * heap) :=
  let '(l, h) := alloc h (Plain (spread h params)) in
  let sanitized := VRef l in
  let* h := fold_left (redactField sanitized) sensitiveFields (Ok h) in
  let* h :=
    if truthy (optGet h sanitized "screenshot")
    then assign h sanitized "screenshot" (VStr SCREENSHOT_DATA)
    else Ok h in
  Ok (sanitized, h).

(** [if (sanitized.data?.f && sanitized.data.f.length > 1000)
       sanitized.data.f = sanitized.data.f.substring(0, 1000) + '...[TRUNCATED]'] *)
Definition truncateField (field : string) (sanitized : value) (h : heap) : res heap :=
  let data := optGet h sanitized "data" in
  let f := optGet h data field in
  if truthy f && numGt (toNumber h (optGet h f "length")) (Some 1000%Z)
  then
    let* cut := substring0 f 1000 in
    assign h data field (VStr (cut ++ TRUNCATED)%string)
  else Ok h.

Definition placeholderScreenshot (sanitized : value) (h : heap) : res heap :=
  let data := optGet h sanitized "data" in
  if truthy (optGet h data "screenshot")
  then assign h data "screenshot" (VStr SCREENSHOT_DATA)
  else Ok h.

Definition sanitizeResult (h : heap) (result : value) : res (value * heap) :=
  if negb (truthy result) then Ok (result, h) else
  let* data := getProp h result "data" in
  if negb (truthy data) then Ok (result, h) else
  let '(l, h) := alloc h (Plain (spread h result)) in
  let sanitized := VRef l in
  let* h := truncateField "html" sanitized h in
  let* h := placeholderScreenshot sanitized h in
  let* h := truncateField "markdown" sanitized h in
  let* h := truncateField "content" sanitized h in
  Ok (sanitized, h).

Definition processResult (captureFullPageData : bool) (h : heap) (result : value)
    (tool : string) : res (value * heap) :=
  if negb (truthy result) then Ok (result, h) else
  if captureFullPageData && includes dataCapturingTools tool then Ok (result, h)
  else sanitizeResult h result.

(** The two payloads of an [ActionRecord] as [recordAction] computes them
    from the caller's objects. *)
Definition recordedPayload (captureFullPageData : bool) (h : heap)
    (tool : string) (parameters result : value) : res (value * value * heap) :=
  let* sanitized := sanitizeParameters h parameters in
  let* processed :=
    if truthy result then processResult captureFullPageData (snd sanitized) result tool
    else Ok (VUndefined, snd sanitized) in
  Ok (fst sanitized, fst processed, snd processed).

End Shared.

(** ** Sample data

    A host, two recorders and a few payloads on which the properties below
    are evaluated. *)

Definition sampleHost : Host :=
  {| files := [];
     directories := [];
     clock := fun n => (1755000000000 + Z.of_nat n)%Z;
     toISOString := fun ms => ("2025-08-12T09:13:34." ++ decimal (ms mod 1000) ++ "Z")%string;
     clockReads := 0;
     uuidv4 := fun n => ("e0bd2f64-0000-4000-8000-" ++ decimal (Z.of_nat n))%string;
     uuidReads := 0;
     timers := [] |}.

Definition sampleSession : Session.t :=
  {| Session.id := "e0bd2f64";
     Session.instanceId := "instance-1";
     Session.browserType := "chromium";
     Session.startedAt := "2025-08-12T09:13:34.000Z";
     Session.endedAt := None;
     Session.actions := [];
     Session.metadata := JObj [("name", JStr "login flow")];
     Session.config :=
       Some {| headless := Some true;
               viewport := Some {| width := 1280; height := 720 |};
               userAgent := Some "Mozilla/5.0" |} |}.

Definition recorderWith (enabled capture : bool) (open : list (string * Session.t))
  : SessionRecorder :=
  {| sessions := open; sessionsDir := "/tmp/sessions"; autoSave := true;
     recordingEnabled := enabled; captureFullPageData := capture |}.

(** Recording on, one open session. *)
Definition sampleWorld (capture : bool) : World :=
  {| recorder := recorderWith true capture [("instance-1", sampleSession)];
     host := sampleHost |}.

(** Recording off. *)
Definition silentWorld : World :=
  {| recorder := recorderWith false true []; host := sampleHost |}.

Definition sampleStart : StartConfig :=
  {| sc_browserType := "chromium"; sc_headless := Some true;
     sc_viewport := Some {| width := 1280; height := 720 |};
     sc_userAgent := None; sc_metadata := JUndefined |}.

Definition inputOf (tool : string) (parameters result : JsValue) : ActionInput :=
  {| in_tool := tool; in_parameters := parameters; in_result := result;
     in_error := None; in_metadata := JUndefined; in_pageData := JUndefined |}.

Definition recordOf (id tool : string) (parameters result : JsValue) : ActionRecord.t :=
  {| ActionRecord.id := id;
     ActionRecord.timestamp := "2025-08-12T09:13:35.000Z";
     ActionRecord.tool := tool;
     ActionRecord.parameters := parameters;
     ActionRecord.result := result;
     ActionRecord.error := None;
     ActionRecord.duration := Some 12%Z;
     ActionRecord.metadata := JUndefined;
     ActionRecord.pageData := JUndefined |}.

Definition sessionOf (actions : list ActionRecord.t) : Session.t :=
  {| Session.id := Session.id sampleSession;
     Session.instanceId := Session.instanceId sampleSession;
     Session.browserType := Session.browserType sampleSession;
     Session.startedAt := Session.startedAt sampleSession;
     Session.endedAt := None;
     Session.actions := actions;
     Session.metadata := Session.metadata sampleSession;
     Session.config := Session.config sampleSession |}.

(** A string of [n] copies of ["X"]. *)
Fixpoint xs (n : nat) : string :=
  match n with
  | 0 => EmptyString
  | S m => String "X" (xs m)
  end.

(** The parameters of the actions the store has recorded for an instance. *)
Definition recordedParameters (w : World) (i : string) : option (list JsValue) :=
  option_map (fun s => map ActionRecord.parameters (Session.actions s))
             (mapGet i (sessions (recorder w))).


(** The fields [sanitizeResult] truncates. *)
Definition largeFields : list string := ["html"; "markdown"; "content"].

(** A field the truncation can read: a string, or nothing to truncate. *)
Definition stringOrFalsy (v : JsValue) : bool :=
  match v with
  | JStr _ => true
  | _ => negb (truthy v)
  end.

(** A browser manager and a tool surface for evaluation: the state counts the
    instances created so far, and every call succeeds. *)
Definition countingCreate (_ : CreateConfig) (_ : JsValue) (n : nat) : res JsValue * nat :=
  (Ok (JObj [("success", JBool true);
             ("data", JObj [("instanceId", JStr ("replay-" ++ decimal (Z.of_nat n))%string)])]),
   S n).

Definition countingExecute (tool : string) (_ : JsValue) (n : nat) : res JsValue * nat :=
  (Ok (JObj [("success", JBool true)]),
   if (tool =? "browser_create_instance")%string then S n else n).

Definition noCapture (_ : JsValue) (n : nat) : JsValue * nat := (JNull, n).

Definition freshReplay : ReplayState nat := {| env := 0; events := [] |}.

(** A recorded session as the tool surface produces it: the creation of the
    instance, then a navigation. *)
Definition recordedVisit : Session.t :=
  sessionOf
    [recordOf "a1" "browser_create_instance" (JObj [("browserType", JStr "chromium")])
       (JObj [("instanceId", JStr "instance-1")]);
     recordOf "a2" "browser_navigate"
       (JObj [("instanceId", JStr "instance-1"); ("url", JStr "https://example.com")])
       (JObj [("url", JStr "https://example.com")])].

Definition plainOptions : VerifyOptions :=
  {| verifyResults := None; captureNewData := None; comparePageContent := None;
     stopOnError := None; delayBetweenActions := None |}.

(** A [type] action whose text holds a quote. *)
Definition typeOBrien : ActionRecord.t :=
  recordOf "a3" "browser_type"
    (JObj [("instanceId", JStr "instance-1"); ("selector", JStr "#name");
           ("text", JStr "O'Brien")])
    JUndefined.

(** A caller's result object and its nested [data] object, as two cells. *)
Definition callerHeap : Shared.heap :=
  [Shared.Plain [("html", Shared.VStr (xs 1200))];
   Shared.Plain [("success", Shared.VBool true); ("data", Shared.VRef 0)];
   Shared.Plain [("selector", Shared.VStr "#go")]].

Definition callerResult : Shared.value := Shared.VRef 1.
Definition callerParameters : Shared.value := Shared.VRef 2.

Definition isString (v : JsValue) : bool :=
  match v with
  | JStr _ => true
  | _ => false
  end.

(** An action the test generator can turn into a statement: its parameters
    are an object, and the text of a [type] and the value of a [fill] are
    strings. *)
Definition generable (a : ActionRecord.t) : bool :=
  match ActionRecord.parameters a with
  | JObj ps =>
      (if (ActionRecord.tool a =? "browser_type")%string
       then isString (propOf ps "text") else true)
      && (if (ActionRecord.tool a =? "browser_fill")%string
          then isString (propOf ps "value") else true)
  | _ => false
  end.

(** The last lines of every generated test. *)
Definition livenessSuffix : string :=
  String JSON.newline (joinLines (livenessLines ++ ["});"])).

(** The parts [JSON.serialize] joins for an array and for an object. *)
Definition elementTexts (indent : nat) (items : list JsValue) : list string :=
  map (fun x =>
         match JSON.serialize (indent + 2) x with
         | Some t => t
         | None => "null"
         end) items.

Fixpoint memberTexts (indent : nat) (ps : list (string * JsValue)) : list string :=
  match ps with
  | [] => []
  | (k, x) :: rest =>
      match JSON.serialize (indent + 2) x with
      | Some t => (JSON.quote k ++ ": " ++ t)%string :: memberTexts indent rest
      | None => memberTexts indent rest
      end
  end.

(** What may follow the digits of a number in a text. *)
Definition endsNumber (rest : string) : bool :=
  match rest with
  | EmptyString => true
  | String c _ =>
      negb (isDigit c) && negb (Ascii.eqb c "." || Ascii.eqb c "e" || Ascii.eqb c "E")
  end.

Fixpoint uniqueKeys (ps : list (string * JsValue)) : bool :=
  match ps with
  | [] => true
  | (k, _) :: rest => negb (JSON.keyIn k rest) && uniqueKeys rest
  end.

(** The line break and indentation between two parts of an array or object. *)
Definition separator (indent : nat) : string :=
  String "," (String JSON.newline (JSON.spaces (indent + 2))).

(** A value whose text, at any indentation and before any continuation that
    cannot extend a number, parses back to the value with enough fuel. *)
Definition parsesBack (v : JsValue) : Prop :=
  JSON.representable v = true ->
  forall (indent : nat) (text : string) (fuel : nat) (s rest : string),
    JSON.serialize indent v = Some text ->
    JSON.skipWs s = (text ++ rest)%string ->
    String.length text < fuel ->
    endsNumber rest = true ->
    JSON.parseValue fuel s = Some (v, rest).

(** [truncateField] and [placeholderScreenshot] as functions on the
    properties of the [data] object. *)
Definition truncated (f : string) (dps : Props) : Props :=
  match propOf dps f with
  | JStr s =>
      if (1000 <? String.length s)%nat
      then setProp dps f (JStr (String.substring 0 1000 s ++ TRUNCATED)%string)
      else dps
  | _ => dps
  end.

Definition screenshotReplaced (dps : Props) : Props :=
  if truthy (propOf dps "screenshot")
  then setProp dps "screenshot" (JStr SCREENSHOT_DATA)
  else dps.

(** The [data] object after [sanitizeResult]. *)
Definition sanitizedData (dps : Props) : Props :=
  truncated "content" (truncated "markdown" (screenshotReplaced (truncated "html" dps))).



(** Every quote of [s] comes right after a backslash; [afterBackslash] tells
    whether the character before [s] is one. *)
Fixpoint quotesEscaped (afterBackslash : bool) (s : string) : bool :=
  match s with
  | EmptyString => true
  | String c rest =>
      if Ascii.eqb c "'"%char then afterBackslash && quotesEscaped false rest
      else quotesEscaped (Ascii.eqb c "\"%char) rest
  end.

(** A session as [startSession] builds it when no metadata and no user agent
    are given: those fields are [undefined]. *)
Definition freshSession : Session.t :=
  {| Session.id := "e0bd2f64";
     Session.instanceId := "instance-1";
     Session.browserType := "chromium";
     Session.startedAt := "2025-08-12T09:13:34.000Z";
     Session.endedAt := None;
     Session.actions := [];
     Session.metadata := JUndefined;
     Session.config :=
       Some {| headless := Some true;
               viewport := Some {| width := 1280; height := 720 |};
               userAgent := None |} |}.

(** A [type] action recorded without its text. *)
Definition typeWithoutText : ActionRecord.t :=
  recordOf "a5" "browser_type" (JObj [("selector", JStr "#q")]) JUndefined.

(** Fuel that parses a text parses it with every fuel above the number of
    characters read, and a parse reads at least one character. *)
Definition fuelEnough (fuel : nat) : Prop :=
  (forall s v rest,
     JSON.parseValue fuel s = Some (v, rest) ->
     String.length rest < String.length s /\
     forall fuel', String.length s - String.length rest < fuel' ->
                   JSON.parseValue fuel' s = Some (v, rest))
  /\ (forall s items rest,
        JSON.parseElements fuel s = Some (items, rest) ->
        String.length rest < String.length s /\
        forall fuel', String.length s - String.length rest < fuel' ->
                      JSON.parseElements fuel' s = Some (items, rest))
  /\ (forall s entries rest,
        JSON.parseMembers fuel s = Some (entries, rest) ->
        String.length rest < String.length s /\
        forall fuel', String.length s - String.length rest < fuel' ->
                      JSON.parseMembers fuel' s = Some (entries, rest)).

(** * Statistics, saved tests and the tool surface *)

(** ** What a saved file holds

    [JSON.stringify] leaves a member that is [undefined] out of its object
    and writes an item that is [undefined] as [null]; [written v] is the
    value whose text [v] gets. *)

Fixpoint written (v : JsValue) : JsValue :=
  match v with
  | JArr items =>
      JArr (map (fun x => match x with JUndefined => JNull | _ => written x end) items)
  | JObj props =>
      JObj ((fix members (ps : list (string * JsValue)) : list (string * JsValue) :=
               match ps with
               | [] => []
               | (k, x) :: rest =>
                   match x with
                   | JUndefined => members rest
                   | _ => (k, written x) :: members rest
                   end
               end) props)
  | _ => v
  end.

(** The members [written] keeps of a property list. *)
Fixpoint writtenMembers (ps : list (string * JsValue)) : list (string * JsValue) :=
  match ps with
  | [] => []
  | (k, x) :: rest =>
      match x with
      | JUndefined => writtenMembers rest
      | _ => (k, written x) :: writtenMembers rest
      end
  end.

Definition writtenItem (x : JsValue) : JsValue :=
  match x with
  | JUndefined => JNull
  | _ => written x
  end.

(** An action record and a session as their saved file gives them back: the
    [any]-typed payloads are the written ones. *)
Definition writtenAction (a : ActionRecord.t) : ActionRecord.t :=
  {| ActionRecord.id := ActionRecord.id a;
     ActionRecord.timestamp := ActionRecord.timestamp a;
     ActionRecord.tool := ActionRecord.tool a;
     ActionRecord.parameters := written (ActionRecord.parameters a);
     ActionRecord.result := written (ActionRecord.result a);
     ActionRecord.error := ActionRecord.error a;
     ActionRecord.duration := ActionRecord.duration a;
     ActionRecord.metadata := written (ActionRecord.metadata a);
     ActionRecord.pageData := written (ActionRecord.pageData a) |}.

Definition writtenSession (s : Session.t) : Session.t :=
  {| Session.id := Session.id s;
     Session.instanceId := Session.instanceId s;
     Session.browserType := Session.browserType s;
     Session.startedAt := Session.startedAt s;
     Session.endedAt := Session.endedAt s;
     Session.actions := map writtenAction (Session.actions s);
     Session.metadata := written (Session.metadata s);
     Session.config := Session.config s |}.

Definition isUndefined (v : JsValue) : bool :=
  match v with
  | JUndefined => true
  | _ => false
  end.

(** ** Session statistics *)

Module Stats.
Record t : Type := {
  totalActions : Z;
  (** [None] is NaN *)
  duration : option Z;
  toolUsage : list (string * Z);
  errorCount : Z
}.
End Stats.

(** The members every object literal inherits from [Object.prototype]. *)
Definition objectPrototypeKeys : list string :=
  ["constructor"; "__proto__"; "hasOwnProperty"; "isPrototypeOf";
   "propertyIsEnumerable"; "toLocaleString"; "toString"; "valueOf";
   "__defineGetter__"; "__defineSetter__"; "__lookupGetter__"; "__lookupSetter__"].

(** [toolUsage[tool] || 0] on the counts so far. *)
Definition usageOf (toolUsage : list (string * Z)) (tool : string) : Z :=
  match mapGet tool toolUsage with
  | Some n => if (n =? 0)%Z then 0%Z else n
  | None => 0%Z
  end.

(** The loop of [getSessionStats]:
    [toolUsage[action.tool] = (toolUsage[action.tool] || 0) + 1;
     if (action.error) errorCount++]. *)
Definition tally (acc : list (string * Z) * Z) (action : ActionRecord.t)
  : list (string * Z) * Z :=
  let '(toolUsage, errorCount) := acc in
  (mapSet (ActionRecord.tool action) (usageOf toolUsage (ActionRecord.tool action) + 1)%Z
          toolUsage,
   match ActionRecord.error action with
   | Some e => if (e =? "")%string then errorCount else (errorCount + 1)%Z
   | None => errorCount
   end).

Section SessionStatistics.

(** [new Date(text).getTime()]; [None] is NaN. *)
Variable getTime : string -> option Z.

(** A tool named like a member of [Object.prototype] reads that member where
    the loop expects a count; what the code computes from it is outside this
    model, which stops there with an error. *)
Definition getSessionStats (instanceId : string) : M (option Stats.t) :=
  r <- getRecorder ;;
  match mapGet instanceId (sessions r) with
  | None => ret None
  | Some session =>
      if existsb (fun a => includes objectPrototypeKeys (ActionRecord.tool a))
                 (Session.actions session)
      then throw "outside the model: a tool named like a member of Object.prototype"
      else
        let '(toolUsage, errorCount) := fold_left tally (Session.actions session) ([], 0%Z) in
        let started := getTime (Session.startedAt session) in
        duration <-
          match Session.endedAt session with
          | Some e =>
              if (e =? "")%string
              then now <- dateNow ;; ret (numSub (Some now) started)
              else ret (numSub (getTime e) started)
          | None => now <- dateNow ;; ret (numSub (Some now) started)
          end ;;
        ret (Some {| Stats.totalActions := Z.of_nat (List.length (Session.actions session));
                     Stats.duration := duration;
                     Stats.toolUsage := toolUsage;
                     Stats.errorCount := errorCount |})
  end.

End SessionStatistics.

(** The number of actions of a tool, and of actions that carry an error. *)
Definition timesUsed (tool : string) (actions : list ActionRecord.t) : Z :=
  Z.of_nat (List.length (filter (fun a => (ActionRecord.tool a =? tool)%string) actions)).

Definition failed (a : ActionRecord.t) : bool :=
  match ActionRecord.error a with
  | Some e => negb (e =? "")%string
  | None => false
  end.

Definition sumCounts (toolUsage : list (string * Z)) : Z :=
  fold_right (fun kv total => (snd kv + total)%Z) 0%Z toolUsage.

(** ** Saving a generated test *)








(** ** The recording calls of the tool surface

    [executeTools] of [tools.ts] hands each browser tool's outcome to
    [recordAction]. *)

(** The tools recorded with
    [result: result.success ? result.data : undefined, error: result.error]. *)
Definition plainlyRecordedTools : list string :=
  ["browser_navigate"; "browser_go_back"; "browser_go_forward"; "browser_refresh";
   "browser_click"; "browser_type"; "browser_fill"; "browser_select_option";
   "browser_get_page_info"; "browser_get_element_text"; "browser_get_element_attribute";
   "browser_wait_for_element"; "browser_wait_for_navigation"; "browser_evaluate"].

Definition recordedAs (name : string) (args result : JsValue) (recorded : JsValue)
  : ActionInput :=
  {| in_tool := name;
     in_parameters := args;
     in_result := if truthy (optGet result "success") then recorded else JUndefined;
     in_error := asString (optGet result "error");
     in_metadata := JUndefined;
     in_pageData := JUndefined |}.

(** The argument of [recordAction] for a tool call with the arguments [args]
    that gave [result], when the call is recorded at all.
    [browser_screenshot_describe] records
    [{ description: description.substring(0, 500) + '...' }] on its way to a
    successful result, whose [data.description] is that description, and
    nothing on the way to a failure. *)
Definition toolActionInput (name : string) (args result : JsValue) : option ActionInput :=
  if includes plainlyRecordedTools name then
    Some (recordedAs name args result (optGet result "data"))
  else if (name =? "browser_screenshot")%string then
    Some (recordedAs name args result (JObj [("screenshot", JStr "[SCREENSHOT_DATA]")]))
  else if (name =? "browser_get_markdown")%string then
    Some (recordedAs name args result (JObj [("markdown", JStr "[TRUNCATED]")]))
  else if (name =? "browser_screenshot_describe")%string then
    if truthy (optGet result "success") then
      match optGet (optGet result "data") "description" with
      | JStr description =>
          Some {| in_tool := name;
                  in_parameters := args;
                  in_result :=
                    JObj [("description", JStr (String.substring 0 500 description ++ "..."))];
                  in_error := None;
                  in_metadata := JUndefined;
                  in_pageData := JUndefined |}
      | _ => None
      end
    else None
  else None.

(** [sessions.get(key)] finds nothing under a key that is not a string. *)
Definition recordUnder (key : JsValue) (action : ActionInput) : M unit :=
  match key with
  | JStr instanceId => recordAction instanceId action
  | _ => ret tt
  end.

(** The recording step of [executeTools] after the tool [name] returned
    [result]: the creation of an instance is recorded under the new instance,
    the other tools under [args.instanceId]. *)
Definition recordToolCall (name : string) (args result : JsValue) : M unit :=
  if (name =? "browser_create_instance")%string then
    if truthy (optGet result "success")
       && truthy (optGet (optGet result "data") "instanceId")
    then
      recordUnder (optGet (optGet result "data") "instanceId")
        {| in_tool := name; in_parameters := args; in_result := optGet result "data";
           in_error := None; in_metadata := JUndefined; in_pageData := JUndefined |}
    else ret tt
  else
    match toolActionInput name args result with
    | Some action => recordUnder (optGet args "instanceId") action
    | None => ret tt
    end.

(** ** Generated script *)

(** The last lines of every exported script. *)
Definition scriptClosing : string :=
  String JSON.newline
    (joinLines [""; "  await browser.close();"; "}"; ""; "replay();"]).

(** An action whose parameters can be read: they are neither [undefined] nor
    [null]. *)
Definition hasParameters (a : ActionRecord.t) : bool :=
  negb (nullish (ActionRecord.parameters a)).

(** The tools for which the test generator differs from the script exporter. *)
Definition escapingTools : list string :=
  ["browser_type"; "browser_fill"; "browser_wait_for_element"].

(** The check of the expected text, as the last lines before the liveness
    lines. *)
Definition expectationLines (e : string) : list string :=
  [ "  // Verify expected content";
    "  const content = await page.content();";
    ("  expect(content).toContain('" ++ escapeQuotes e ++ "');")%string ].

(** ** What [saveSession] leaves behind *)

(** The instant the next reading of the clock gives, as [toISOString] prints
    it. *)
Definition nextStamp (w : World) : string :=
  toISOString (host w) (clock (host w) (clockReads (host w))).

(** The name and the path [saveSession] gives the file of the session [s]. *)
Definition savedName (w : World) (s : Session.t) : string :=
  ("session_" ++ Session.id s ++ "_" ++ dashes (nextStamp w) ++ ".json")%string.

Definition savedPath (w : World) (s : Session.t) : string :=
  pathJoin (sessionsDir (recorder w)) (savedName w s).

(** The host after [saveSession] wrote [text] for the session [s]. *)
Definition hostAfterSave (w : World) (s : Session.t) (text : string) : Host :=
  let h := host w in
  {| files := mapSet (savedPath w s) text (files h);
     directories :=
       if includes (directories h) (sessionsDir (recorder w)) then directories h
       else directories h ++ [sessionsDir (recorder w)];
     clock := clock h; toISOString := toISOString h; clockReads := S (clockReads h);
     uuidv4 := uuidv4 h; uuidReads := uuidReads h; timers := timers h |}.

(** The session [startSession] builds in the world [w]. *)
Definition openedSession (w : World) (instanceId : string) (config : StartConfig)
  : Session.t :=
  {| Session.id := uuidv4 (host w) (uuidReads (host w));
     Session.instanceId := instanceId;
     Session.browserType := sc_browserType config;
     Session.startedAt := nextStamp w;
     Session.endedAt := None;
     Session.actions := [];
     Session.metadata := sc_metadata config;
     Session.config :=
       Some {| headless := sc_headless config;
               viewport := sc_viewport config;
               userAgent := sc_userAgent config |} |}.

(** The sessions a world holds in memory, by instance. *)
Definition sessionOfInstance (w : World) (instanceId : string) : option Session.t :=
  mapGet instanceId (sessions (recorder w)).

(** A [Map] holds one entry per key. *)
Definition oneEntryPerKey {V : Type} (m : list (string * V)) : Prop :=
  NoDup (map fst m).

(** ** Sessions that a file holds in full

    A payload is stored in full when it is absent or JSON-representable. *)

Definition storable (v : JsValue) : bool := isUndefined v || JSON.representable v.

Definition storableAction (a : ActionRecord.t) : bool :=
  storable (ActionRecord.parameters a) && storable (ActionRecord.result a)
  && storable (ActionRecord.metadata a) && storable (ActionRecord.pageData a).

Definition storableSession (s : Session.t) : bool :=
  storable (Session.metadata s) && forallb storableAction (Session.actions s).

(** A member that is left out, or written in full. *)
Definition writable (v : JsValue) : bool := isUndefined v || JSON.representable (written v).

(** What [listSavedSessions] may list of the world [w]: a file of the
    sessions directory whose name ends in [.json] and whose text parses. *)
Definition listable (w : World) (item : string * JsValue) : Prop :=
  endsWith (fst item) ".json" = true /\
  exists text,
    mapGet (pathJoin (sessionsDir (recorder w)) (fst item)) (files (host w)) = Some text /\
    JSON.parse text = Some (snd item).

(** The count the loop of [getSessionStats] holds for a tool. *)
Definition countOf (toolUsage : list (string * Z)) (tool : string) : Z :=
  match mapGet tool toolUsage with
  | Some n => n
  | None => 0%Z
  end.

(** ** More sample data *)

(** A browser manager that refuses to create an instance, and a tool surface
    on which every call fails. *)
Definition refusingCreate (_ : CreateConfig) (_ : JsValue) (n : nat) : res JsValue * nat :=
  (Ok (JObj [("success", JBool false); ("error", JStr "no browser available")]), n).

Definition failingExecute (_ : string) (_ : JsValue) (n : nat) : res JsValue * nat :=
  (Ok (JObj [("success", JBool false); ("error", JStr "element not found")]), S n).

Definition stoppingOptions : VerifyOptions :=
  {| verifyResults := None; captureNewData := None; comparePageContent := None;
     stopOnError := Some true; delayBetweenActions := None |}.

(** A session of three actions, one of which failed. *)
Definition countedSession : Session.t :=
  sessionOf
    [recordOf "a1" "browser_navigate" (JObj [("url", JStr "https://example.com")]) JUndefined;
     {| ActionRecord.id := "a2";
        ActionRecord.timestamp := "2025-08-12T09:13:36.000Z";
        ActionRecord.tool := "browser_click";
        ActionRecord.parameters := JObj [("selector", JStr "#go")];
        ActionRecord.result := JUndefined;
        ActionRecord.error := Some "Click failed: timeout";
        ActionRecord.duration := Some 3%Z;
        ActionRecord.metadata := JUndefined;
        ActionRecord.pageData := JUndefined |};
     recordOf "a3" "browser_navigate" (JObj [("url", JStr "https://example.com/next")])
       JUndefined].

(** * Properties *)

(** ** Strings *)
Lemma append_assoc (a b c : string) : ((a ++ b) ++ c = a ++ (b ++ c))%string.
Proof. induction a as [|x a IH]; simpl; [reflexivity|now rewrite IH]. Qed.

Lemma append_nil_r (a : string) : (a ++ "")%string = a.
Proof. induction a as [|x a IH]; simpl; [reflexivity|now rewrite IH]. Qed.

Lemma length_append (a b : string) :
  String.length (a ++ b)%string = String.length a + String.length b.
Proof. induction a as [|c a IH]; simpl; [reflexivity|now rewrite IH]. Qed.

(** ** The JSON codec *)

(** *** Numbers *)

Lemma allDigits_string_of_uint (u : Decimal.uint) :
  allDigits (NilEmpty.string_of_uint u) = true.
Proof. induction u; simpl; trivial. Qed.

Lemma spanDigits_app (ds rest : string) :
  allDigits ds = true ->
  match rest with String c _ => isDigit c = false | EmptyString => True end ->
  JSON.spanDigits (ds ++ rest) = (ds, rest).
Proof.
  intros Hd Hr. induction ds as [|c ds IH]; simpl in *.
  - destruct rest as [|c r]; [reflexivity|]. simpl. now rewrite Hr.
  - apply andb_true_iff in Hd. destruct Hd as [Hc Hd].
    rewrite Hc, (IH Hd). reflexivity.
Qed.

Lemma endsNumber_no_digit (rest : string) :
  endsNumber rest = true ->
  match rest with String c _ => isDigit c = false | EmptyString => True end.
Proof.
  destruct rest as [|c r]; simpl; [trivial|].
  intros H. apply andb_true_iff in H. destruct H as [H _].
  now apply negb_true_iff in H.
Qed.

Lemma endsNumber_no_fraction (rest : string) :
  endsNumber rest = true -> JSON.startsFraction rest = false.
Proof.
  destruct rest as [|c r]; simpl; [trivial|].
  intros H. apply andb_true_iff in H. destruct H as [_ H].
  now apply negb_true_iff in H.
Qed.

Lemma to_uint_normal (p : positive) : Decimal.unorm (Pos.to_uint p) = Pos.to_uint p.
Proof.
  rewrite <- (DecimalPos.Unsigned.to_of (Pos.to_uint p)).
  now rewrite DecimalPos.Unsigned.of_to.
Qed.

(** A normal numeral is a single zero or starts with a digit other than zero. *)
Lemma wellFormedDigits_normal (u : Decimal.uint) :
  Decimal.unorm u = u -> JSON.wellFormedDigits (NilZero.string_of_uint u) = true.
Proof.
  intros Hn. destruct u; try reflexivity.
  rewrite unorm_D0 in Hn. unfold Decimal.unorm in Hn.
  destruct (Decimal.nzhead u) eqn:Hz; try discriminate.
  - injection Hn as <-. reflexivity.
  - exfalso. exact (nzhead_nonzero _ _ Hz).
Qed.

Lemma string_of_uint_head (u : Decimal.uint) :
  u <> Decimal.Nil ->
  exists c t, NilZero.string_of_uint u = String c t /\ isDigit c = true.
Proof.
  destruct u; intros H; try contradiction; simpl; eexists; eexists; split; reflexivity.
Qed.

Lemma string_of_uint_digits (u : Decimal.uint) :
  allDigits (NilZero.string_of_uint u) = true.
Proof.
  destruct u; try reflexivity; apply (allDigits_string_of_uint (_ u)).
Qed.

Lemma to_int_normal (z : Z) :
  match Z.to_int z with
  | Decimal.Pos u | Decimal.Neg u => Decimal.unorm u = u /\ u <> Decimal.Nil
  end.
Proof.
  destruct z as [|p|p]; simpl.
  - split; [reflexivity|discriminate].
  - split; [apply to_uint_normal|apply DecimalPos.Unsigned.to_uint_nonnil].
  - split; [apply to_uint_normal|apply DecimalPos.Unsigned.to_uint_nonnil].
Qed.

Lemma parseNumber_decimal (z : Z) (rest : string) :
  endsNumber rest = true ->
  JSON.parseNumber (decimal z ++ rest) = Some (JNum z, rest).
Proof.
  intros Hr. unfold decimal.
  pose proof (to_int_normal z) as Hn.
  pose proof (DecimalZ.of_to z) as Hz.
  destruct (Z.to_int z) as [u|u] eqn:Hd; destruct Hn as [Hn Hnil].
  - cbn [NilZero.string_of_int].
    destruct (string_of_uint_head u Hnil) as (c & t & Hs & Hc).
    unfold JSON.parseNumber. rewrite Hs.
    assert (Hminus : c <> "-"%char) by (intros ->; discriminate).
    cbn [append].
    destruct c as [[] [] [] [] [] [] [] []]; try (exfalso; apply Hminus; reflexivity);
      try discriminate Hc;
      (change (String ?a (t ++ rest)) with (String a t ++ rest)%string;
       rewrite <- Hs;
       rewrite (spanDigits_app _ rest (string_of_uint_digits u) (endsNumber_no_digit _ Hr));
       rewrite (wellFormedDigits_normal u Hn), (endsNumber_no_fraction _ Hr);
       cbn [andb negb append];
       change (NilZero.string_of_uint u) with (NilZero.string_of_int (Decimal.Pos u));
       rewrite NilZero.isi by (intro E; (discriminate E || (injection E as E; contradiction)));
       now rewrite Hz).
  - cbn [NilZero.string_of_int]. unfold JSON.parseNumber. cbn [append].
    rewrite (spanDigits_app _ rest (string_of_uint_digits u) (endsNumber_no_digit _ Hr)).
    rewrite (wellFormedDigits_normal u Hn), (endsNumber_no_fraction _ Hr).
    cbn [andb negb].
    change (NilZero.int_of_string _)
      with (NilZero.int_of_string (NilZero.string_of_int (Decimal.Neg u))).
    rewrite NilZero.isi; [now rewrite Hz|discriminate|].
    intro E. injection E as E. contradiction.
Qed.

(** *** Strings *)

Lemma parseChars_quoteChar (c : ascii) (t : string) :
  JSON.parseChars (JSON.quoteChar c ++ t) = JSON.consChar c (JSON.parseChars t).
Proof. destruct c as [[] [] [] [] [] [] [] []]; reflexivity. Qed.

Lemma parseChars_quoteBody (s rest : string) :
  JSON.parseChars (JSON.quoteBody s ++ String JSON.dquote rest) = Some (s, rest).
Proof.
  induction s as [|c s IH]; [reflexivity|].
  cbn [JSON.quoteBody]. rewrite append_assoc, parseChars_quoteChar, IH. reflexivity.
Qed.

Lemma quote_append (k rest : string) :
  (JSON.quote k ++ rest)%string
  = String JSON.dquote (JSON.quoteBody k ++ String JSON.dquote rest).
Proof. unfold JSON.quote. cbn [append]. now rewrite append_assoc. Qed.

(** *** White space *)

Lemma skipWs_spaces (n : nat) (s : string) :
  JSON.skipWs (JSON.spaces n ++ s) = JSON.skipWs s.
Proof. induction n as [|n IH]; [reflexivity|exact IH]. Qed.

Lemma skipWs_newline_spaces (n : nat) (s : string) :
  JSON.skipWs (String JSON.newline (JSON.spaces n ++ s)) = JSON.skipWs s.
Proof. change (JSON.skipWs (JSON.spaces n ++ s) = JSON.skipWs s). apply skipWs_spaces. Qed.

Lemma skipWs_head (c : ascii) (s : string) :
  JSON.isWs c = false -> JSON.skipWs (String c s) = String c s.
Proof. intros H. simpl. now rewrite H. Qed.

Lemma length_spaces (n : nat) : String.length (JSON.spaces n) = n.
Proof. induction n; simpl; auto. Qed.

(** *** The first character of a text *)

Lemma decimal_head (z : Z) :
  exists c t, decimal z = String c t /\ (isDigit c || Ascii.eqb c "-") = true.
Proof.
  unfold decimal. pose proof (to_int_normal z) as Hn.
  destruct (Z.to_int z) as [u|u]; destruct Hn as [_ Hnil].
  - destruct (string_of_uint_head u Hnil) as (c & t & Hs & Hc).
    exists c, t. cbn [NilZero.string_of_int]. now rewrite Hs, Hc.
  - eexists. eexists. split; reflexivity.
Qed.

Lemma numberHead_plain (c : ascii) :
  (isDigit c || Ascii.eqb c "-") = true ->
  JSON.isWs c = false /\ Ascii.eqb c "]" = false.
Proof. destruct c as [[] [] [] [] [] [] [] []]; try discriminate; split; reflexivity. Qed.

Lemma wrap_head (o : ascii) (closing : string) (indent : nat) (parts : list string) :
  exists t, JSON.wrap (String o "") closing indent parts = String o t.
Proof. destruct parts; simpl; eexists; reflexivity. Qed.

Lemma serialize_array (indent : nat) (items : list JsValue) :
  JSON.serialize indent (JArr items)
  = Some (JSON.wrap "[" "]" indent (elementTexts indent items)).
Proof. reflexivity. Qed.

Lemma serialize_object (indent : nat) (props : list (string * JsValue)) :
  JSON.serialize indent (JObj props)
  = Some (JSON.wrap "{" "}" indent (memberTexts indent props)).
Proof.
  cbn [JSON.serialize]. do 2 f_equal.
  induction props as [|[k x] rest IH]; [reflexivity|].
  cbn [memberTexts]. destruct (JSON.serialize (indent + 2) x); now rewrite IH.
Qed.

Lemma serialize_head (indent : nat) (v : JsValue) (text : string) :
  JSON.serialize indent v = Some text ->
  exists c t, text = String c t /\ JSON.isWs c = false /\ Ascii.eqb c "]" = false.
Proof.
  destruct v as [| |[]|z|s|items|props].
  - discriminate.
  - intros [= <-]. repeat eexists.
  - intros [= <-]. repeat eexists.
  - intros [= <-]. repeat eexists.
  - intros [= <-]. destruct (decimal_head z) as (c & t & -> & Hc).
    exists c, t. split; [reflexivity|]. now apply numberHead_plain.
  - intros [= <-]. repeat eexists.
  - rewrite serialize_array. intros [= <-].
    destruct (wrap_head "[" "]" indent (elementTexts indent items)) as [t ->].
    repeat eexists.
  - rewrite serialize_object. intros [= <-].
    destruct (wrap_head "{" "}" indent (memberTexts indent props)) as [t ->].
    repeat eexists.
Qed.

Lemma skipWs_text (indent : nat) (v : JsValue) (text rest : string) :
  JSON.serialize indent v = Some text ->
  JSON.skipWs (text ++ rest) = (text ++ rest)%string.
Proof.
  intros H. destruct (serialize_head indent v text H) as (c & t & -> & Hw & _).
  cbn [append]. now apply skipWs_head.
Qed.

Lemma serialize_representable (indent : nat) (v : JsValue) :
  JSON.representable v = true -> exists text, JSON.serialize indent v = Some text.
Proof.
  destruct v as [| |[]|z|s|items|props]; try discriminate; intros _;
    eexists; reflexivity.
Qed.

(** *** One step of [parseValue] after the white space *)

Lemma parseValue_null (f : nat) (s rest : string) :
  JSON.skipWs s = ("null" ++ rest)%string -> JSON.parseValue (S f) s = Some (JNull, rest).
Proof. intros H. cbn [JSON.parseValue]. rewrite H. reflexivity. Qed.

Lemma parseValue_true (f : nat) (s rest : string) :
  JSON.skipWs s = ("true" ++ rest)%string ->
  JSON.parseValue (S f) s = Some (JBool true, rest).
Proof. intros H. cbn [JSON.parseValue]. rewrite H. reflexivity. Qed.

Lemma parseValue_false (f : nat) (s rest : string) :
  JSON.skipWs s = ("false" ++ rest)%string ->
  JSON.parseValue (S f) s = Some (JBool false, rest).
Proof. intros H. cbn [JSON.parseValue]. rewrite H. reflexivity. Qed.

Lemma parseValue_number (f : nat) (s : string) (c : ascii) (t : string) :
  JSON.skipWs s = String c t ->
  (isDigit c || Ascii.eqb c "-") = true ->
  JSON.parseValue (S f) s = JSON.parseNumber (String c t).
Proof.
  intros H Hc. cbn [JSON.parseValue]. rewrite H.
  destruct c as [[] [] [] [] [] [] [] []]; try discriminate; reflexivity.
Qed.

Lemma parseValue_string (f : nat) (s t : string) :
  JSON.skipWs s = String JSON.dquote t ->
  JSON.parseValue (S f) s
  = match JSON.parseChars t with
    | Some (x, r) => Some (JStr x, r)
    | None => None
    end.
Proof. intros H. cbn [JSON.parseValue]. rewrite H. reflexivity. Qed.

Lemma parseValue_array_empty (f : nat) (s rest : string) :
  JSON.skipWs s = ("[]" ++ rest)%string ->
  JSON.parseValue (S f) s = Some (JArr [], rest).
Proof. intros H. cbn [JSON.parseValue]. rewrite H. reflexivity. Qed.

Lemma parseValue_object_empty (f : nat) (s rest : string) :
  JSON.skipWs s = ("{}" ++ rest)%string ->
  JSON.parseValue (S f) s = Some (JObj [], rest).
Proof. intros H. cbn [JSON.parseValue]. rewrite H. reflexivity. Qed.

Lemma parseValue_array (f : nat) (s t : string) :
  JSON.skipWs s = String "[" t ->
  JSON.headIs "]" (JSON.skipWs t) = None ->
  JSON.parseValue (S f) s
  = match JSON.parseElements f t with
    | Some (items, r) => Some (JArr items, r)
    | None => None
    end.
Proof. intros H Hh. cbn [JSON.parseValue]. rewrite H. cbn. now rewrite Hh. Qed.

Lemma parseValue_object (f : nat) (s t : string) :
  JSON.skipWs s = String "{" t ->
  JSON.headIs "}" (JSON.skipWs t) = None ->
  JSON.parseValue (S f) s
  = match JSON.parseMembers f t with
    | Some (entries, r) => Some (JObj (JSON.fromEntries entries), r)
    | None => None
    end.
Proof. intros H Hh. cbn [JSON.parseValue]. rewrite H. cbn. now rewrite Hh. Qed.

(** *** Arrays and objects *)

Lemma JsValue_nested_ind (P : JsValue -> Prop) :
  P JUndefined -> P JNull -> (forall b, P (JBool b)) -> (forall z, P (JNum z)) ->
  (forall s, P (JStr s)) ->
  (forall items, Forall P items -> P (JArr items)) ->
  (forall props, Forall (fun kv => P (snd kv)) props -> P (JObj props)) ->
  forall v, P v.
Proof.
  intros Hu Hn Hb Hz Hs Ha Ho.
  refine (fix go (v : JsValue) : P v :=
            match v with
            | JUndefined => Hu
            | JNull => Hn
            | JBool b => Hb b
            | JNum z => Hz z
            | JStr s => Hs s
            | JArr items =>
                Ha items ((fix all (l : list JsValue) : Forall P l :=
                             match l with
                             | [] => Forall_nil P
                             | x :: r => Forall_cons x (go x) (all r)
                             end) items)
            | JObj props =>
                Ho props ((fix all (l : list (string * JsValue))
                             : Forall (fun kv => P (snd kv)) l :=
                             match l with
                             | [] => Forall_nil _
                             | kv :: r => Forall_cons kv (go (snd kv)) (all r)
                             end) props)
            end).
Qed.

Lemma representable_object (props : list (string * JsValue)) :
  JSON.representable (JObj props)
  = uniqueKeys props && forallb (fun kv => JSON.representable (snd kv)) props.
Proof.
  induction props as [|[k x] rest IH]; [reflexivity|].
  cbn [JSON.representable uniqueKeys forallb snd] in *. rewrite IH.
  destruct (JSON.keyIn k rest), (JSON.representable x), (uniqueKeys rest); reflexivity.
Qed.

Lemma setProp_fresh (acc : Props) (k : string) (v : JsValue) :
  JSON.keyIn k acc = false -> setProp acc k v = acc ++ [(k, v)].
Proof.
  induction acc as [|[k' v'] acc IH]; simpl; [reflexivity|].
  intros H. apply orb_false_iff in H. destruct H as [Hk Hr].
  rewrite Hk. now rewrite IH.
Qed.

Lemma keyIn_app (k : string) (a b : list (string * JsValue)) :
  JSON.keyIn k (a ++ b) = JSON.keyIn k a || JSON.keyIn k b.
Proof.
  induction a as [|[k' v'] a IH]; simpl; [reflexivity|].
  now rewrite IH, orb_assoc.
Qed.

Lemma fromEntries_unique_from (props acc : list (string * JsValue)) :
  uniqueKeys props = true ->
  (forall k, JSON.keyIn k props = true -> JSON.keyIn k acc = false) ->
  fold_left (fun a kv => setProp a (fst kv) (snd kv)) props acc = acc ++ props.
Proof.
  revert acc. induction props as [|[k v] rest IH]; intros acc Hu Hd; simpl.
  - now rewrite List.app_nil_r.
  - simpl in Hu. apply andb_true_iff in Hu. destruct Hu as [Hk Hu].
    apply negb_true_iff in Hk.
    rewrite setProp_fresh.
    2:{ apply Hd. simpl. now rewrite String.eqb_refl. }
    rewrite IH; [now rewrite <- List.app_assoc|exact Hu|].
    intros k' Hin. rewrite keyIn_app. simpl.
    rewrite (Hd k') by (simpl; rewrite Hin; apply orb_true_r).
    destruct (String.eqb_spec k k') as [->|_]; [congruence|reflexivity].
Qed.

Lemma fromEntries_unique (props : list (string * JsValue)) :
  uniqueKeys props = true -> JSON.fromEntries props = props.
Proof.
  intros H. unfold JSON.fromEntries. now rewrite fromEntries_unique_from.
Qed.

Lemma wrap_nonempty (o c : string) (indent : nat) (p : string) (ps : list string) :
  JSON.wrap o c indent (p :: ps)
  = (o ++ String JSON.newline (JSON.spaces (indent + 2))
       ++ String.concat (separator indent) (p :: ps)
       ++ String JSON.newline (JSON.spaces indent) ++ c)%string.
Proof. reflexivity. Qed.

Lemma length_separator (indent : nat) : String.length (separator indent) = indent + 4.
Proof. unfold separator. cbn [String.length]. rewrite length_spaces. lia. Qed.

Lemma concat_cons2 (sep x y : string) (l : list string) :
  String.concat sep (x :: y :: l) = (x ++ sep ++ String.concat sep (y :: l))%string.
Proof. reflexivity. Qed.

Lemma concat_cons (sep x : string) (l : list string) :
  l <> [] -> String.concat sep (x :: l) = (x ++ sep ++ String.concat sep l)%string.
Proof. destruct l; [contradiction|reflexivity]. Qed.

Lemma elementTexts_cons (indent : nat) (x : JsValue) (more : list JsValue) (tx : string) :
  JSON.serialize (indent + 2) x = Some tx ->
  elementTexts indent (x :: more) = tx :: elementTexts indent more.
Proof. intros H. unfold elementTexts. cbn [map]. now rewrite H. Qed.

Lemma skipWs_elementTexts (indent : nat) (items : list JsValue) (sep rest : string) :
  items <> [] ->
  forallb JSON.representable items = true ->
  JSON.skipWs (String.concat sep (elementTexts indent items) ++ rest)
  = (String.concat sep (elementTexts indent items) ++ rest)%string.
Proof.
  destruct items as [|y more]; [contradiction|]. intros _ Hrep.
  cbn [forallb] in Hrep. apply andb_true_iff in Hrep. destruct Hrep as [Hry _].
  destruct (serialize_representable (indent + 2) y Hry) as [ty Hty].
  rewrite (elementTexts_cons indent y more ty Hty).
  destruct (serialize_head _ _ _ Hty) as (c & t & -> & Hw & _).
  destruct (elementTexts indent more); cbn [String.concat append]; now apply skipWs_head.
Qed.

Lemma parseElements_step (f : nat) (s tail : string) (v : JsValue) :
  JSON.parseValue f s = Some (v, tail) ->
  JSON.parseElements (S f) s
  = match JSON.skipWs tail with
    | String c rest' =>
        if Ascii.eqb c ","
        then match JSON.parseElements f rest' with
             | Some (vs, rest'') => Some (v :: vs, rest'')
             | None => None
             end
        else if Ascii.eqb c "]" then Some ([v], rest')
        else None
    | EmptyString => None
    end.
Proof. intros H. cbn [JSON.parseElements]. now rewrite H. Qed.

Lemma parseElements_texts (indent : nat) (items : list JsValue) :
  items <> [] ->
  Forall parsesBack items ->
  forallb JSON.representable items = true ->
  forall (f : nat) (s rest : string),
    JSON.skipWs s
    = (String.concat (separator indent) (elementTexts indent items)
         ++ String JSON.newline (JSON.spaces indent ++ String "]" rest))%string ->
    String.length (String.concat (separator indent) (elementTexts indent items))
      + indent + 2 < f ->
    JSON.parseElements f s = Some (items, rest).
Proof.
  induction items as [|x more IH]; [contradiction|].
  intros _ Hall Hrep f s rest Hskip Hlen.
  inversion Hall as [|? ? Hx Hmore]; subst.
  cbn [forallb] in Hrep. apply andb_true_iff in Hrep. destruct Hrep as [Hrx Hrm].
  destruct (serialize_representable (indent + 2) x Hrx) as [tx Htx].
  rewrite (elementTexts_cons indent x more tx Htx) in Hskip, Hlen.
  destruct f as [|f]; [lia|].
  destruct more as [|y more'].
  - cbn [elementTexts map String.concat] in Hskip, Hlen.
    rewrite (parseElements_step f s _ x (Hx Hrx (indent + 2) tx f s _ Htx Hskip
                                           ltac:(lia) eq_refl)).
    rewrite skipWs_newline_spaces. reflexivity.
  - remember (y :: more') as more eqn:Hm.
    assert (Hne : more <> []) by (subst; discriminate).
    assert (Hte : elementTexts indent more <> []) by (subst; discriminate).
    rewrite (concat_cons _ _ _ Hte) in Hskip, Hlen.
    rewrite !append_assoc in Hskip. rewrite !length_append, length_separator in Hlen.
    unfold separator in Hskip at 1. cbn [append] in Hskip.
    rewrite (parseElements_step f s _ x (Hx Hrx (indent + 2) tx f s _ Htx Hskip
                                           ltac:(lia) eq_refl)).
    rewrite (skipWs_head ","%char) by reflexivity.
    change (Ascii.eqb "," ",") with true. cbv iota.
    rewrite (IH Hne Hmore Hrm f _ rest); [reflexivity| |lia].
    rewrite skipWs_newline_spaces.
    now apply skipWs_elementTexts.
Qed.

Lemma memberTexts_cons (indent : nat) (k : string) (x : JsValue)
    (more : list (string * JsValue)) (tx : string) :
  JSON.serialize (indent + 2) x = Some tx ->
  memberTexts indent ((k, x) :: more)
  = (JSON.quote k ++ ": " ++ tx)%string :: memberTexts indent more.
Proof. intros H. cbn [memberTexts]. now rewrite H. Qed.

Lemma memberTexts_nonempty (indent : nat) (props : list (string * JsValue)) :
  props <> [] ->
  forallb (fun kv => JSON.representable (snd kv)) props = true ->
  exists m ms, memberTexts indent props = (String JSON.dquote m) :: ms.
Proof.
  destruct props as [|[k x] more]; [contradiction|]. intros _ Hrep.
  cbn [forallb snd] in Hrep. apply andb_true_iff in Hrep. destruct Hrep as [Hrx _].
  destruct (serialize_representable (indent + 2) x Hrx) as [tx Htx].
  rewrite (memberTexts_cons indent k x more tx Htx), quote_append.
  eexists. eexists. reflexivity.
Qed.

Lemma skipWs_memberTexts (indent : nat) (props : list (string * JsValue))
    (sep rest : string) :
  props <> [] ->
  forallb (fun kv => JSON.representable (snd kv)) props = true ->
  JSON.skipWs (String.concat sep (memberTexts indent props) ++ rest)
  = (String.concat sep (memberTexts indent props) ++ rest)%string.
Proof.
  intros Hne Hrep.
  destruct (memberTexts_nonempty indent props Hne Hrep) as (m & ms & ->).
  destruct ms; cbn [String.concat append]; now apply skipWs_head.
Qed.

Lemma parseMembers_step (f : nat) (s afterQuote k afterKey afterColon tail : string)
    (v : JsValue) :
  JSON.skipWs s = String JSON.dquote afterQuote ->
  JSON.parseChars afterQuote = Some (k, afterKey) ->
  JSON.skipWs afterKey = String ":" afterColon ->
  JSON.parseValue f afterColon = Some (v, tail) ->
  JSON.parseMembers (S f) s
  = match JSON.skipWs tail with
    | String c rest' =>
        if Ascii.eqb c ","
        then match JSON.parseMembers f rest' with
             | Some (kvs, rest'') => Some ((k, v) :: kvs, rest'')
             | None => None
             end
        else if Ascii.eqb c "}" then Some ([(k, v)], rest')
        else None
    | EmptyString => None
    end.
Proof.
  intros Hs Hk Hc Hv. cbn [JSON.parseMembers]. rewrite Hs.
  change (JSON.headIs JSON.dquote (String JSON.dquote afterQuote)) with (Some afterQuote).
  cbv beta iota. rewrite Hk, Hc.
  change (JSON.headIs ":" (String ":" afterColon)) with (Some afterColon).
  cbv beta iota. now rewrite Hv.
Qed.

Lemma length_quote_member (k tx : string) :
  String.length tx <= String.length (JSON.quote k ++ ": " ++ tx)%string.
Proof. rewrite !length_append. lia. Qed.

Lemma parseMembers_member (f : nat) (s k tx tail : string) (x : JsValue) (indent : nat) :
  parsesBack x ->
  JSON.representable x = true ->
  JSON.serialize (indent + 2) x = Some tx ->
  JSON.skipWs s = (JSON.quote k ++ ": " ++ tx ++ tail)%string ->
  String.length tx < f ->
  endsNumber tail = true ->
  JSON.parseMembers (S f) s
  = match JSON.skipWs tail with
    | String c rest' =>
        if Ascii.eqb c ","
        then match JSON.parseMembers f rest' with
             | Some (kvs, rest'') => Some ((k, x) :: kvs, rest'')
             | None => None
             end
        else if Ascii.eqb c "}" then Some ([(k, x)], rest')
        else None
    | EmptyString => None
    end.
Proof.
  intros Hx Hrx Htx Hskip Hlen Hend. rewrite quote_append in Hskip.
  apply (parseMembers_step f s _ k (": " ++ tx ++ tail)%string
           (String " " (tx ++ tail)) tail x Hskip).
  - apply parseChars_quoteBody.
  - reflexivity.
  - apply (Hx Hrx (indent + 2) tx f _ tail Htx); [|exact Hlen|exact Hend].
    change (JSON.skipWs (String " " (tx ++ tail))) with (JSON.skipWs (tx ++ tail)).
    now apply (skipWs_text (indent + 2) x).
Qed.

Lemma parseMembers_texts (indent : nat) (props : list (string * JsValue)) :
  props <> [] ->
  Forall (fun kv => parsesBack (snd kv)) props ->
  forallb (fun kv => JSON.representable (snd kv)) props = true ->
  forall (f : nat) (s rest : string),
    JSON.skipWs s
    = (String.concat (separator indent) (memberTexts indent props)
         ++ String JSON.newline (JSON.spaces indent ++ String "}" rest))%string ->
    String.length (String.concat (separator indent) (memberTexts indent props))
      + indent + 2 < f ->
    JSON.parseMembers f s = Some (props, rest).
Proof.
  induction props as [|[k x] more IH]; [contradiction|].
  intros _ Hall Hrep f s rest Hskip Hlen.
  inversion Hall as [|? ? Hx Hmore]; subst. cbn [snd] in Hx.
  cbn [forallb snd] in Hrep. apply andb_true_iff in Hrep. destruct Hrep as [Hrx Hrm].
  destruct (serialize_representable (indent + 2) x Hrx) as [tx Htx].
  rewrite (memberTexts_cons indent k x more tx Htx) in Hskip, Hlen.
  pose proof (length_quote_member k tx) as Hq.
  destruct f as [|f]; [lia|].
  destruct more as [|y more'].
  - cbn [memberTexts String.concat] in Hskip, Hlen.
    rewrite !append_assoc in Hskip.
    rewrite (parseMembers_member f s k tx _ x indent Hx Hrx Htx Hskip);
      [|lia|reflexivity].
    rewrite skipWs_newline_spaces. reflexivity.
  - remember (y :: more') as more eqn:Hm.
    assert (Hne : more <> []) by (subst; discriminate).
    destruct (memberTexts_nonempty indent more Hne Hrm) as (m0 & ms0 & Hms).
    assert (Hte : memberTexts indent more <> []) by (rewrite Hms; discriminate).
    rewrite (concat_cons _ _ _ Hte) in Hskip, Hlen.
    rewrite !append_assoc in Hskip.
    rewrite !length_append, length_separator in Hlen.
    rewrite !length_append in Hq.
    rewrite (parseMembers_member f s k tx _ x indent Hx Hrx Htx Hskip);
      [|lia|reflexivity].
    unfold separator at 1. cbn [append].
    rewrite (skipWs_head ","%char) by reflexivity.
    change (Ascii.eqb "," ",") with true. cbv iota.
    rewrite (IH Hne Hmore Hrm f _ rest); [reflexivity| |lia].
    rewrite skipWs_newline_spaces.
    now apply skipWs_memberTexts.
Qed.

Lemma elementTexts_head (indent : nat) (items : list JsValue) (sep : string) :
  items <> [] ->
  forallb JSON.representable items = true ->
  exists c t,
    String.concat sep (elementTexts indent items) = String c t /\
    Ascii.eqb "]" c = false.
Proof.
  destruct items as [|y more]; [contradiction|]. intros _ Hrep.
  cbn [forallb] in Hrep. apply andb_true_iff in Hrep. destruct Hrep as [Hry _].
  destruct (serialize_representable (indent + 2) y Hry) as [ty Hty].
  rewrite (elementTexts_cons indent y more ty Hty).
  destruct (serialize_head _ _ _ Hty) as (c & t & -> & _ & Hc).
  rewrite Ascii.eqb_sym in Hc.
  destruct (elementTexts indent more); cbn [String.concat append]; eauto.
Qed.

(** Every representable value parses back from its text. *)
Lemma parsesBack_all (v : JsValue) : parsesBack v.
Proof.
  induction v as [| |b|z|str|items Hall|props Hall] using JsValue_nested_ind;
    intros Hrep indent text fuel s rest Htext Hskip Hlen Hend;
    try discriminate Hrep;
    (destruct fuel as [|f]; [lia|]).
  - injection Htext as <-. now apply parseValue_null.
  - destruct b; injection Htext as <-;
      [now apply parseValue_true|now apply parseValue_false].
  - injection Htext as <-.
    destruct (decimal_head z) as (c & t & Hd & Hc).
    rewrite Hd in Hskip. cbn [append] in Hskip.
    rewrite (parseValue_number f s c _ Hskip Hc).
    change (String c (t ++ rest)) with (String c t ++ rest)%string.
    rewrite <- Hd. now apply parseNumber_decimal.
  - injection Htext as <-. rewrite quote_append in Hskip.
    rewrite (parseValue_string f s _ Hskip), parseChars_quoteBody. reflexivity.
  - rewrite serialize_array in Htext. injection Htext as <-.
    cbn [JSON.representable] in Hrep.
    destruct items as [|x more].
    + now apply parseValue_array_empty.
    + assert (Hne : x :: more <> []) by discriminate.
      destruct (serialize_representable (indent + 2) x) as [tx Htx].
      { cbn [forallb] in Hrep. now apply andb_true_iff in Hrep. }
      rewrite (elementTexts_cons indent x more tx Htx) in Hskip, Hlen.
      rewrite wrap_nonempty in Hskip, Hlen.
      rewrite <- (elementTexts_cons indent x more tx Htx) in Hskip, Hlen.
      rewrite !append_assoc in Hskip. cbn [append] in Hskip.
      rewrite !length_append in Hlen. cbn [String.length] in Hlen.
      rewrite !length_spaces in Hlen.
      rewrite (parseValue_array f s _ Hskip).
      * rewrite (parseElements_texts indent (x :: more) Hne Hall Hrep f _ rest);
          [reflexivity| |lia].
        rewrite skipWs_newline_spaces. now apply skipWs_elementTexts.
      * rewrite skipWs_newline_spaces, skipWs_elementTexts by assumption.
        destruct (elementTexts_head indent (x :: more) (separator indent) Hne Hrep)
          as (c & t & -> & Hc).
        cbn [append JSON.headIs]. now rewrite Hc.
  - rewrite serialize_object in Htext. injection Htext as <-.
    rewrite representable_object in Hrep. apply andb_true_iff in Hrep.
    destruct Hrep as [Huniq Hrep].
    destruct props as [|[k x] more].
    + now apply parseValue_object_empty.
    + assert (Hne : (k, x) :: more <> []) by discriminate.
      destruct (memberTexts_nonempty indent _ Hne Hrep) as (m & ms & Hms).
      rewrite Hms in Hskip, Hlen. rewrite wrap_nonempty in Hskip, Hlen.
      rewrite <- Hms in Hskip, Hlen.
      rewrite !append_assoc in Hskip. cbn [append] in Hskip.
      rewrite !length_append in Hlen. cbn [String.length] in Hlen.
      rewrite !length_spaces in Hlen.
      rewrite (parseValue_object f s _ Hskip).
      * rewrite (parseMembers_texts indent _ Hne Hall Hrep f _ rest);
          [now rewrite fromEntries_unique| |lia].
        rewrite skipWs_newline_spaces. now apply skipWs_memberTexts.
      * rewrite skipWs_newline_spaces, skipWs_memberTexts by assumption.
        rewrite Hms. destruct ms; reflexivity.
Qed.

(** [JSON.parse(JSON.stringify(v, null, 2))] is [v] for a representable [v]. *)
Lemma parse_stringify (v : JsValue) :
  JSON.representable v = true ->
  exists text, JSON.stringify v = Some text /\ JSON.parse text = Some v.
Proof.
  intros Hrep. unfold JSON.stringify.
  destruct (serialize_representable 0 v Hrep) as [text Htext].
  exists text. split; [exact Htext|]. unfold JSON.parse.
  rewrite (parsesBack_all v Hrep 0 text (S (String.length text)) text EmptyString Htext);
    [reflexivity| |lia|reflexivity].
  pose proof (skipWs_text 0 v text EmptyString Htext) as Hs.
  rewrite append_nil_r in *. exact Hs.
Qed.

(** *** The fuel of [parse] is enough for every text *)

Lemma skipWs_length (s : string) : String.length (JSON.skipWs s) <= String.length s.
Proof.
  induction s as [|c s IH]; simpl; [lia|]. destruct (JSON.isWs c); simpl; lia.
Qed.

Lemma consChar_length (c : ascii) (r : option (string * string)) (t rest : string) (n : nat) :
  JSON.consChar c r = Some (t, rest) ->
  (forall t' rest', r = Some (t', rest') -> String.length rest' < n) ->
  String.length rest < n.
Proof.
  destruct r as [[t' rest']|]; simpl; [|discriminate].
  intros [= _ <-] H. now apply (H t').
Qed.

Lemma parseChars_length (s t rest : string) :
  JSON.parseChars s = Some (t, rest) -> String.length rest < String.length s.
Proof.
  remember (String.length s) as n eqn:Hn. revert s t rest Hn.
  induction n as [n IH] using lt_wf_ind. intros s t rest Hn H.
  destruct s as [|c s]; [discriminate|]. cbn [JSON.parseChars] in H. simpl in Hn.
  destruct (Ascii.eqb c JSON.dquote).
  { injection H as _ <-. lia. }
  destruct (Ascii.eqb c JSON.backslash).
  - destruct s as [|e s1]; [discriminate|].
    destruct (Ascii.eqb e "u").
    + destruct s1 as [|h1 [|h2 [|h3 [|h4 s2]]]]; try discriminate.
      destruct (JSON.unicodeEscape h1 h2 h3 h4); [|discriminate].
      apply (consChar_length _ _ _ _ _ H). intros t' rest' H'.
      pose proof (IH (String.length s2) ltac:(simpl in *; lia) s2 t' rest' eq_refl H').
      simpl in *. lia.
    + destruct (JSON.simpleEscape e); [|discriminate].
      apply (consChar_length _ _ _ _ _ H). intros t' rest' H'.
      pose proof (IH (String.length s1) ltac:(simpl in *; lia) s1 t' rest' eq_refl H').
      simpl in *. lia.
  - destruct (nat_of_ascii c <? 32)%nat; [discriminate|].
    apply (consChar_length _ _ _ _ _ H). intros t' rest' H'.
    pose proof (IH (String.length s) ltac:(lia) s t' rest' eq_refl H'). lia.
Qed.

Lemma spanDigits_length (s ds rest : string) :
  JSON.spanDigits s = (ds, rest) ->
  String.length s = String.length ds + String.length rest.
Proof.
  revert ds rest. induction s as [|c s IH]; intros ds rest H; simpl in H.
  - injection H as <- <-. reflexivity.
  - destruct (isDigit c).
    + destruct (JSON.spanDigits s) as [ds' r'] eqn:E. injection H as <- <-.
      simpl. now rewrite (IH ds' r' eq_refl).
    + injection H as <- <-. reflexivity.
Qed.

Lemma parseNumber_length (s : string) (v : JsValue) (rest : string) :
  JSON.parseNumber s = Some (v, rest) -> String.length rest < String.length s.
Proof.
  unfold JSON.parseNumber.
  set (split := match s with String "-" r => ("-", r) | _ => (EmptyString, s) end).
  assert (Hsplit : String.length (snd split) <= String.length s).
  { subst split. destruct s as [|[[] [] [] [] [] [] [] []] r]; simpl; lia. }
  destruct split as [sign body]. cbn [snd] in Hsplit.
  destruct (JSON.spanDigits body) as [ds r] eqn:Hspan.
  pose proof (spanDigits_length _ _ _ Hspan) as Hlen.
  destruct (JSON.wellFormedDigits ds) eqn:Hw; [|discriminate].
  destruct (negb (JSON.startsFraction r)); [|discriminate]. cbn [andb].
  destruct (NilZero.int_of_string _); [|discriminate].
  intros [= _ <-]. destruct ds; [discriminate|]. simpl in Hlen. lia.
Qed.

Lemma stripPrefix_length (p s rest : string) :
  stripPrefix p s = Some rest -> String.length s = String.length p + String.length rest.
Proof.
  revert s. induction p as [|a p IH]; intros s H; simpl in H.
  - injection H as <-. reflexivity.
  - destruct s as [|b s]; [discriminate|]. destruct (Ascii.eqb a b); [|discriminate].
    simpl. now rewrite (IH s H).
Qed.

Lemma headIs_length (c : ascii) (s rest : string) :
  JSON.headIs c s = Some rest -> String.length s = S (String.length rest).
Proof.
  destruct s as [|c' s]; simpl; [discriminate|].
  destruct (Ascii.eqb c c'); [|discriminate]. now intros [= <-].
Qed.

Lemma fuelEnough_all (fuel : nat) : fuelEnough fuel.
Proof.
  induction fuel as [|f (IHv & IHe & IHm)].
  { repeat split; intros; discriminate. }
  split; [|split].
  - (* parseValue *)
    intros s v rest H. cbn [JSON.parseValue] in H.
    destruct (JSON.skipWs s) as [|c t] eqn:Hs; [discriminate|].
    pose proof (skipWs_length s) as Hws. rewrite Hs in Hws. cbn [String.length] in Hws.
    destruct (Ascii.eqb c "{") eqn:E1.
    { pose proof (skipWs_length t) as Hwt.
      destruct (JSON.headIs "}" (JSON.skipWs t)) as [r0|] eqn:Hh.
      - injection H as <- <-. apply headIs_length in Hh as Hl.
        split; [lia|]. intros [|g] Hg; [lia|].
        cbn [JSON.parseValue]. now rewrite Hs, E1, Hh.
      - destruct (JSON.parseMembers f t) as [[entries r']|] eqn:Hm; [|discriminate].
        injection H as <- <-. destruct (IHm _ _ _ Hm) as [Hlt Hre].
        split; [lia|]. intros [|g] Hg; [lia|].
        cbn [JSON.parseValue]. rewrite Hs, E1, Hh, (Hre g) by lia. reflexivity. }
    destruct (Ascii.eqb c "[") eqn:E2.
    { pose proof (skipWs_length t) as Hwt.
      destruct (JSON.headIs "]" (JSON.skipWs t)) as [r0|] eqn:Hh.
      - injection H as <- <-. apply headIs_length in Hh as Hl.
        split; [lia|]. intros [|g] Hg; [lia|].
        cbn [JSON.parseValue]. now rewrite Hs, E1, E2, Hh.
      - destruct (JSON.parseElements f t) as [[items r']|] eqn:He; [|discriminate].
        injection H as <- <-. destruct (IHe _ _ _ He) as [Hlt Hre].
        split; [lia|]. intros [|g] Hg; [lia|].
        cbn [JSON.parseValue]. rewrite Hs, E1, E2, Hh, (Hre g) by lia. reflexivity. }
    destruct (Ascii.eqb c JSON.dquote) eqn:E3.
    { destruct (JSON.parseChars t) as [[x r']|] eqn:Hc; [|discriminate].
      injection H as <- <-. apply parseChars_length in Hc as Hl.
      split; [lia|]. intros [|g] Hg; [lia|].
      cbn [JSON.parseValue]. now rewrite Hs, E1, E2, E3, Hc. }
    destruct (Ascii.eqb c "t") eqn:E4.
    { destruct (stripPrefix "rue" t) as [r'|] eqn:Hp; [|discriminate].
      injection H as <- <-. apply stripPrefix_length in Hp as Hl.
      split; [lia|]. intros [|g] Hg; [lia|].
      cbn [JSON.parseValue]. now rewrite Hs, E1, E2, E3, E4, Hp. }
    destruct (Ascii.eqb c "f") eqn:E5.
    { destruct (stripPrefix "alse" t) as [r'|] eqn:Hp; [|discriminate].
      injection H as <- <-. apply stripPrefix_length in Hp as Hl.
      split; [lia|]. intros [|g] Hg; [lia|].
      cbn [JSON.parseValue]. now rewrite Hs, E1, E2, E3, E4, E5, Hp. }
    destruct (Ascii.eqb c "n") eqn:E6.
    { destruct (stripPrefix "ull" t) as [r'|] eqn:Hp; [|discriminate].
      injection H as <- <-. apply stripPrefix_length in Hp as Hl.
      split; [lia|]. intros [|g] Hg; [lia|].
      cbn [JSON.parseValue]. now rewrite Hs, E1, E2, E3, E4, E5, E6, Hp. }
    apply parseNumber_length in H as Hl. cbn [String.length] in Hl.
    split; [lia|]. intros [|g] Hg; [lia|].
    cbn [JSON.parseValue]. now rewrite Hs, E1, E2, E3, E4, E5, E6.
  - (* parseElements *)
    intros s items rest H. cbn [JSON.parseElements] in H.
    destruct (JSON.parseValue f s) as [[v tail]|] eqn:Hv; [|discriminate].
    destruct (IHv _ _ _ Hv) as [Hlt Hre].
    destruct (JSON.skipWs tail) as [|c r1] eqn:Hs; [discriminate|].
    pose proof (skipWs_length tail) as Hws. rewrite Hs in Hws. cbn [String.length] in Hws.
    destruct (Ascii.eqb c ",") eqn:E1.
    + destruct (JSON.parseElements f r1) as [[vs r2]|] eqn:He; [|discriminate].
      injection H as <- <-. destruct (IHe _ _ _ He) as [Hlt2 Hre2].
      split; [lia|]. intros [|g] Hg; [lia|].
      cbn [JSON.parseElements]. rewrite (Hre g) by lia. rewrite Hs, E1, (Hre2 g) by lia.
      reflexivity.
    + destruct (Ascii.eqb c "]") eqn:E2; [|discriminate].
      injection H as <- <-.
      split; [lia|]. intros [|g] Hg; [lia|].
      cbn [JSON.parseElements]. rewrite (Hre g) by lia. now rewrite Hs, E1, E2.
  - (* parseMembers *)
    intros s entries rest H. cbn [JSON.parseMembers] in H.
    pose proof (skipWs_length s) as Hw0.
    destruct (JSON.headIs JSON.dquote (JSON.skipWs s)) as [aq|] eqn:Hq; [|discriminate].
    apply headIs_length in Hq as Hlq.
    destruct (JSON.parseChars aq) as [[k ak]|] eqn:Hk; [|discriminate].
    apply parseChars_length in Hk as Hlk.
    pose proof (skipWs_length ak) as Hw1.
    destruct (JSON.headIs ":" (JSON.skipWs ak)) as [ac|] eqn:Hc; [|discriminate].
    apply headIs_length in Hc as Hlc.
    destruct (JSON.parseValue f ac) as [[v tail]|] eqn:Hv; [|discriminate].
    destruct (IHv _ _ _ Hv) as [Hlt Hre].
    destruct (JSON.skipWs tail) as [|c r1] eqn:Hs; [discriminate|].
    pose proof (skipWs_length tail) as Hws. rewrite Hs in Hws. cbn [String.length] in Hws.
    destruct (Ascii.eqb c ",") eqn:E1.
    + destruct (JSON.parseMembers f r1) as [[kvs r2]|] eqn:Hm; [|discriminate].
      injection H as <- <-. destruct (IHm _ _ _ Hm) as [Hlt2 Hre2].
      split; [lia|]. intros [|g] Hg; [lia|].
      cbn [JSON.parseMembers]. rewrite Hq, Hk, Hc, (Hre g) by lia.
      rewrite Hs, E1, (Hre2 g) by lia. reflexivity.
    + destruct (Ascii.eqb c "}") eqn:E2; [|discriminate].
      injection H as <- <-.
      split; [lia|]. intros [|g] Hg; [lia|].
      cbn [JSON.parseMembers]. rewrite Hq, Hk, Hc, (Hre g) by lia. now rewrite Hs, E1, E2.
Qed.

(** Whatever fuel parses a text, the fuel [parse] gives itself parses it to
    the same value: the bound in [parse] rejects no text. *)
Lemma parse_fuel_is_enough (fuel : nat) (text : string) (v : JsValue) (rest : string) :
  JSON.parseValue fuel text = Some (v, rest) ->
  JSON.parseValue (S (String.length text)) text = Some (v, rest).
Proof.
  intros H. destruct (fuelEnough_all fuel) as [Hv _].
  destruct (Hv _ _ _ H) as [_ Hre]. apply Hre. lia.
Qed.

(** ** Property lists and maps *)

Lemma lookup_setProp_same (ps : Props) (k : string) (v : JsValue) :
  lookup k (setProp ps k v) = Some v.
Proof.
  induction ps as [|[k' v'] rest IH]; simpl.
  - now rewrite String.eqb_refl.
  - destruct (String.eqb_spec k' k) as [->|Hne]; simpl.
    + now rewrite String.eqb_refl.
    + destruct (String.eqb_spec k' k); [contradiction|exact IH].
Qed.

Lemma lookup_setProp_other (ps : Props) (k k' : string) (v : JsValue) :
  k <> k' -> lookup k' (setProp ps k v) = lookup k' ps.
Proof.
  intros Hne. induction ps as [|[k0 v0] rest IH]; simpl.
  - destruct (String.eqb_spec k k'); [contradiction|reflexivity].
  - destruct (String.eqb_spec k0 k) as [->|Hk]; simpl.
    + destruct (String.eqb_spec k k'); [contradiction|reflexivity].
    + destruct (String.eqb_spec k0 k'); [reflexivity|exact IH].
Qed.

Lemma propOf_setProp_same (ps : Props) (k : string) (v : JsValue) :
  propOf (setProp ps k v) k = v.
Proof. unfold propOf. now rewrite lookup_setProp_same. Qed.

Lemma propOf_setProp_other (ps : Props) (k k' : string) (v : JsValue) :
  k <> k' -> propOf (setProp ps k v) k' = propOf ps k'.
Proof. intros H. unfold propOf. now rewrite lookup_setProp_other. Qed.

Lemma mapGet_mapSet_same {V : Type} (m : list (string * V)) (k : string) (v : V) :
  mapGet k (mapSet k v m) = Some v.
Proof.
  induction m as [|[k' v'] rest IH]; simpl.
  - now rewrite String.eqb_refl.
  - destruct (String.eqb_spec k' k) as [->|Hne]; simpl.
    + now rewrite String.eqb_refl.
    + destruct (String.eqb_spec k' k); [contradiction|exact IH].
Qed.

(** ** The session store *)

Lemma stringify_object (ps : Props) : exists text, JSON.stringify (JObj ps) = Some text.
Proof. unfold JSON.stringify. simpl. eexists. reflexivity. Qed.

Lemma stringify_session (s : Session.t) :
  exists text, JSON.stringify (sessionToJs s) = Some text.
Proof. unfold sessionToJs. apply stringify_object. Qed.

Lemma saveSession_found (w : World) (i : string) (s : Session.t) :
  mapGet i (sessions (recorder w)) = Some s ->
  exists path text w',
    saveSession i w = (Ok path, w') /\ recorder w' = recorder w /\
    JSON.stringify (sessionToJs s) = Some text /\
    mapGet path (files (host w')) = Some text.
Proof.
  intros Hs. destruct (stringify_session s) as [text Ht].
  unfold saveSession, bindM, getRecorder. rewrite Hs, Ht.
  unfold ensureSessionsDir, bindM, getRecorder, mkdir.
  destruct (includes (directories (host w)) (sessionsDir (recorder w)));
    unfold nowISO, dateNow, bindM, writeFile, ret; cbn [fst snd recorder host withHost files];
    eexists; exists text; eexists; (split; [reflexivity|]);
    (split; [reflexivity|]); (split; [reflexivity|]);
    cbn [host files]; apply mapGet_mapSet_same.
Qed.

Lemma recordAction_enabled (w : World) (i : string) (a : ActionInput) (s : Session.t) :
  recordingEnabled (recorder w) = true ->
  mapGet i (sessions (recorder w)) = Some s ->
  match storedResult (captureFullPageData (recorder w)) a with
  | Throw m => exists w', recordAction i a w = (Throw m, w')
  | Ok stored =>
      exists w' rec,
        recordAction i a w = (Ok tt, w') /\
        mapGet i (sessions (recorder w')) = Some (Session.push s rec) /\
        ActionRecord.tool rec = in_tool a /\
        ActionRecord.parameters rec = sanitizeParameters (in_parameters a) /\
        ActionRecord.result rec = stored
  end.
Proof.
  intros He Hs.
  destruct (storedResult (captureFullPageData (recorder w)) a) as [stored|m] eqn:Hst.
  - unfold recordAction, bindM, getRecorder, dateNow, newUuid, nowISO, dateNow, liftRes,
      setSession.
    cbn [recorder host withHost withSessions sessions autoSave captureFullPageData
         recordingEnabled].
    rewrite He, Hs, Hst. cbn [negb].
    match goal with |- context [mapSet i (Session.push s ?r) _] => set (rec := r) end.
    match goal with |- context [(if autoSave (recorder w) then _ else _) ?w1] => set (w2 := w1) end.
    assert (Hg : mapGet i (sessions (recorder w2)) = Some (Session.push s rec)).
    { subst w2. cbn. apply mapGet_mapSet_same. }
    destruct (autoSave (recorder w)).
    + destruct (saveSession_found w2 i _ Hg) as (path & text & w3 & Hsave & Hrec & _).
      rewrite Hsave. unfold ret.
      exists w3, rec. rewrite Hrec. repeat split; try reflexivity. exact Hg.
    + exists w2, rec. unfold ret. repeat split; try reflexivity. exact Hg.
  - unfold recordAction, bindM, getRecorder, dateNow, newUuid, nowISO, dateNow, liftRes.
    cbn [recorder host withHost withSessions sessions autoSave captureFullPageData
         recordingEnabled].
    rewrite He, Hs, Hst. cbn [negb]. eexists. reflexivity.
Qed.

(** From an enabled recorder with an open session and a result that the
    capture policy accepts, obtain the world after [recordAction] and the
    record it appended. *)
Ltac record_action w i a s He Hs Hst :=
  let H := fresh "H" in
  pose proof (recordAction_enabled w i a s He Hs) as H;
  rewrite Hst in H;
  destruct H as (?w' & ?rec & ?Hrun & ?Hget & ?Htool & ?Hpar & ?Hres).

(** ** Recording switched off *)

(** C8. With the recording toggle off, [startSession] returns the empty
    identifier and [recordAction] and [endSession] return normally; none of
    them changes the session map, the files or the timers, alone or in
    sequence. *)
Theorem recording_off_is_noop (w : World) (i : string) (config : StartConfig)
    (a : ActionInput) :
  recordingEnabled (recorder w) = false ->
  startSession i config w = (Ok EmptyString, w) /\
  recordAction i a w = (Ok tt, w) /\
  endSession i w = (Ok tt, w) /\
  (_ <- startSession i config ;; _ <- recordAction i a ;; endSession i) w = (Ok tt, w).
Proof.
  intros Hoff.
  assert (Hs : startSession i config w = (Ok EmptyString, w)).
  { unfold startSession, bindM, getRecorder. now rewrite Hoff. }
  assert (Hr : recordAction i a w = (Ok tt, w)).
  { unfold recordAction, bindM, getRecorder. now rewrite Hoff. }
  assert (He : endSession i w = (Ok tt, w)).
  { unfold endSession, bindM, getRecorder. now rewrite Hoff. }
  repeat split; trivial.
  unfold bindM at 1. rewrite Hs. unfold bindM at 1. now rewrite Hr.
Qed.

Lemma recording_off_is_noop_witness :
  recordingEnabled (recorder silentWorld) = false /\
  startSession "instance-1" sampleStart silentWorld = (Ok EmptyString, silentWorld) /\
  sessions (recorder silentWorld) = [] /\ files (host silentWorld) = [].
Proof.
  split; [reflexivity|].
  split; [|split; reflexivity].
  apply (recording_off_is_noop silentWorld "instance-1" sampleStart
           (inputOf "browser_click" (JObj []) JUndefined)).
  reflexivity.
Defined.

(** ** Parameter redaction *)

Lemma propOf_redactField (ps : Props) (f k : string) :
  propOf (redactField ps f) k =
  if (f =? k)%string && truthy (propOf ps f) then JStr REDACTED else propOf ps k.
Proof.
  unfold redactField. destruct (truthy (propOf ps f)) eqn:Ht.
  - destruct (String.eqb_spec f k) as [->|Hne]; simpl.
    + apply propOf_setProp_same.
    + now apply propOf_setProp_other.
  - now rewrite andb_false_r.
Qed.

(** What [sanitizeParameters] leaves under each key of an object. *)
Lemma sanitizeParameters_propOf (ps : Props) (k : string) :
  getProp (sanitizeParameters (JObj ps)) k =
  Ok (if includes sensitiveFields k && truthy (propOf ps k) then JStr REDACTED
      else if (k =? "screenshot")%string && truthy (propOf ps k) then JStr SCREENSHOT_DATA
      else propOf ps k).
Proof.
  unfold sanitizeParameters, getProp. f_equal.
  change (match lookup k ?l with Some x => x | None => JUndefined end) with (propOf l k).
  cbn [spread sensitiveFields fold_left].
  set (r := redactField (redactField (redactField (redactField ps _) _) _) _).
  assert (Hr : forall k', propOf r k' =
            if includes sensitiveFields k' && truthy (propOf ps k') then JStr REDACTED
            else propOf ps k').
  { intros k'. subst r. rewrite !propOf_redactField.
    unfold includes. cbn [existsb sensitiveFields].
    destruct (String.eqb_spec "password" k') as [E|_];
      [subst k'; cbn; now destruct (truthy (propOf ps "password"))|].
    destruct (String.eqb_spec "token" k') as [E|_];
      [subst k'; cbn; now destruct (truthy (propOf ps "token"))|].
    destruct (String.eqb_spec "apiKey" k') as [E|_];
      [subst k'; cbn; now destruct (truthy (propOf ps "apiKey"))|].
    destruct (String.eqb_spec "secret" k') as [E|_];
      [subst k'; cbn; now destruct (truthy (propOf ps "secret"))|].
    reflexivity. }
  assert (Hshot : truthy (propOf r "screenshot") = truthy (propOf ps "screenshot")).
  { rewrite Hr. reflexivity. }
  rewrite Hshot.
  destruct (truthy (propOf ps "screenshot")) eqn:Ht.
  - destruct (String.eqb_spec k "screenshot") as [->|Hne].
    + rewrite propOf_setProp_same. cbn. now rewrite Ht.
    + rewrite propOf_setProp_other by congruence. rewrite Hr.
      now rewrite andb_false_l.
  - rewrite Hr. destruct (String.eqb_spec k "screenshot") as [->|Hne].
    + cbn. now rewrite Ht.
    + now rewrite andb_false_l.
Qed.

(** C3 (amended).  Under either capture mode, when [recordAction] stores a
    record for a parameter bag that has a denylisted key, the stored value
    under that key is the redaction marker if the original value is truthy,
    and the original value itself if it is falsy (the empty string, zero,
    [false], [null]). *)
Theorem sensitive_parameter_redacted_when_truthy
    (w : World) (i : string) (a : ActionInput) (s : Session.t)
    (ps : Props) (key : string) (v stored : JsValue) :
  recordingEnabled (recorder w) = true ->
  mapGet i (sessions (recorder w)) = Some s ->
  storedResult (captureFullPageData (recorder w)) a = Ok stored ->
  in_parameters a = JObj ps ->
  In key sensitiveFields ->
  lookup key ps = Some v ->
  exists w' rec,
    recordAction i a w = (Ok tt, w') /\
    mapGet i (sessions (recorder w')) = Some (Session.push s rec) /\
    getProp (ActionRecord.parameters rec) key
      = Ok (if truthy v then JStr REDACTED else v).
Proof.
  intros He Hs Hst Hp Hin Hk.
  record_action w i a s He Hs Hst.
  exists w', rec. repeat split; trivial.
  rewrite Hpar, Hp, sanitizeParameters_propOf.
  assert (Hinc : includes sensitiveFields key = true).
  { unfold includes. apply existsb_exists. exists key. split; [exact Hin|apply String.eqb_refl]. }
  rewrite Hinc. unfold propOf. rewrite Hk. cbn [andb].
  destruct (truthy v) eqn:Ht; [reflexivity|].
  destruct (String.eqb_spec key "screenshot") as [->|_]; [|reflexivity].
  cbn in Hin. intuition discriminate.
Qed.

Lemma sensitive_parameter_redacted_when_truthy_witness :
  exists w' rec,
    recordAction "instance-1"
      (inputOf "browser_fill"
         (JObj [("selector", JStr "#pw"); ("password", JStr "hunter2")]) JUndefined)
      (sampleWorld false) = (Ok tt, w') /\
    mapGet "instance-1" (sessions (recorder w')) = Some (Session.push sampleSession rec) /\
    getProp (ActionRecord.parameters rec) "password" = Ok (JStr REDACTED).
Proof.
  apply (sensitive_parameter_redacted_when_truthy (sampleWorld false) "instance-1"
           (inputOf "browser_fill"
              (JObj [("selector", JStr "#pw"); ("password", JStr "hunter2")]) JUndefined)
           sampleSession [("selector", JStr "#pw"); ("password", JStr "hunter2")]
           "password" (JStr "hunter2") JUndefined);
    try reflexivity.
  simpl. auto.
Defined.

(** C3, as stated, fails: an empty password is stored as it is. *)
Lemma empty_password_is_not_redacted :
  recordedParameters
    (snd (recordAction "instance-1"
            (inputOf "browser_fill"
               (JObj [("selector", JStr "#pw"); ("password", JStr "")]) JUndefined)
            (sampleWorld true)))
    "instance-1"
  = Some [JObj [("selector", JStr "#pw"); ("password", JStr "")]]
  /\ JStr "" <> JStr REDACTED.
Proof. split; [vm_compute; reflexivity|discriminate]. Qed.

(** C10 (amended).  Redaction looks at the top-level keys only: whatever a
    parameter that is neither denylisted nor named [screenshot] holds, nested
    denylisted keys included, is stored identical to the input. *)
Theorem nested_sensitive_fields_are_kept
    (w : World) (i : string) (a : ActionInput) (s : Session.t)
    (ps : Props) (k : string) (v stored : JsValue) :
  recordingEnabled (recorder w) = true ->
  mapGet i (sessions (recorder w)) = Some s ->
  storedResult (captureFullPageData (recorder w)) a = Ok stored ->
  in_parameters a = JObj ps ->
  lookup k ps = Some v ->
  includes sensitiveFields k = false ->
  k <> "screenshot" ->
  exists w' rec,
    recordAction i a w = (Ok tt, w') /\
    mapGet i (sessions (recorder w')) = Some (Session.push s rec) /\
    getProp (ActionRecord.parameters rec) k = Ok v.
Proof.
  intros He Hs Hst Hp Hk Hinc Hshot.
  record_action w i a s He Hs Hst.
  exists w', rec. repeat split; trivial.
  rewrite Hpar, Hp, sanitizeParameters_propOf, Hinc. cbn [andb].
  destruct (String.eqb_spec k "screenshot") as [E|_]; [contradiction|].
  cbn [andb]. unfold propOf. now rewrite Hk.
Qed.

Lemma nested_sensitive_fields_are_kept_witness :
  exists w' rec,
    recordAction "instance-1"
      (inputOf "browser_evaluate"
         (JObj [("script", JStr "login()");
                ("credentials", JObj [("password", JStr "hunter2"); ("token", JStr "t0k3n")])])
         JUndefined)
      (sampleWorld true) = (Ok tt, w') /\
    mapGet "instance-1" (sessions (recorder w')) = Some (Session.push sampleSession rec) /\
    getProp (ActionRecord.parameters rec) "credentials"
      = Ok (JObj [("password", JStr "hunter2"); ("token", JStr "t0k3n")]).
Proof.
  apply (nested_sensitive_fields_are_kept (sampleWorld true) "instance-1"
           (inputOf "browser_evaluate"
              (JObj [("script", JStr "login()");
                     ("credentials",
                      JObj [("password", JStr "hunter2"); ("token", JStr "t0k3n")])])
              JUndefined)
           sampleSession
           [("script", JStr "login()");
            ("credentials", JObj [("password", JStr "hunter2"); ("token", JStr "t0k3n")])]
           "credentials" (JObj [("password", JStr "hunter2"); ("token", JStr "t0k3n")])
           JUndefined);
    try reflexivity.
  discriminate.
Defined.

(** C10, as stated, fails for the parameter named [screenshot]: its nested
    object is replaced by the placeholder, not stored. *)
Lemma nested_value_under_screenshot_is_replaced :
  recordedParameters
    (snd (recordAction "instance-1"
            (inputOf "browser_screenshot"
               (JObj [("screenshot", JObj [("password", JStr "hunter2")])]) JUndefined)
            (sampleWorld true)))
    "instance-1"
  = Some [JObj [("screenshot", JStr SCREENSHOT_DATA)]]
  /\ JStr SCREENSHOT_DATA <> JObj [("password", JStr "hunter2")].
Proof. split; [vm_compute; reflexivity|discriminate]. Qed.

(** ** Capture policy *)

Lemma length_substring0 (n : nat) (s : string) :
  n <= String.length s -> String.length (String.substring 0 n s) = n.
Proof.
  revert s. induction n as [|n IH]; intros s Hn.
  - destruct s; reflexivity.
  - destruct s as [|c s]; simpl in *; [lia|]. rewrite IH; [reflexivity|lia].
Qed.



Lemma getProp_object (ps : Props) (k : string) : getProp (JObj ps) k = Ok (propOf ps k).
Proof. reflexivity. Qed.

Lemma optGet_object (ps : Props) (k : string) : optGet (JObj ps) k = propOf ps k.
Proof. reflexivity. Qed.

Lemma truncateField_object (f : string) (dps : Props) :
  stringOrFalsy (propOf dps f) = true ->
  truncateField f (JObj dps) = Ok (JObj (truncated f dps)).
Proof.
  intros Hs. unfold truncateField, truncated. rewrite optGet_object.
  destruct (propOf dps f) as [| |b|z|s|l|o] eqn:Hp; cbn [stringOrFalsy] in Hs;
    try (apply negb_true_iff in Hs; rewrite Hs; reflexivity).
  change (optGet (JStr s) "length") with (JNum (Z.of_nat (String.length s))).
  cbn [toNumber numGt].
  destruct (Nat.ltb_spec 1000 (String.length s)) as [Hlt|Hge].
  - assert (Hz : (1000 <? Z.of_nat (String.length s))%Z = true) by (apply Z.ltb_lt; lia).
    rewrite Hz. destruct s as [|c s]; [simpl in Hlt; lia|]. reflexivity.
  - assert (Hz : (1000 <? Z.of_nat (String.length s))%Z = false) by (apply Z.ltb_ge; lia).
    rewrite Hz, andb_false_r. reflexivity.
Qed.

Lemma placeholderScreenshot_object (dps : Props) :
  placeholderScreenshot (JObj dps) = Ok (JObj (screenshotReplaced dps)).
Proof.
  unfold placeholderScreenshot, screenshotReplaced. rewrite optGet_object.
  now destruct (truthy (propOf dps "screenshot")).
Qed.

Lemma propOf_truncated_other (f k : string) (dps : Props) :
  f <> k -> propOf (truncated f dps) k = propOf dps k.
Proof.
  intros Hne. unfold truncated.
  destruct (propOf dps f); try reflexivity.
  destruct (1000 <? String.length s)%nat; [|reflexivity].
  now apply propOf_setProp_other.
Qed.

Lemma propOf_truncated_same (f : string) (dps : Props) (s : string) :
  propOf dps f = JStr s ->
  propOf (truncated f dps) f =
  JStr (if (1000 <? String.length s)%nat
        then (String.substring 0 1000 s ++ TRUNCATED)%string else s).
Proof.
  intros Hp. unfold truncated. rewrite Hp.
  destruct (1000 <? String.length s)%nat; [apply propOf_setProp_same|exact Hp].
Qed.

Lemma propOf_screenshotReplaced_other (k : string) (dps : Props) :
  k <> "screenshot" -> propOf (screenshotReplaced dps) k = propOf dps k.
Proof.
  intros Hne. unfold screenshotReplaced.
  destruct (truthy (propOf dps "screenshot")); [|reflexivity].
  apply propOf_setProp_other. congruence.
Qed.

Lemma propOf_screenshotReplaced_same (dps : Props) :
  propOf (screenshotReplaced dps) "screenshot" =
  if truthy (propOf dps "screenshot") then JStr SCREENSHOT_DATA
  else propOf dps "screenshot".
Proof.
  unfold screenshotReplaced.
  destruct (truthy (propOf dps "screenshot")); [apply propOf_setProp_same|reflexivity].
Qed.


Lemma sanitizeResult_data (ps dps : Props) :
  lookup "data" ps = Some (JObj dps) ->
  (forall f, In f largeFields -> stringOrFalsy (propOf dps f) = true) ->
  sanitizeResult (JObj ps) = Ok (JObj (setProp ps "data" (JObj (sanitizedData dps)))).
Proof.
  intros Hd Hall. unfold sanitizeResult. cbn [truthy negb].
  rewrite getProp_object. unfold propOf at 1. rewrite Hd. cbn [bind truthy negb spread].
  rewrite truncateField_object by (apply Hall; simpl; auto). cbn [bind].
  rewrite placeholderScreenshot_object. cbn [bind].
  rewrite truncateField_object.
  2:{ rewrite propOf_screenshotReplaced_other by discriminate.
      rewrite propOf_truncated_other by discriminate. apply Hall; simpl; auto. }
  cbn [bind]. rewrite truncateField_object.
  2:{ rewrite propOf_truncated_other by discriminate.
      rewrite propOf_screenshotReplaced_other by discriminate.
      rewrite propOf_truncated_other by discriminate. apply Hall; simpl; auto. }
  reflexivity.
Qed.

Lemma sanitizedData_large (dps : Props) (f s : string) :
  In f largeFields -> propOf dps f = JStr s ->
  propOf (sanitizedData dps) f =
  JStr (if (1000 <? String.length s)%nat
        then (String.substring 0 1000 s ++ TRUNCATED)%string else s).
Proof.
  intros Hin Hp. unfold sanitizedData.
  destruct Hin as [<-|[<-|[<-|[]]]].
  - rewrite propOf_truncated_other by discriminate.
    rewrite propOf_truncated_other by discriminate.
    rewrite propOf_screenshotReplaced_other by discriminate.
    now apply propOf_truncated_same.
  - rewrite propOf_truncated_other by discriminate.
    apply propOf_truncated_same.
    rewrite propOf_screenshotReplaced_other by discriminate.
    now rewrite propOf_truncated_other by discriminate.
  - apply propOf_truncated_same.
    rewrite propOf_truncated_other by discriminate.
    rewrite propOf_screenshotReplaced_other by discriminate.
    now rewrite propOf_truncated_other by discriminate.
Qed.

Lemma sanitizedData_screenshot (dps : Props) :
  propOf (sanitizedData dps) "screenshot" =
  if truthy (propOf dps "screenshot") then JStr SCREENSHOT_DATA
  else propOf dps "screenshot".
Proof.
  unfold sanitizedData.
  rewrite !propOf_truncated_other by discriminate.
  rewrite propOf_screenshotReplaced_same.
  now rewrite propOf_truncated_other by discriminate.
Qed.




(** ** Result comparison *)

(** The deep comparison decides [match] from the two URLs alone. *)
Lemma deep_match_depends_on_url_only (original replay : JsValue) (tool : string) :
  match_ (compareResults original replay tool true)
  = strictEq (optGet (optGet original "data") "url") (optGet (optGet replay "data") "url").
Proof.
  unfold compareResults. cbn [negb].
  destruct (strictEq (optGet (optGet original "data") "url")
                     (optGet (optGet replay "data") "url")); reflexivity.
Qed.

(** C1, at the input of the spec's scenario: original content of length 500,
    replay content of length 700, deep comparison.  The comparator records a
    [contentLength] difference and reports a match. *)
Theorem content_drift_over_tenth_still_matches :
  compareResults
    (JObj [("success", JBool true); ("data", JObj [("content", JStr (xs 500))])])
    (JObj [("success", JBool true); ("data", JObj [("content", JStr (xs 700))])])
    "browser_get_page_info" true
  = {| match_ := true;
       differences :=
         JObj [("contentLength",
                JObj [("original", JNum 500); ("replay", JNum 700);
                      ("difference", JNum 200)])] |}.
Proof. vm_compute. reflexivity. Qed.

(** A drift within a tenth is tolerated and leaves nothing recorded. *)
Lemma content_drift_within_tenth_matches :
  compareResults
    (JObj [("success", JBool true); ("data", JObj [("content", JStr (xs 500))])])
    (JObj [("success", JBool true); ("data", JObj [("content", JStr (xs 520))])])
    "browser_get_page_info" true
  = {| match_ := true; differences := JUndefined |}.
Proof. vm_compute. reflexivity. Qed.

(** A title difference is recorded and does not change [match]. *)
Lemma title_difference_is_not_significant :
  compareResults
    (JObj [("data", JObj [("url", JStr "https://example.com"); ("title", JStr "Home")])])
    (JObj [("data", JObj [("url", JStr "https://example.com"); ("title", JStr "Home (2)")])])
    "browser_get_page_info" true
  = {| match_ := true;
       differences :=
         JObj [("title", JObj [("original", JStr "Home"); ("replay", JStr "Home (2)")])] |}.
Proof. vm_compute. reflexivity. Qed.

(** Between two results that differ in their content only, the content-length
    entry is recorded exactly when the lengths differ by more than a tenth of
    the original length; the verdict is a match either way. *)
Lemma content_length_recorded_iff_over_tenth (c1 c2 : ascii) (s1 s2 : string) (tool : string) :
  let original := JObj [("data", JObj [("content", JStr (String c1 s1))])] in
  let replay := JObj [("data", JObj [("content", JStr (String c2 s2))])] in
  let n1 := Z.of_nat (String.length (String c1 s1)) in
  let n2 := Z.of_nat (String.length (String c2 s2)) in
  compareResults original replay tool true
  = {| match_ := true;
       differences :=
         if (n1 <? 10 * Z.abs (n1 - n2))%Z
         then JObj [("contentLength",
                     JObj [("original", JNum n1); ("replay", JNum n2);
                           ("difference", JNum (Z.abs (n1 - n2)))])]
         else JUndefined |}.
Proof.
  intros original replay n1 n2. unfold compareResults.
  cbn [negb].
  change (optGet (optGet original "data") "url") with JUndefined.
  change (optGet (optGet replay "data") "url") with JUndefined.
  change (optGet (optGet original "data") "title") with JUndefined.
  change (optGet (optGet replay "data") "title") with JUndefined.
  change (optGet (optGet original "data") "content") with (JStr (String c1 s1)).
  change (optGet (optGet replay "data") "content") with (JStr (String c2 s2)).
  change (optGet (JStr (String c1 s1)) "length") with (JNum n1).
  change (optGet (JStr (String c2 s2)) "length") with (JNum n2).
  cbn [strictEq negb truthy String.eqb andb toNumber numSub numAbs option_map exceedsTenth numToJs].
  destruct (n1 <? 10 * Z.abs (n1 - n2))%Z; reflexivity.
Qed.

(** ** Replay *)

Section ReplayFacts.

Variable Env : Type.
Variable createInstance : CreateConfig -> JsValue -> Env -> res JsValue * Env.
Variable executeTools : string -> JsValue -> Env -> res JsValue * Env.
Variable capturePageData : JsValue -> Env -> JsValue * Env.

Lemma invocations_app (a b : list ReplayEvent) :
  invocations (a ++ b) = invocations a ++ invocations b.
Proof.
  induction a as [|[c m|t p|ms] a IH]; simpl; trivial. now rewrite IH.
Qed.

(** The loop of [replaySession] issues one call per action, in order,
    whatever the tool. *)
Lemma replayLoop_invocations (instanceId : JsValue) (actions : list ActionRecord.t)
    (errors : list string) (st : ReplayState Env) :
  invocations (events Env (snd (replayLoop Env executeTools instanceId actions errors st)))
  = invocations (events Env st)
      ++ map (fun a => (ActionRecord.tool a, replayParams a instanceId)) actions.
Proof.
  revert errors st. induction actions as [|a rest IH]; intros errors st; simpl.
  - now rewrite List.app_nil_r.
  - destruct (executeTools (ActionRecord.tool a) (replayParams a instanceId) (env Env st))
      as [r e].
    destruct r as [result|m]; cbn [bind].
    + destruct (getProp result "success") as [success|m]; cbn [bind];
        rewrite IH; unfold emit; cbn [events];
        rewrite ?invocations_app; cbn [invocations];
        rewrite ?List.app_nil_r, <- ?List.app_assoc; reflexivity.
    + rewrite IH. unfold emit. cbn [events].
      rewrite invocations_app. cbn [invocations]. now rewrite <- List.app_assoc.
Qed.

(** Once its instance is created, basic replay issues one call per recorded
    action, in order, instance-creation actions included. *)
Lemma replaySessionData_invocations (sessionData : Session.t) (st : ReplayState Env)
    (instanceId : JsValue) :
  creates Env createInstance sessionData st instanceId ->
  invocations
    (events Env (snd (replaySessionData Env createInstance executeTools sessionData st)))
  = invocations (events Env st)
      ++ map (fun a => (ActionRecord.tool a, replayParams a instanceId))
             (Session.actions sessionData).
Proof.
  intros (cr & success & data & e & Hc & Hs & Ht & Hd & Hi).
  unfold replaySessionData. rewrite Hc. cbn [bind]. rewrite Hs. cbn [bind].
  rewrite Ht. cbn [negb]. rewrite Hd. cbn [bind]. rewrite Hi. cbn [bind].
  destruct (replayLoop Env executeTools instanceId (Session.actions sessionData) []
              (emit Env st e [Create (createConfigOf sessionData)
                                (Session.metadata sessionData)])) as [errors st'] eqn:Hl.
  cbn [snd].
  change st' with (snd (errors, st')). rewrite <- Hl.
  rewrite replayLoop_invocations.
  unfold emit. cbn [events]. rewrite invocations_app. cbn [invocations].
  now rewrite List.app_nil_r.
Qed.

(** Without stop-on-error the verifying loop issues one call per action of
    the list it is given. *)
Lemma verifyLoop_invocations (options : VerifyOptions) (instanceId : JsValue)
    (actions : list ActionRecord.t) :
  flag (stopOnError options) = false ->
  forall (i : nat) (acc : LoopState Env),
    invocations
      (events Env (ls_state Env
         (verifyLoop Env executeTools capturePageData options instanceId i actions acc)))
    = invocations (events Env (ls_state Env acc))
        ++ map (fun a => (ActionRecord.tool a, replayParams a instanceId)) actions.
Proof.
  intros Hstop. induction actions as [|a rest IH]; intros i acc.
  - cbn. now rewrite List.app_nil_r.
  - cbn [verifyLoop map]. rewrite Hstop.
    destruct (executeTools (ActionRecord.tool a) (replayParams a instanceId)
                (env Env (ls_state Env acc))) as [r e].
    destruct r as [result|m]; cbn [bind].
    + destruct (getProp result "success") as [success|m]; cbn [bind].
      * rewrite andb_false_r.
        destruct (flag (captureNewData options) && isPageStateAction (ActionRecord.tool a)).
        -- destruct (capturePageData instanceId _) as [pageData e'].
           rewrite IH. unfold emit. cbn [ls_state events].
           rewrite !invocations_app. cbn [invocations].
           now rewrite !List.app_nil_r, <- List.app_assoc.
        -- rewrite IH. unfold emit. cbn [ls_state events].
           rewrite !invocations_app. cbn [invocations].
           now rewrite !List.app_nil_r, <- List.app_assoc.
      * rewrite IH. unfold emit. cbn [ls_state events].
        rewrite invocations_app. cbn [invocations]. now rewrite <- List.app_assoc.
    + rewrite IH. unfold emit. cbn [ls_state events].
      rewrite invocations_app. cbn [invocations]. now rewrite <- List.app_assoc.
Qed.

(** Once its instance is created, and without stop-on-error, the verifying
    replay issues one call per recorded action other than instance creation. *)
Lemma replayVerifiedData_invocations (sessionData : Session.t) (options : VerifyOptions)
    (st : ReplayState Env) (instanceId : JsValue) :
  flag (stopOnError options) = false ->
  creates Env createInstance sessionData st instanceId ->
  invocations
    (events Env (snd (replayVerifiedData Env createInstance executeTools capturePageData
                        sessionData options st)))
  = invocations (events Env st)
      ++ map (fun a => (ActionRecord.tool a, replayParams a instanceId))
             (filter notCreateInstance (Session.actions sessionData)).
Proof.
  intros Hstop (cr & success & data & e & Hc & Hs & Ht & Hd & Hi).
  unfold replayVerifiedData. rewrite Hc. cbn [bind]. rewrite Hs. cbn [bind].
  rewrite Ht. cbn [negb]. rewrite Hd. cbn [bind]. rewrite Hi. cbn [bind snd].
  rewrite (verifyLoop_invocations options instanceId _ Hstop).
  unfold emit. cbn [ls_state events]. rewrite invocations_app. cbn [invocations].
  now rewrite List.app_nil_r.
Qed.

End ReplayFacts.

(** C2, at a recorded session that starts with the creation of its instance:
    basic replay creates its own instance and then issues the recorded
    [browser_create_instance] again, before the navigation. *)
Theorem replaySession_reissues_instance_creation :
  invocations
    (events nat (snd (replaySessionData nat countingCreate countingExecute
                        recordedVisit freshReplay)))
  = [("browser_create_instance",
      JObj [("browserType", JStr "chromium"); ("instanceId", JStr "replay-0")]);
     ("browser_navigate",
      JObj [("instanceId", JStr "replay-0"); ("url", JStr "https://example.com")])]
  /\ env nat (snd (replaySessionData nat countingCreate countingExecute
                     recordedVisit freshReplay)) = 2.
Proof. split; vm_compute; reflexivity. Qed.

(** The verifying replay leaves the creation out. *)
Lemma verifying_replay_skips_instance_creation :
  invocations
    (events nat (snd (replayVerifiedData nat countingCreate countingExecute noCapture
                        recordedVisit plainOptions freshReplay)))
  = [("browser_navigate",
      JObj [("instanceId", JStr "replay-0"); ("url", JStr "https://example.com")])].
Proof. vm_compute. reflexivity. Qed.

(** ** Generated source *)

(** C4, at a [type] action with the text O'Brien: the script exporter copies
    the text between quotes as it is. *)
Theorem script_export_leaves_quote_unescaped :
  actionToPlaywrightCommand typeOBrien
  = Ok (Some "await page.type('#name', 'O'Brien');")
  /\ actionToPlaywrightTest typeOBrien
     = Ok (Some "  await page.type('#name', 'O\'Brien');").
Proof. split; vm_compute; reflexivity. Qed.

(** The test generator escapes the text of [type], and not a selector. *)
Lemma test_generator_escapes_typed_text (id selector text : string) :
  actionToPlaywrightTest
    (recordOf id "browser_type" (JObj [("selector", JStr selector); ("text", JStr text)])
       JUndefined)
  = Ok (Some ("  await page.type('" ++ selector ++ "', '" ++ escapeQuotes text ++ "');")%string).
Proof. reflexivity. Qed.

Lemma test_generator_leaves_selector_unescaped :
  actionToPlaywrightTest
    (recordOf "a4" "browser_click" (JObj [("selector", JStr "a[title='Home']")]) JUndefined)
  = Ok (Some "  await page.click('a[title='Home']');").
Proof. vm_compute. reflexivity. Qed.

(** In the text [escapeQuotes] returns every quote comes right after a
    backslash. *)
Lemma escapeQuotes_escaped (s : string) (afterBackslash : bool) :
  quotesEscaped afterBackslash (escapeQuotes s) = true.
Proof.
  revert afterBackslash. induction s as [|c s IH]; intros b; [reflexivity|].
  cbn [escapeQuotes]. destruct (Ascii.eqb c "'") eqn:Hc.
  - cbn [quotesEscaped]. change (Ascii.eqb "\" "'") with false. cbv iota.
    change (Ascii.eqb "\" "\") with true. change (Ascii.eqb "'" "'") with true.
    cbv iota. now rewrite IH.
  - cbn [quotesEscaped]. rewrite Hc. apply IH.
Qed.

(** The script exporter's statement for O'Brien has a quote that no backslash
    precedes. *)
Lemma exported_statement_has_bare_quote :
  quotesEscaped false "await page.type('#name', 'O'Brien');" = false
  /\ quotesEscaped false (escapeQuotes "O'Brien") = true.
Proof. split; reflexivity. Qed.

(** ** Sanitizing shared objects *)

Lemma store_last (h : Shared.heap) (c c' : Shared.cell) :
  Shared.store (h ++ [c]) (List.length h) c' = h ++ [c'].
Proof. induction h as [|x h IH]; simpl; [reflexivity|now rewrite IH]. Qed.

Lemma deref_last (h : Shared.heap) (c : Shared.cell) :
  Shared.deref (h ++ [c]) (List.length h) = c.
Proof.
  unfold Shared.deref. rewrite app_nth2 by lia. now rewrite Nat.sub_diag.
Qed.

Lemma redactField_fresh (h : Shared.heap) (props : list (string * Shared.value))
    (field : string) :
  exists props',
    Shared.redactField (Shared.VRef (List.length h))
      (@Ok Shared.heap (h ++ [Shared.Plain props])) field
    = @Ok Shared.heap (h ++ [Shared.Plain props']).
Proof.
  unfold Shared.redactField. cbn [bind].
  destruct (Shared.truthy _).
  - unfold Shared.assign. rewrite deref_last, store_last. eexists. reflexivity.
  - eexists. reflexivity.
Qed.

(** [sanitizeParameters] writes to its own copy only: the caller's cells are
    all as they were, and the sanitized bag is one new cell after them. *)
Lemma sanitizeParameters_allocates (h : Shared.heap) (params : Shared.value) :
  exists props',
    Shared.sanitizeParameters h params
    = Ok (Shared.VRef (List.length h), h ++ [Shared.Plain props']).
Proof.
  unfold Shared.sanitizeParameters, Shared.alloc.
  set (p0 := Shared.spread h params). clearbody p0.
  cbv beta iota zeta. cbn [sensitiveFields fold_left].
  destruct (redactField_fresh h p0 "password") as [p1 ->].
  destruct (redactField_fresh h p1 "token") as [p2 ->].
  destruct (redactField_fresh h p2 "apiKey") as [p3 ->].
  destruct (redactField_fresh h p3 "secret") as [p4 ->].
  cbn [bind].
  destruct (Shared.truthy _).
  - unfold Shared.assign. rewrite deref_last, store_last. cbn [bind].
    eexists. reflexivity.
  - cbn [bind]. eexists. reflexivity.
Qed.

(** Under full capture a data-bearing tool's result is stored by reference
    and nothing is written. *)
Lemma processResult_full_capture_shares (h : Shared.heap) (result : Shared.value)
    (tool : string) :
  includes dataCapturingTools tool = true ->
  Shared.processResult true h result tool = Ok (result, h).
Proof.
  intros Hi. unfold Shared.processResult. rewrite Hi.
  now destruct (Shared.truthy result).
Qed.

(** On the sample, the sanitizer on shared objects stores what the sanitizer
    on values computes from what the caller's references stand for. *)
Lemma shared_sanitizers_agree_on_sample :
  match Shared.sanitizeResult callerHeap callerResult with
  | Ok (stored, h') => Ok (Shared.observe h' stored)
  | Throw m => Throw m
  end = sanitizeResult (Shared.observe callerHeap callerResult)
  /\ match Shared.sanitizeParameters callerHeap callerParameters with
     | Ok (stored, h') => Shared.observe h' stored
     | Throw _ => JUndefined
     end = sanitizeParameters (Shared.observe callerHeap callerParameters).
Proof. split; vm_compute; reflexivity. Qed.

(** C5, at a caller's result whose [data.html] has 1200 characters and a tool
    that is not data-bearing: after the payloads are computed, under either
    capture mode, the caller's own [data] object holds the truncated text. *)
Theorem sanitizeResult_writes_into_callers_data (capture : bool) :
  Shared.observe callerHeap callerResult
  = JObj [("success", JBool true); ("data", JObj [("html", JStr (xs 1200))])]
  /\ exists params stored h',
       Shared.recordedPayload capture callerHeap "browser_click"
         callerParameters callerResult = Ok (params, stored, h') /\
       Shared.observe h' callerResult
       = JObj [("success", JBool true);
               ("data",
                JObj [("html",
                       JStr (String.substring 0 1000 (xs 1200) ++ TRUNCATED)%string)])]
       /\ Shared.observe h' callerParameters = Shared.observe callerHeap callerParameters.
Proof.
  split; [vm_compute; reflexivity|].
  destruct capture; eexists; eexists; eexists;
    (split; [vm_compute; reflexivity|split; vm_compute; reflexivity]).
Qed.

(** ** Generated tests *)

Lemma concat_app (sep : string) (l1 l2 : list string) :
  l1 <> [] -> l2 <> [] ->
  String.concat sep (l1 ++ l2)
  = (String.concat sep l1 ++ sep ++ String.concat sep l2)%string.
Proof.
  intros H1 H2. induction l1 as [|x l1 IH]; [contradiction|].
  destruct l1 as [|y l1].
  - simpl. destruct l2 as [|z l2]; [contradiction|]. reflexivity.
  - change (String.concat sep ((x :: y :: l1) ++ l2))
      with (x ++ sep ++ String.concat sep ((y :: l1) ++ l2))%string.
    rewrite IH by discriminate.
    change (String.concat sep (x :: y :: l1))
      with (x ++ sep ++ String.concat sep (y :: l1))%string.
    now rewrite !append_assoc.
Qed.

Lemma joinLines_suffix (pre tail : list string) :
  pre <> [] -> tail <> [] ->
  joinLines (pre ++ tail) = (joinLines pre ++ String JSON.newline (joinLines tail))%string.
Proof.
  intros H1 H2. unfold joinLines. now rewrite concat_app.
Qed.

Lemma testSource_ends_with_liveness (session : Session.t) (options : TestOptions)
    (src : string) :
  testSource session options = Ok src ->
  exists pre, src = (pre ++ livenessSuffix)%string.
Proof.
  unfold testSource.
  destruct (testActionLines (filter notCreateInstance (Session.actions session)))
    as [body|m]; cbn [bind]; [|discriminate].
  intros [= <-]. unfold livenessSuffix.
  match goal with
  | |- exists pre, joinLines ((?l ++ livenessLines) ++ ["});"]) = _ =>
      exists (joinLines l); rewrite <- List.app_assoc; apply joinLines_suffix;
        [|discriminate]
  end.
  destruct (Session.config session) as [[hl [v|] ua]|];
    destruct (expectedString options) as [e|];
    try destruct (e =? "")%string; discriminate.
Qed.

Lemma actionToPlaywrightTest_total (a : ActionRecord.t) :
  generable a = true -> exists code, actionToPlaywrightTest a = Ok code.
Proof.
  unfold generable, actionToPlaywrightTest, param.
  destruct (ActionRecord.parameters a) as [| | | | | |ps]; try discriminate.
  rewrite !getProp_object. intros H. apply andb_true_iff in H. destruct H as [Ht Hf].
  destruct (ActionRecord.tool a =? "browser_navigate")%string; [cbn; eauto|].
  destruct (ActionRecord.tool a =? "browser_click")%string; [cbn; eauto|].
  destruct (ActionRecord.tool a =? "browser_type")%string.
  { destruct (propOf ps "text"); try discriminate. cbn. eauto. }
  destruct (ActionRecord.tool a =? "browser_fill")%string.
  { destruct (propOf ps "value"); try discriminate. cbn. eauto. }
  repeat match goal with
         | |- context [if ?c then _ else _] => destruct c; [cbn [bind]; eauto|]
         end.
  eauto.
Qed.

Lemma testActionLines_total (actions : list ActionRecord.t) :
  forallb generable actions = true -> exists body, testActionLines actions = Ok body.
Proof.
  induction actions as [|a rest IH]; simpl; intros H; [eauto|].
  apply andb_true_iff in H. destruct H as [Ha Hr].
  destruct (actionToPlaywrightTest_total a Ha) as [code ->].
  destruct (IH Hr) as [body ->]. cbn [bind]. eauto.
Qed.

Lemma forallb_filter {A : Type} (p q : A -> bool) (l : list A) :
  forallb p l = true -> forallb p (filter q l) = true.
Proof.
  induction l as [|x l IH]; simpl; [trivial|].
  intros H. apply andb_true_iff in H. destruct H as [Hx Hl].
  destruct (q x); simpl; [rewrite Hx|]; auto.
Qed.

Lemma testSource_total (session : Session.t) (options : TestOptions) :
  forallb generable (Session.actions session) = true ->
  exists src, testSource session options = Ok src.
Proof.
  intros H. unfold testSource.
  destruct (testActionLines_total _ (forallb_filter generable notCreateInstance _ H))
    as [body ->].
  cbn [bind]. eauto.
Qed.

(** Generation stops with a TypeError at a [type] action that has no text. *)
Lemma type_action_without_text_throws (options : TestOptions) :
  generable typeWithoutText = false
  /\ testSource (sessionOf [typeWithoutText]) options
     = Throw "TypeError: Cannot read properties of undefined".
Proof. split; reflexivity. Qed.

(** C9.  Whatever the session identifier or path and the options, a text that
    [generatePlaywrightTest] returns ends with the liveness assertion
    [expect(url).toBeTruthy();] and the closing of the test; and for a session
    held in memory whose actions are generable it does return a text. *)
Theorem generated_test_ends_with_liveness_assertion
    (w : World) (sessionIdOrPath : string) (options : TestOptions) :
  (forall w' src,
     generatePlaywrightTest sessionIdOrPath options w = (Ok src, w') ->
     exists pre, src = (pre ++ livenessSuffix)%string)
  /\
  (forall s,
     includesStr sessionIdOrPath "/" = false ->
     includesStr sessionIdOrPath ".json" = false ->
     find (fun s => (Session.id s =? sessionIdOrPath)%string)
          (map snd (sessions (recorder w))) = Some s ->
     forallb generable (Session.actions s) = true ->
     exists src, generatePlaywrightTest sessionIdOrPath options w = (Ok src, w))
  /\
  livenessSuffix
  = (String JSON.newline "  // Verify page loaded without errors"
       ++ String JSON.newline "  const url = page.url();"
       ++ String JSON.newline "  expect(url).toBeTruthy();"
       ++ String JSON.newline "});")%string.
Proof.
  split; [|split; [|reflexivity]].
  - intros w' src. unfold generatePlaywrightTest. unfold bindM at 1.
    match goal with
    | |- context [match ?r w with _ => _ end] => destruct (r w) as [[session|m] w1]
    end; [|discriminate].
    unfold liftRes. intros [= H _]. now apply testSource_ends_with_liveness in H.
  - intros s H1 H2 Hf Hg. unfold generatePlaywrightTest. rewrite H1, H2. cbn [orb].
    unfold bindM, getRecorder. rewrite Hf. unfold ret, liftRes.
    destruct (testSource_total s options Hg) as [src ->]. eauto.
Qed.

Lemma generated_test_ends_with_liveness_assertion_witness :
  exists src,
    generatePlaywrightTest "e0bd2f64"
      {| testName := None; expectedString := None; timeout := None |}
      {| recorder := recorderWith true true [("instance-1", recordedVisit)];
         host := sampleHost |}
    = (Ok src,
       {| recorder := recorderWith true true [("instance-1", recordedVisit)];
          host := sampleHost |}).
Proof.
  apply (proj1 (proj2 (generated_test_ends_with_liveness_assertion
                  {| recorder := recorderWith true true [("instance-1", recordedVisit)];
                     host := sampleHost |}
                  "e0bd2f64"
                  {| testName := None; expectedString := None; timeout := None |}))
               recordedVisit); reflexivity.
Defined.

(** ** Saving and loading *)








(** A session that holds [undefined] fields is written without them: the
    object that loads back is not the object in memory, though its typed view
    is still the session. *)
Lemma undefined_fields_are_not_written :
  JSON.representable (sessionToJs freshSession) = false
  /\ exists text loaded,
       JSON.stringify (sessionToJs freshSession) = Some text /\
       JSON.parse text = Some loaded /\
       loaded <> sessionToJs freshSession /\
       asSession loaded = Some freshSession.
Proof.
  split; [reflexivity|].
  eexists. eexists. split; [reflexivity|]. split; [vm_compute; reflexivity|].
  split; [discriminate|reflexivity].
Qed.

(** * Further properties of the recorder *)

(** ** What a saved file gives back *)

Lemma written_object (ps : list (string * JsValue)) :
  written (JObj ps) = JObj (writtenMembers ps).
Proof. reflexivity. Qed.

Lemma written_array (items : list JsValue) :
  written (JArr items) = JArr (map writtenItem items).
Proof. reflexivity. Qed.

Lemma isUndefined_true (v : JsValue) : isUndefined v = true -> v = JUndefined.
Proof. destruct v; (reflexivity || discriminate). Qed.

Lemma writtenMembers_cons (k : string) (x : JsValue) (rest : list (string * JsValue)) :
  writtenMembers ((k, x) :: rest)
  = if isUndefined x then writtenMembers rest else (k, written x) :: writtenMembers rest.
Proof. destruct x; reflexivity. Qed.

Lemma writtenMembers_app (a b : list (string * JsValue)) :
  writtenMembers (a ++ b) = writtenMembers a ++ writtenMembers b.
Proof.
  induction a as [|[k x] a IH]; [reflexivity|].
  cbn [app]. rewrite !writtenMembers_cons, IH. now destruct (isUndefined x).
Qed.

(** A value and what is written of it have the same text. *)
Lemma serialize_written (v : JsValue) :
  forall indent, JSON.serialize indent (written v) = JSON.serialize indent v.
Proof.
  induction v as [| |b|z|str|items Hall|props Hall] using JsValue_nested_ind;
    intros indent; try reflexivity.
  - rewrite written_array, !serialize_array. do 2 f_equal.
    induction Hall as [|x more Hx _ IH]; [reflexivity|].
    cbn [map elementTexts] in *. unfold elementTexts in IH. rewrite IH. f_equal.
    destruct x; try (now rewrite Hx); reflexivity.
  - rewrite written_object, !serialize_object. do 2 f_equal.
    induction Hall as [|[k x] more Hx _ IH]; [reflexivity|].
    rewrite writtenMembers_cons. cbn [snd] in Hx.
    destruct (isUndefined x) eqn:Hu.
    + apply isUndefined_true in Hu. subst x. exact IH.
    + cbn [memberTexts]. rewrite Hx, IH. reflexivity.
Qed.

(** The text of a value parses to what is written of it. *)
Lemma parse_stringify_written (v : JsValue) :
  JSON.representable (written v) = true ->
  exists text, JSON.stringify v = Some text /\ JSON.parse text = Some (written v).
Proof.
  intros Hrep. destruct (parse_stringify (written v) Hrep) as (text & Ht & Hp).
  exists text. split; [|exact Hp].
  unfold JSON.stringify in *. now rewrite <- serialize_written.
Qed.

(** Nothing is left out of a representable value. *)
Lemma written_representable (v : JsValue) :
  JSON.representable v = true -> written v = v.
Proof.
  induction v as [| |b|z|str|items Hall|props Hall] using JsValue_nested_ind;
    intros Hrep; try reflexivity.
  - rewrite written_array. f_equal. cbn [JSON.representable] in Hrep.
    induction Hall as [|x more Hx _ IH]; [reflexivity|].
    cbn [forallb] in Hrep. apply andb_true_iff in Hrep. destruct Hrep as [Hrx Hrm].
    cbn [map]. rewrite (IH Hrm). f_equal.
    destruct x; try discriminate; now apply Hx.
  - rewrite written_object. f_equal. rewrite representable_object in Hrep.
    apply andb_true_iff in Hrep. destruct Hrep as [_ Hrep].
    induction Hall as [|[k x] more Hx _ IH]; [reflexivity|].
    cbn [forallb snd] in Hrep, Hx. apply andb_true_iff in Hrep. destruct Hrep as [Hrx Hrm].
    rewrite writtenMembers_cons, (IH Hrm), (Hx Hrx).
    destruct x; try discriminate; reflexivity.
Qed.

Lemma propOf_writtenMembers_absent (ps : list (string * JsValue)) (k : string) :
  JSON.keyIn k ps = false -> propOf (writtenMembers ps) k = JUndefined.
Proof.
  induction ps as [|[k' x] rest IH]; [reflexivity|].
  cbn [JSON.keyIn]. intros H. apply orb_false_iff in H. destruct H as [Hk Hr].
  rewrite writtenMembers_cons. destruct (isUndefined x); [now apply IH|].
  unfold propOf. cbn [lookup]. rewrite Hk. now apply IH.
Qed.

(** Reading a key of what is written of an object whose keys are distinct. *)
Lemma propOf_writtenMembers (ps : list (string * JsValue)) (k : string) :
  uniqueKeys ps = true -> propOf (writtenMembers ps) k = written (propOf ps k).
Proof.
  induction ps as [|[k' x] rest IH]; [reflexivity|].
  cbn [uniqueKeys]. intros H. apply andb_true_iff in H. destruct H as [Hk Hu].
  apply negb_true_iff in Hk. rewrite writtenMembers_cons.
  unfold propOf at 2. cbn [lookup].
  destruct (String.eqb_spec k' k) as [->|Hne].
  - destruct (isUndefined x) eqn:Hx.
    + apply isUndefined_true in Hx. subst x. now apply propOf_writtenMembers_absent.
    + unfold propOf. cbn [lookup]. now rewrite String.eqb_refl.
  - destruct (isUndefined x).
    + now apply IH.
    + unfold propOf at 1. cbn [lookup].
      destruct (String.eqb_spec k' k); [contradiction|]. now apply IH.
Qed.

Lemma asAction_written (a : ActionRecord.t) :
  asAction (written (actionToJs a)) = Some (writtenAction a).
Proof.
  unfold actionToJs. rewrite written_object. unfold asAction, field.
  rewrite !propOf_writtenMembers by reflexivity.
  destruct a as [i ts tl p r [e|] [d|] m pd]; reflexivity.
Qed.

Lemma asActions_written (l : list ActionRecord.t) :
  asActions (map writtenItem (map actionToJs l)) = Some (map writtenAction l).
Proof.
  induction l as [|a l IH]; [reflexivity|].
  cbn [map asActions]. rewrite IH.
  change (writtenItem (actionToJs a)) with (written (actionToJs a)).
  now rewrite asAction_written.
Qed.

Lemma asConfig_written (c : SessionConfig) :
  asOptional asConfig (written (configToJs c)) = Some (Some c).
Proof. destruct c as [[h|] [[wd ht]|] [u|]]; reflexivity. Qed.

(** The typed view of what is written of a session's object. *)
Lemma asSession_written (s : Session.t) :
  asSession (written (sessionToJs s)) = Some (writtenSession s).
Proof.
  destruct s as [i inst bt st en acts md cfg].
  unfold sessionToJs. rewrite written_object. unfold asSession, field, writtenSession.
  cbn [Session.id Session.instanceId Session.browserType Session.startedAt
       Session.endedAt Session.actions Session.metadata Session.config].
  destruct cfg as [c|], en as [e|]; cbn [app];
    rewrite !propOf_writtenMembers by reflexivity;
    cbn [propOf lookup String.eqb Ascii.eqb Bool.eqb];
    rewrite ?written_array; cbn [written asString asOptional option_map];
    rewrite asActions_written, ?asConfig_written; reflexivity.
Qed.

(** ** The session map *)

Lemma mapGet_mapSet_other {V : Type} (m : list (string * V)) (k k' : string) (v : V) :
  k <> k' -> mapGet k' (mapSet k v m) = mapGet k' m.
Proof.
  intros Hne. induction m as [|[k0 v0] rest IH]; simpl.
  - destruct (String.eqb_spec k k'); [contradiction|reflexivity].
  - destruct (String.eqb_spec k0 k) as [->|Hk]; simpl.
    + destruct (String.eqb_spec k k'); [contradiction|reflexivity].
    + destruct (String.eqb_spec k0 k'); [reflexivity|exact IH].
Qed.

Lemma mapGet_absent {V : Type} (m : list (string * V)) (k : string) :
  ~ In k (map fst m) -> mapGet k m = None.
Proof.
  induction m as [|[k0 v0] rest IH]; [reflexivity|].
  cbn [map fst In mapGet]. intros H.
  destruct (String.eqb_spec k0 k) as [->|Hk]; [exfalso; auto|]. apply IH. auto.
Qed.

Lemma mapGet_mapDelete_same {V : Type} (m : list (string * V)) (k : string) :
  oneEntryPerKey m -> mapGet k (mapDelete k m) = None.
Proof.
  unfold oneEntryPerKey. induction m as [|[k0 v0] rest IH]; [reflexivity|].
  cbn [map fst mapDelete]. intros H. inversion H as [|? ? Hnin Hnd]; subst.
  destruct (String.eqb_spec k0 k) as [->|Hk].
  - now apply mapGet_absent.
  - cbn [mapGet]. destruct (String.eqb_spec k0 k); [contradiction|]. now apply IH.
Qed.


Lemma mapSet_keys {V : Type} (m : list (string * V)) (k : string) (v : V) :
  map fst (mapSet k v m) = if existsb (fun y => (y =? k)%string) (map fst m)
                           then map fst m else map fst m ++ [k].
Proof.
  induction m as [|[k0 v0] rest IH]; [reflexivity|].
  cbn [mapSet map fst existsb].
  destruct (String.eqb_spec k0 k) as [->|Hk]; [reflexivity|].
  cbn [map fst orb]. rewrite IH.
  now destruct (existsb (fun y => (y =? k)%string) (map fst rest)).
Qed.

(** [set] keeps one entry per key. *)
Lemma mapSet_oneEntryPerKey {V : Type} (m : list (string * V)) (k : string) (v : V) :
  oneEntryPerKey m -> oneEntryPerKey (mapSet k v m).
Proof.
  unfold oneEntryPerKey. rewrite mapSet_keys. intros H.
  destruct (existsb (fun y => (y =? k)%string) (map fst m)) eqn:He; [exact H|].
  apply NoDup_app; [exact H|repeat constructor; intros []|].
  intros x Hx [<-|[]].
  assert (Ht : existsb (fun y => (y =? k)%string) (map fst m) = true).
  { apply existsb_exists. exists k. split; [exact Hx|apply String.eqb_refl]. }
  congruence.
Qed.

(** ** What [saveSession] does *)

Lemma saveSession_effect (w : World) (i : string) (s : Session.t) :
  mapGet i (sessions (recorder w)) = Some s ->
  exists text,
    JSON.stringify (sessionToJs s) = Some text /\
    saveSession i w = (Ok (savedPath w s), withHost w (hostAfterSave w s text)).
Proof.
  intros Hs. destruct (stringify_session s) as [text Ht]. exists text.
  split; [exact Ht|].
  unfold saveSession, bindM, getRecorder. rewrite Hs, Ht.
  unfold ensureSessionsDir, bindM, getRecorder, mkdir, hostAfterSave, savedPath, savedName,
    nextStamp.
  destruct (includes (directories (host w)) (sessionsDir (recorder w))) eqn:Hd;
    unfold nowISO, dateNow, bindM, writeFile, ret, withHost;
    cbn [fst snd recorder host files directories clock toISOString clockReads uuidv4
         uuidReads timers];
    rewrite ?Hd; reflexivity.
Qed.

Lemma saveSession_missing (w : World) (i : string) :
  mapGet i (sessions (recorder w)) = None ->
  saveSession i w = (Throw ("Session not found for instance: " ++ i)%string, w).
Proof.
  intros Hs. unfold saveSession, bindM, getRecorder. now rewrite Hs.
Qed.


(** The optional save after a change of the session of [i]. *)
Lemma autoSave_effect (w : World) (i : string) (s : Session.t) (b : bool) :
  mapGet i (sessions (recorder w)) = Some s ->
  exists w',
    (if b then _ <- saveSession i ;; ret tt else ret tt) w = (Ok tt, w') /\
    recorder w' = recorder w /\ timers (host w') = timers (host w) /\
    uuidv4 (host w') = uuidv4 (host w) /\ uuidReads (host w') = uuidReads (host w) /\
    clock (host w') = clock (host w) /\ toISOString (host w') = toISOString (host w) /\
    clockReads (host w') = (if b then S (clockReads (host w)) else clockReads (host w)) /\
    (b = true ->
     exists text, JSON.stringify (sessionToJs s) = Some text /\
                  files (host w') = mapSet (savedPath w s) text (files (host w))) /\
    (b = false -> w' = w).
Proof.
  intros Hs. destruct b.
  - destruct (saveSession_effect w i s Hs) as (text & Ht & Hsave).
    exists (withHost w (hostAfterSave w s text)).
    unfold bindM. rewrite Hsave. unfold ret.
    repeat split; try reflexivity; try discriminate.
    intros _. exists text. split; [exact Ht|reflexivity].
  - exists w. unfold ret. repeat split; try reflexivity; discriminate.
Qed.



Lemma substring_skip (a b : string) (m : nat) :
  String.substring (String.length a) m (a ++ b) = String.substring 0 m b.
Proof. induction a as [|c a IH]; [reflexivity|exact IH]. Qed.

Lemma substring_all (b : string) : String.substring 0 (String.length b) b = b.
Proof. induction b as [|c b IH]; [reflexivity|]. cbn. now rewrite IH. Qed.

Lemma endsWith_append (a suffix : string) : endsWith (a ++ suffix) suffix = true.
Proof.
  unfold endsWith. rewrite length_append.
  replace (String.length a + String.length suffix - String.length suffix)
    with (String.length a) by lia.
  rewrite substring_skip, substring_all, String.eqb_refl.
  replace (String.length suffix <=? String.length a + String.length suffix)%nat with true;
    [reflexivity|].
  symmetry. apply Nat.leb_le. lia.
Qed.

Lemma endsWith_savedName (w : World) (s : Session.t) :
  endsWith (savedName w s) ".json" = true.
Proof.
  unfold savedName.
  rewrite <- !append_assoc. apply endsWith_append.
Qed.

(** ** Opening, filling and closing a session *)

Lemma startSession_effect (w : World) (i : string) (config : StartConfig) :
  recordingEnabled (recorder w) = true ->
  exists w',
    startSession i config w = (Ok (uuidv4 (host w) (uuidReads (host w))), w') /\
    recorder w'
    = recorder (withSessions w (mapSet i (openedSession w i config) (sessions (recorder w)))) /\
    uuidReads (host w') = S (uuidReads (host w)) /\
    timers (host w') = timers (host w) /\
    (autoSave (recorder w) = true ->
     exists path text,
       JSON.stringify (sessionToJs (openedSession w i config)) = Some text /\
       mapGet path (files (host w')) = Some text).
Proof.
  intros He. unfold startSession, bindM at 1, getRecorder. rewrite He. cbn [negb].
  unfold bindM at 1, newUuid. unfold bindM at 1, nowISO, dateNow.
  cbn [host withHost clock clockReads toISOString recorder].
  unfold bindM at 1, setSession.
  match goal with
  | |- context [bindM _ _ ?w0] => set (w1 := w0)
  end.
  assert (Hg : mapGet i (sessions (recorder w1)) = Some (openedSession w i config)).
  { subst w1. cbn. apply mapGet_mapSet_same. }
  destruct (autoSave_effect w1 i _ (autoSave (recorder w)) Hg)
    as (w' & Hrun & Hrec & Htim & _ & Hu & _ & _ & _ & Hfile & _).
  exists w'. unfold bindM at 1. rewrite Hrun. unfold ret.
  split; [reflexivity|]. split; [now rewrite Hrec|].
  split; [rewrite Hu; reflexivity|]. split; [rewrite Htim; reflexivity|].
  intros Ha. destruct (Hfile Ha) as (text & Ht & Hf).
  exists (savedPath w1 (openedSession w i config)), text. split; [exact Ht|].
  rewrite Hf. apply mapGet_mapSet_same.
Qed.

Lemma endSession_effect (w : World) (i : string) (s : Session.t) :
  recordingEnabled (recorder w) = true ->
  mapGet i (sessions (recorder w)) = Some s ->
  exists w',
    endSession i w = (Ok tt, w') /\
    recorder w'
    = recorder (withSessions w (mapSet i (Session.close s (nextStamp w))
                                       (sessions (recorder w)))) /\
    timers (host w') = timers (host w) ++ [(60000%Z, i)] /\
    uuidReads (host w') = uuidReads (host w).
Proof.
  intros He Hs. unfold endSession, bindM at 1, getRecorder. rewrite He, Hs. cbn [negb].
  unfold bindM at 1, nowISO, dateNow. unfold bindM at 1, setSession.
  cbn [recorder withHost host withSessions sessions autoSave].
  match goal with
  | |- context [bindM _ _ ?w0] => set (w1 := w0)
  end.
  assert (Hg : mapGet i (sessions (recorder w1)) = Some (Session.close s (nextStamp w))).
  { subst w1. cbn. apply mapGet_mapSet_same. }
  destruct (autoSave_effect w1 i _ (autoSave (recorder w)) Hg)
    as (w' & Hrun & Hrec & Htim & _ & Hu & _ & _ & _ & _).
  unfold bindM at 1. rewrite Hrun. unfold scheduleEviction.
  eexists. split; [reflexivity|]. cbn [recorder withHost host timers uuidReads].
  rewrite Hrec, Htim, Hu. repeat split; reflexivity.
Qed.

(** X1.  With recording on, [startSession] returns the next identifier of the
    generator and leaves, under the instance, a session with that identifier,
    the given browser type, configuration and metadata, the current instant
    as its start, no end and no action; whatever session the instance had is
    replaced.  With auto-save the session's text is in a file. *)
Theorem startSession_opens_an_empty_session
    (w : World) (i : string) (config : StartConfig) :
  recordingEnabled (recorder w) = true ->
  exists w',
    startSession i config w = (Ok (uuidv4 (host w) (uuidReads (host w))), w') /\
    sessionOfInstance w' i = Some (openedSession w i config) /\
    Session.actions (openedSession w i config) = [] /\
    Session.endedAt (openedSession w i config) = None /\
    (autoSave (recorder w) = true ->
     exists path text,
       JSON.stringify (sessionToJs (openedSession w i config)) = Some text /\
       mapGet path (files (host w')) = Some text).
Proof.
  intros He.
  destruct (startSession_effect w i config He) as (w' & Hrun & Hrec & _ & _ & Hfile).
  exists w'. split; [exact Hrun|]. split.
  - unfold sessionOfInstance. rewrite Hrec. cbn. apply mapGet_mapSet_same.
  - repeat split; trivial.
Qed.

Lemma startSession_opens_an_empty_session_witness :
  exists w',
    startSession "instance-1" sampleStart (sampleWorld true)
    = (Ok "e0bd2f64-0000-4000-8000-0", w') /\
    sessionOfInstance w' "instance-1"
    = Some (openedSession (sampleWorld true) "instance-1" sampleStart).
Proof.
  destruct (startSession_opens_an_empty_session (sampleWorld true) "instance-1" sampleStart
              eq_refl) as (w' & Hrun & Hget & _).
  exists w'. split; [exact Hrun|exact Hget].
Defined.






(** X3.  For an instance that has no session in memory, [recordAction] and
    [endSession] return normally and [getSessionStats] returns [undefined],
    while [saveSession] and [exportAsScript] throw "Session not found for
    instance: ..."; none of them changes anything, no directory is made and
    no clock is read. *)
Theorem missing_session_is_skipped_or_reported
    (getTime : string -> option Z) (w : World) (i : string) (a : ActionInput)
    (format : ExportFormat) :
  sessionOfInstance w i = None ->
  recordAction i a w = (Ok tt, w) /\
  endSession i w = (Ok tt, w) /\
  getSessionStats getTime i w = (Ok None, w) /\
  saveSession i w = (Throw ("Session not found for instance: " ++ i)%string, w) /\
  exportAsScript i format w
  = (Throw ("Session not found for instance: " ++ i)%string, w).
Proof.
  unfold sessionOfInstance. intros Hs. repeat split.
  - unfold recordAction, bindM, getRecorder. rewrite Hs.
    now destruct (recordingEnabled (recorder w)).
  - unfold endSession, bindM, getRecorder. rewrite Hs.
    now destruct (recordingEnabled (recorder w)).
  - unfold getSessionStats, bindM, getRecorder. now rewrite Hs.
  - now apply saveSession_missing.
  - unfold exportAsScript, bindM, getRecorder. now rewrite Hs.
Qed.

Lemma missing_session_is_skipped_or_reported_witness :
  recordAction "instance-2" (inputOf "browser_click" (JObj []) JUndefined) (sampleWorld true)
  = (Ok tt, sampleWorld true)
  /\ saveSession "instance-2" (sampleWorld true)
     = (Throw "Session not found for instance: instance-2", sampleWorld true).
Proof.
  destruct (missing_session_is_skipped_or_reported (fun _ => None) (sampleWorld true)
              "instance-2" (inputOf "browser_click" (JObj []) JUndefined) FormatJson
              eq_refl) as (Hr & _ & _ & Hs & _).
  split; [exact Hr|exact Hs].
Defined.

(** X4.  With recording on, [endSession] stamps the end of the session with the
    current instant and keeps it in memory, actions and all, and leaves one
    more timer of 60000 ms for the instance; once that timer fires the
    instance has no session in memory. *)
Theorem ended_session_is_kept_until_its_timer_fires
    (w : World) (i : string) (s : Session.t) :
  recordingEnabled (recorder w) = true ->
  sessionOfInstance w i = Some s ->
  oneEntryPerKey (sessions (recorder w)) ->
  exists w',
    endSession i w = (Ok tt, w') /\
    sessionOfInstance w' i = Some (Session.close s (nextStamp w)) /\
    Session.actions (Session.close s (nextStamp w)) = Session.actions s /\
    timers (host w') = timers (host w) ++ [(60000%Z, i)] /\
    sessionOfInstance (snd (evict i w')) i = None.
Proof.
  unfold sessionOfInstance. intros He Hs Hmap.
  destruct (endSession_effect w i s He Hs) as (w' & Hrun & Hrec & Htim & _).
  exists w'. split; [exact Hrun|]. rewrite Hrec. cbn [recorder withSessions sessions].
  split; [apply mapGet_mapSet_same|]. split; [reflexivity|]. split; [exact Htim|].
  cbn [evict snd withSessions recorder sessions]. rewrite Hrec.
  cbn [recorder withSessions sessions].
  apply mapGet_mapDelete_same. now apply mapSet_oneEntryPerKey.
Qed.

Lemma ended_session_is_kept_until_its_timer_fires_witness :
  exists w',
    endSession "instance-1" (sampleWorld true) = (Ok tt, w') /\
    sessionOfInstance w' "instance-1"
    = Some (Session.close sampleSession "2025-08-12T09:13:34.0Z") /\
    timers (host w') = [(60000%Z, "instance-1")] /\
    sessionOfInstance (snd (evict "instance-1" w')) "instance-1" = None.
Proof.
  destruct (ended_session_is_kept_until_its_timer_fires (sampleWorld true) "instance-1"
              sampleSession eq_refl eq_refl)
    as (w' & Hrun & Hget & _ & Htim & Hev).
  - repeat constructor. intros [].
  - exists w'. repeat split; assumption.
Defined.

(** X5.  The timer an ended session leaves deletes by instance: when the instance
    is given a new session before the timer fires, it is the new session that
    the timer removes. *)
Theorem eviction_timer_removes_a_restarted_session
    (w : World) (i : string) (s : Session.t) (config : StartConfig) :
  recordingEnabled (recorder w) = true ->
  sessionOfInstance w i = Some s ->
  oneEntryPerKey (sessions (recorder w)) ->
  exists w1 w2 sessionId,
    endSession i w = (Ok tt, w1) /\
    startSession i config w1 = (Ok sessionId, w2) /\
    sessionOfInstance w2 i = Some (openedSession w1 i config) /\
    In (60000%Z, i) (timers (host w2)) /\
    sessionOfInstance (snd (evict i w2)) i = None.
Proof.
  unfold sessionOfInstance. intros He Hs Hmap.
  destruct (endSession_effect w i s He Hs) as (w1 & Hend & Hrec1 & Htim1 & _).
  assert (He1 : recordingEnabled (recorder w1) = true) by (rewrite Hrec1; exact He).
  destruct (startSession_effect w1 i config He1) as (w2 & Hstart & Hrec2 & _ & Htim2 & _).
  exists w1, w2, (uuidv4 (host w1) (uuidReads (host w1))).
  split; [exact Hend|]. split; [exact Hstart|].
  rewrite Hrec2. cbn [recorder withSessions sessions].
  split; [apply mapGet_mapSet_same|].
  split; [rewrite Htim2, Htim1; apply in_or_app; right; now left|].
  cbn [evict snd withSessions recorder sessions]. rewrite Hrec2.
  cbn [recorder withSessions sessions].
  apply mapGet_mapDelete_same. apply mapSet_oneEntryPerKey.
  rewrite Hrec1. cbn [recorder withSessions sessions]. now apply mapSet_oneEntryPerKey.
Qed.

Lemma eviction_timer_removes_a_restarted_session_witness :
  exists w1 w2 sessionId,
    endSession "instance-1" (sampleWorld true) = (Ok tt, w1) /\
    startSession "instance-1" sampleStart w1 = (Ok sessionId, w2) /\
    sessionOfInstance w2 "instance-1" = Some (openedSession w1 "instance-1" sampleStart) /\
    sessionOfInstance (snd (evict "instance-1" w2)) "instance-1" = None.
Proof.
  destruct (eviction_timer_removes_a_restarted_session (sampleWorld true) "instance-1"
              sampleSession sampleStart eq_refl eq_refl)
    as (w1 & w2 & sid & Hend & Hstart & Hget & _ & Hev).
  - repeat constructor. intros [].
  - exists w1, w2, sid. repeat split; assumption.
Defined.



(** ** Sessions stored in full *)

Lemma written_storable (v : JsValue) : storable v = true -> written v = v.
Proof.
  unfold storable. intros H. apply orb_true_iff in H. destruct H as [H|H].
  - apply isUndefined_true in H. now subst v.
  - now apply written_representable.
Qed.

Lemma storable_writable (v : JsValue) : storable v = true -> writable v = true.
Proof.
  intros H. unfold writable. rewrite (written_storable v H). exact H.
Qed.

Lemma keyIn_writtenMembers (k : string) (ps : list (string * JsValue)) :
  JSON.keyIn k ps = false -> JSON.keyIn k (writtenMembers ps) = false.
Proof.
  induction ps as [|[k' x] rest IH]; [reflexivity|].
  cbn [JSON.keyIn]. intros H. apply orb_false_iff in H. destruct H as [Hk Hr].
  rewrite writtenMembers_cons. destruct (isUndefined x); [now apply IH|].
  cbn [JSON.keyIn]. rewrite Hk. now apply IH.
Qed.

Lemma uniqueKeys_writtenMembers (ps : list (string * JsValue)) :
  uniqueKeys ps = true -> uniqueKeys (writtenMembers ps) = true.
Proof.
  induction ps as [|[k x] rest IH]; [reflexivity|].
  cbn [uniqueKeys]. intros H. apply andb_true_iff in H. destruct H as [Hk Hu].
  rewrite writtenMembers_cons. destruct (isUndefined x); [now apply IH|].
  cbn [uniqueKeys]. apply negb_true_iff in Hk.
  rewrite (keyIn_writtenMembers k rest Hk). now rewrite IH.
Qed.

(** What is written of an object with distinct keys, each member of which is
    left out or written in full, is representable. *)
Lemma representable_written_object (ps : list (string * JsValue)) :
  uniqueKeys ps = true ->
  forallb (fun kv => writable (snd kv)) ps = true ->
  JSON.representable (written (JObj ps)) = true.
Proof.
  intros Hu Hall. rewrite written_object, representable_object.
  rewrite (uniqueKeys_writtenMembers ps Hu). cbn [andb].
  clear Hu. induction ps as [|[k x] rest IH]; [reflexivity|].
  cbn [forallb snd] in Hall. apply andb_true_iff in Hall. destruct Hall as [Hx Hr].
  rewrite writtenMembers_cons. unfold writable in Hx.
  destruct (isUndefined x); [now apply IH|].
  cbn [forallb snd orb] in *. rewrite Hx. now apply IH.
Qed.

Lemma writable_action (a : ActionRecord.t) :
  storableAction a = true -> JSON.representable (written (actionToJs a)) = true.
Proof.
  unfold storableAction. intros H.
  apply andb_true_iff in H. destruct H as [H Hpd].
  apply andb_true_iff in H. destruct H as [H Hmd].
  apply andb_true_iff in H. destruct H as [Hp Hr].
  unfold actionToJs. apply representable_written_object; [reflexivity|].
  cbn [forallb snd].
  rewrite (storable_writable _ Hp), (storable_writable _ Hr),
    (storable_writable _ Hmd), (storable_writable _ Hpd).
  destruct (ActionRecord.error a), (ActionRecord.duration a); reflexivity.
Qed.

Lemma writable_actions (l : list ActionRecord.t) :
  forallb storableAction l = true ->
  JSON.representable (written (JArr (map actionToJs l))) = true.
Proof.
  intros H. rewrite written_array. cbn [JSON.representable].
  induction l as [|a l IH]; [reflexivity|].
  cbn [forallb] in H. apply andb_true_iff in H. destruct H as [Ha Hl].
  cbn [map forallb]. rewrite (IH Hl).
  change (writtenItem (actionToJs a)) with (written (actionToJs a)).
  now rewrite writable_action.
Qed.

Lemma writable_config (c : SessionConfig) :
  JSON.representable (written (configToJs c)) = true.
Proof. destruct c as [[h|] [[wd ht]|] [u|]]; reflexivity. Qed.

Lemma representable_written_session (s : Session.t) :
  storableSession s = true -> JSON.representable (written (sessionToJs s)) = true.
Proof.
  unfold storableSession. intros H. apply andb_true_iff in H. destruct H as [Hmd Hacts].
  unfold sessionToJs. apply representable_written_object.
  - destruct (Session.config s), (Session.endedAt s); reflexivity.
  - rewrite forallb_app. cbn [forallb snd]. unfold writable at 5.
    rewrite (writable_actions _ Hacts), (storable_writable _ Hmd), orb_true_r.
    cbn [andb]. rewrite forallb_app.
    destruct (Session.config s) as [c|], (Session.endedAt s); cbn [forallb snd andb];
      unfold writable; rewrite ?writable_config, ?orb_true_r; reflexivity.
Qed.

Lemma writtenSession_storable (s : Session.t) :
  storableSession s = true -> writtenSession s = s.
Proof.
  unfold storableSession. intros H. apply andb_true_iff in H. destruct H as [Hmd Hacts].
  destruct s as [i inst bt st en acts md cfg]. unfold writtenSession.
  cbn [Session.id Session.instanceId Session.browserType Session.startedAt
       Session.endedAt Session.actions Session.metadata Session.config] in *.
  rewrite (written_storable md Hmd). f_equal.
  induction acts as [|a acts IH]; [reflexivity|].
  cbn [forallb] in Hacts. apply andb_true_iff in Hacts. destruct Hacts as [Ha Hl].
  cbn [map]. rewrite (IH Hl). f_equal.
  unfold storableAction in Ha.
  apply andb_true_iff in Ha. destruct Ha as [Ha Hpd].
  apply andb_true_iff in Ha. destruct Ha as [Ha Hm].
  apply andb_true_iff in Ha. destruct Ha as [Hp Hr].
  destruct a as [ai ts tl p r e d m pd]. unfold writtenAction.
  cbn [ActionRecord.id ActionRecord.timestamp ActionRecord.tool ActionRecord.parameters
       ActionRecord.result ActionRecord.error ActionRecord.duration ActionRecord.metadata
       ActionRecord.pageData] in *.
  now rewrite (written_storable p Hp), (written_storable r Hr),
    (written_storable m Hm), (written_storable pd Hpd).
Qed.

(** The text of a session stored in full parses to an object whose typed view
    is the session. *)
Lemma stored_session_text (s : Session.t) :
  storableSession s = true ->
  exists text,
    JSON.stringify (sessionToJs s) = Some text /\
    JSON.parse text = Some (written (sessionToJs s)) /\
    asSession (written (sessionToJs s)) = Some s.
Proof.
  intros Hst.
  destruct (parse_stringify_written _ (representable_written_session s Hst))
    as (text & Ht & Hp).
  exists text. split; [exact Ht|]. split; [exact Hp|].
  now rewrite asSession_written, writtenSession_storable.
Qed.

Lemma loadSession_of_file (w : World) (path text : string) (v : JsValue) :
  mapGet path (files (host w)) = Some text ->
  JSON.parse text = Some v ->
  loadSession path w = (Ok v, w).
Proof.
  intros Hf Hp. unfold loadSession, bindM, readFile. now rewrite Hf, Hp.
Qed.

(** ** Saving and loading, absent fields included *)

(** X7.  For a session in memory whose [any]-typed payloads (the metadata of the
    session, the parameters, result, metadata and page data of each action)
    are each absent or JSON-representable, [saveSession] writes a file from
    which [loadSession] returns the session's object without its absent
    members, and the typed view of what is loaded is the session itself. *)
Theorem saved_session_loads_back_without_absent_fields
    (w : World) (i : string) (s : Session.t) :
  sessionOfInstance w i = Some s ->
  storableSession s = true ->
  exists path w' loaded,
    saveSession i w = (Ok path, w') /\
    loadSession path w' = (Ok loaded, w') /\
    loaded = written (sessionToJs s) /\
    asSession loaded = Some s.
Proof.
  unfold sessionOfInstance. intros Hs Hst.
  destruct (saveSession_effect w i s Hs) as (text & Ht & Hsave).
  destruct (stored_session_text s Hst) as (text' & Ht' & Hparse & Hview).
  rewrite Ht in Ht'. injection Ht' as <-.
  exists (savedPath w s), (withHost w (hostAfterSave w s text)), (written (sessionToJs s)).
  split; [exact Hsave|]. split; [|split; [reflexivity|exact Hview]].
  apply loadSession_of_file with (text := text); [|exact Hparse].
  cbn. apply mapGet_mapSet_same.
Qed.

Lemma saved_session_loads_back_without_absent_fields_witness :
  exists path w' loaded,
    saveSession "instance-1"
      {| recorder := recorderWith true true [("instance-1", recordedVisit)];
         host := sampleHost |} = (Ok path, w') /\
    loadSession path w' = (Ok loaded, w') /\
    loaded = written (sessionToJs recordedVisit) /\
    asSession loaded = Some recordedVisit.
Proof.
  apply (saved_session_loads_back_without_absent_fields
           {| recorder := recorderWith true true [("instance-1", recordedVisit)];
              host := sampleHost |} "instance-1" recordedVisit); reflexivity.
Defined.

(** X8.  The JSON export of such a session is the very text [saveSession] writes,
    is returned without any change to the recorder or its host, and parses to
    an object whose typed view is the session. *)
Theorem json_export_is_the_saved_text (w : World) (i : string) (s : Session.t) :
  sessionOfInstance w i = Some s ->
  storableSession s = true ->
  exists text w' loaded,
    exportAsScript i FormatJson w = (Ok text, w) /\
    saveSession i w = (Ok (savedPath w s), w') /\
    mapGet (savedPath w s) (files (host w')) = Some text /\
    JSON.parse text = Some loaded /\
    asSession loaded = Some s.
Proof.
  unfold sessionOfInstance. intros Hs Hst.
  destruct (saveSession_effect w i s Hs) as (text & Ht & Hsave).
  destruct (stored_session_text s Hst) as (text' & Ht' & Hparse & Hview).
  rewrite Ht in Ht'. injection Ht' as <-.
  exists text, (withHost w (hostAfterSave w s text)), (written (sessionToJs s)).
  split.
  { unfold exportAsScript, bindM, getRecorder. now rewrite Hs, Ht. }
  split; [exact Hsave|]. split; [cbn; apply mapGet_mapSet_same|].
  split; [exact Hparse|exact Hview].
Qed.

Lemma json_export_is_the_saved_text_witness :
  exists text w' loaded,
    exportAsScript "instance-1" FormatJson
      {| recorder := recorderWith true true [("instance-1", recordedVisit)];
         host := sampleHost |}
    = (Ok text,
       {| recorder := recorderWith true true [("instance-1", recordedVisit)];
          host := sampleHost |}) /\
    mapGet "/tmp/sessions/session_e0bd2f64_2025-08-12T09-13-34-0Z.json" (files (host w'))
    = Some text /\
    JSON.parse text = Some loaded /\
    asSession loaded = Some recordedVisit.
Proof.
  destruct (json_export_is_the_saved_text
              {| recorder := recorderWith true true [("instance-1", recordedVisit)];
                 host := sampleHost |} "instance-1" recordedVisit eq_refl eq_refl)
    as (text & w' & loaded & Hexp & _ & Hfile & Hparse & Hview).
  exists text, w', loaded. repeat split; assumption.
Defined.

(** ** Listing the saved sessions *)

Lemma loadSession_world (w : World) (path : string) : snd (loadSession path w) = w.
Proof.
  unfold loadSession, bindM, readFile.
  destruct (mapGet path (files (host w))) as [text|]; [|reflexivity].
  now destruct (JSON.parse text).
Qed.

Lemma loadSession_ok (w w' : World) (path : string) (v : JsValue) :
  loadSession path w = (Ok v, w') ->
  exists text, mapGet path (files (host w)) = Some text /\ JSON.parse text = Some v.
Proof.
  unfold loadSession, bindM, readFile.
  destruct (mapGet path (files (host w))) as [text|]; [|discriminate].
  destruct (JSON.parse text) as [v'|] eqn:Hp; [|discriminate].
  unfold ret. intros [= <- _]. now exists text.
Qed.

(** The loop of [listSavedSessions] returns, changes nothing, lists only
    what is listable, and lists every name of a [.json] file that parses. *)
Lemma loadAll_spec (w : World) (names : list string) :
  exists items,
    loadAll (sessionsDir (recorder w)) names w = (Ok items, w) /\
    Forall (listable w) items /\
    (forall name text v,
       In name names -> endsWith name ".json" = true ->
       mapGet (pathJoin (sessionsDir (recorder w)) name) (files (host w)) = Some text ->
       JSON.parse text = Some v ->
       In (name, v) items) /\
    (forall item, In item items -> In (fst item) names).
Proof.
  induction names as [|file rest IH].
  - exists []. repeat split; [constructor|intros ? ? ? []|intros ? []].
  - destruct IH as (more & Hrun & Hall & Hcomplete & Hnames).
    cbn [loadAll]. destruct (endsWith file ".json") eqn:Hjson.
    + pose proof (loadSession_world w (pathJoin (sessionsDir (recorder w)) file)) as Hw.
      destruct (loadSession (pathJoin (sessionsDir (recorder w)) file) w)
        as [[session|m] w1] eqn:Hload; cbn [snd] in Hw; subst w1.
      * destruct (loadSession_ok _ _ _ _ Hload) as (text & Hf & Hp).
        exists ((file, session) :: more). unfold bindM. rewrite Hrun. unfold ret.
        split; [reflexivity|]. split; [|split].
        -- constructor; [|exact Hall]. split; [exact Hjson|]. now exists text.
        -- intros name text' v [<-|Hin] He Hf' Hp'.
           ++ left. rewrite Hf in Hf'. injection Hf' as <-. congruence.
           ++ right. now apply (Hcomplete name text' v).
        -- intros item [<-|Hin]; [now left|right; now apply Hnames].
      * exists more. split; [exact Hrun|]. split; [exact Hall|]. split.
        -- intros name text v [<-|Hin] He Hf Hp.
           ++ exfalso. unfold loadSession, bindM, readFile in Hload.
              rewrite Hf, Hp in Hload. discriminate.
           ++ now apply (Hcomplete name text v).
        -- intros item Hin. right. now apply Hnames.
    + exists more. split; [exact Hrun|]. split; [exact Hall|]. split.
      * intros name text v [<-|Hin] He Hf Hp; [congruence|].
        now apply (Hcomplete name text v).
      * intros item Hin. right. now apply Hnames.
Qed.

Lemma ensureSessionsDir_effect (w : World) :
  exists w',
    ensureSessionsDir w = (Ok tt, w') /\ recorder w' = recorder w /\
    files (host w') = files (host w) /\ timers (host w') = timers (host w) /\
    clockReads (host w') = clockReads (host w) /\ clock (host w') = clock (host w) /\
    toISOString (host w') = toISOString (host w).
Proof.
  unfold ensureSessionsDir, bindM, getRecorder.
  destruct (includes (directories (host w)) (sessionsDir (recorder w))).
  - exists w. repeat split.
  - eexists. unfold mkdir. repeat split.
Qed.

Lemma listable_same_files (w w' : World) (item : string * JsValue) :
  recorder w' = recorder w -> files (host w') = files (host w) ->
  listable w' item -> listable w item.
Proof.
  unfold listable. intros Hr Hf [He (text & Hg & Hp)]. rewrite Hr, Hf in Hg.
  split; [exact He|]. now exists text.
Qed.

Lemma listSavedSessions_spec (w : World) :
  exists items w',
    listSavedSessions w = (Ok items, w') /\
    recorder w' = recorder w /\ files (host w') = files (host w) /\
    timers (host w') = timers (host w) /\
    clockReads (host w') = clockReads (host w) /\ clock (host w') = clock (host w) /\
    toISOString (host w') = toISOString (host w) /\
    Forall (listable w) items /\
    (forall name text v,
       In name (match fst (readdir (sessionsDir (recorder w)) w) with
                | Ok names => names
                | Throw _ => []
                end) ->
       endsWith name ".json" = true ->
       mapGet (pathJoin (sessionsDir (recorder w)) name) (files (host w)) = Some text ->
       JSON.parse text = Some v ->
       In (name, v) items) /\
    (forall item, In item items ->
       In (fst item) (match fst (readdir (sessionsDir (recorder w)) w) with
                      | Ok names => names
                      | Throw _ => []
                      end)).
Proof.
  destruct (ensureSessionsDir_effect w) as (w1 & Hdir & Hrec & Hfiles & Htim & Hcr & Hc & Hiso).
  unfold listSavedSessions, bindM at 1, getRecorder. unfold bindM at 1. rewrite Hdir.
  unfold bindM at 1, readdir. cbn [fst].
  pose proof (loadAll_spec w1
              (flat_map
                 (fun entry =>
                    match stripPrefix (sessionsDir (recorder w) ++ "/") (fst entry) with
                    | Some name => if includesStr name "/" then [] else [name]
                    | None => []
                    end) (files (host w1)))) as Hspec.
  rewrite Hrec in Hspec.
  destruct Hspec as (items & Hrun & Hall & Hcomplete & Hnames).
  exists items, w1. rewrite Hrun. split; [reflexivity|].
  repeat split; try assumption.
  - apply Forall_forall. intros item Hin. rewrite Forall_forall in Hall.
    apply (listable_same_files w w1 item Hrec Hfiles). now apply Hall.
  - intros name text v Hin He Hf Hp. apply (Hcomplete name text v); try assumption.
    + now rewrite Hfiles.
    + now rewrite Hfiles.
  - intros item Hin. rewrite <- Hfiles. now apply Hnames.
Qed.

Lemma stripPrefix_app (p s : string) : stripPrefix p (p ++ s) = Some s.
Proof.
  induction p as [|c p IH]; [now destruct s|].
  cbn. now rewrite Ascii.eqb_refl.
Qed.

Lemma In_mapSet {V : Type} (m : list (string * V)) (k : string) (v : V) :
  In (k, v) (mapSet k v m).
Proof.
  induction m as [|[k0 v0] rest IH]; [now left|].
  cbn [mapSet]. destruct (String.eqb_spec k0 k) as [->|Hk]; [now left|now right].
Qed.

Lemma mapGet_In {V : Type} (m : list (string * V)) (k : string) (v : V) :
  mapGet k m = Some v -> In (k, v) m.
Proof.
  induction m as [|[k0 v0] rest IH]; [discriminate|].
  cbn [mapGet]. destruct (String.eqb_spec k0 k) as [->|Hk].
  - intros [= ->]. now left.
  - intros H. right. now apply IH.
Qed.

Lemma readdir_lists (w : World) (dir name text : string) :
  In (pathJoin dir name, text) (files (host w)) ->
  includesStr name "/" = false ->
  exists names, readdir dir w = (Ok names, w) /\ In name names.
Proof.
  intros Hin Hslash. unfold readdir. eexists. split; [reflexivity|].
  apply in_flat_map. exists (pathJoin dir name, text). split; [exact Hin|].
  cbn [fst]. unfold pathJoin.
  replace (dir ++ "/" ++ name)%string with ((dir ++ "/") ++ name)%string
    by (now rewrite append_assoc).
  rewrite stripPrefix_app, Hslash. now left.
Qed.


(** X10.  A session saved from memory is among the saved sessions listed
    afterwards, under the name of its file, provided that name holds no
    slash. *)
Theorem saved_session_is_listed (w : World) (i : string) (s : Session.t) :
  sessionOfInstance w i = Some s ->
  storableSession s = true ->
  includesStr (savedName w s) "/" = false ->
  exists w1 items w2 loaded,
    saveSession i w = (Ok (savedPath w s), w1) /\
    listSavedSessions w1 = (Ok items, w2) /\
    In (savedName w s, loaded) items /\
    asSession loaded = Some s.
Proof.
  unfold sessionOfInstance. intros Hs Hst Hslash.
  destruct (saveSession_effect w i s Hs) as (text & Ht & Hsave).
  destruct (stored_session_text s Hst) as (text' & Ht' & Hparse & Hview).
  rewrite Ht in Ht'. injection Ht' as <-.
  set (w1 := withHost w (hostAfterSave w s text)).
  destruct (listSavedSessions_spec w1)
    as (items & w2 & Hrun & _ & _ & _ & _ & _ & _ & _ & Hcomplete & _).
  exists w1, items, w2, (written (sessionToJs s)).
  split; [exact Hsave|]. split; [exact Hrun|]. split; [|exact Hview].
  assert (Hfile : In (pathJoin (sessionsDir (recorder w1)) (savedName w s), text)
                     (files (host w1))).
  { subst w1. cbn. apply In_mapSet. }
  destruct (readdir_lists w1 _ _ _ Hfile Hslash) as (names & Hdir & Hin).
  apply (Hcomplete (savedName w s) text).
  - now rewrite Hdir.
  - apply endsWith_savedName.
  - subst w1. cbn. apply mapGet_mapSet_same.
  - exact Hparse.
Qed.

Lemma saved_session_is_listed_witness :
  exists w1 items w2 loaded,
    saveSession "instance-1"
      {| recorder := recorderWith true true [("instance-1", recordedVisit)];
         host := sampleHost |}
    = (Ok "/tmp/sessions/session_e0bd2f64_2025-08-12T09-13-34-0Z.json", w1) /\
    listSavedSessions w1 = (Ok items, w2) /\
    In ("session_e0bd2f64_2025-08-12T09-13-34-0Z.json", loaded) items /\
    asSession loaded = Some recordedVisit.
Proof.
  apply (saved_session_is_listed
           {| recorder := recorderWith true true [("instance-1", recordedVisit)];
              host := sampleHost |} "instance-1" recordedVisit); reflexivity.
Defined.

(** ** Finding a saved session by its identifier *)

Lemma strictEq_string (v : JsValue) (s : string) : strictEq v (JStr s) = true -> v = JStr s.
Proof.
  destruct v; try discriminate. cbn. intros H. apply String.eqb_eq in H. now subst.
Qed.

Lemma firstWithId_sound (sessionId : string) (items : list (string * JsValue)) (v : JsValue) :
  firstWithId sessionId items = Some v ->
  getProp v "id" = Ok (JStr sessionId) /\ exists name, In (name, v) items.
Proof.
  induction items as [|[name session] rest IH]; [discriminate|].
  cbn [firstWithId]. destruct (getProp session "id") as [i|m] eqn:Hid; [|discriminate].
  destruct (strictEq i (JStr sessionId)) eqn:He.
  - intros [= <-]. apply strictEq_string in He. subst i.
    split; [exact Hid|]. exists name. now left.
  - intros H. destruct (IH H) as (Hg & name' & Hin). split; [exact Hg|].
    exists name'. now right.
Qed.

(** X11.  [findSessionById] never throws and leaves the files as they are; a
    document it returns is the parsed text of a [.json] file of the sessions
    directory, and its [id] is strictly equal to the identifier asked for. *)
Theorem findSessionById_answers_with_the_asked_id (w : World) (sessionId : string) :
  exists found w',
    findSessionById sessionId w = (Ok found, w') /\
    recorder w' = recorder w /\ files (host w') = files (host w) /\
    forall v, found = Some v ->
              getProp v "id" = Ok (JStr sessionId) /\
              exists name, listable w (name, v).
Proof.
  destruct (listSavedSessions_spec w) as (items & w' & Hrun & Hrec & Hfiles & _ & _ & _ & _ & Hall & _).
  exists (firstWithId sessionId items), w'.
  unfold findSessionById. rewrite Hrun. split; [reflexivity|].
  split; [exact Hrec|]. split; [exact Hfiles|].
  intros v Hv. destruct (firstWithId_sound sessionId items v Hv) as (Hid & name & Hin).
  split; [exact Hid|]. exists name. rewrite Forall_forall in Hall. now apply Hall.
Qed.

(** ** A test from a saved session *)

Lemma In_mapSet_inv {V : Type} (m : list (string * V)) (k : string) (v : V)
    (e : string * V) :
  In e (mapSet k v m) -> In e m \/ e = (k, v).
Proof.
  induction m as [|[k0 v0] rest IH]; cbn [mapSet].
  - intros [<-|[]]. now right.
  - destruct (String.eqb_spec k0 k) as [->|Hk].
    + intros [<-|Hin]; [now right|left; now right].
    + intros [<-|Hin]; [left; now left|].
      destruct (IH Hin) as [H|H]; [left; now right|now right].
Qed.

Lemma id_of_written_session (s : Session.t) :
  getProp (written (sessionToJs s)) "id" = Ok (JStr (Session.id s)).
Proof. reflexivity. Qed.

Lemma firstWithId_head (sessionId name : string) (v : JsValue)
    (rest : list (string * JsValue)) :
  getProp v "id" = Ok (JStr sessionId) ->
  firstWithId sessionId ((name, v) :: rest) = Some v.
Proof.
  intros H. cbn [firstWithId]. rewrite H. cbn [strictEq]. now rewrite String.eqb_refl.
Qed.

(** After saving into an empty sessions directory, the listing holds the
    saved document and nothing else. *)
Lemma listing_after_first_save (w : World) (i : string) (s : Session.t) (text : string) :
  mapGet i (sessions (recorder w)) = Some s ->
  JSON.stringify (sessionToJs s) = Some text ->
  JSON.parse text = Some (written (sessionToJs s)) ->
  fst (readdir (sessionsDir (recorder w)) w) = Ok [] ->
  includesStr (savedName w s) "/" = false ->
  forall w1,
    recorder w1 = recorder (withSessions w []) ->
    files (host w1) = mapSet (savedPath w s) text (files (host w)) ->
    exists rest w2,
      listSavedSessions w1
      = (Ok ((savedName w s, written (sessionToJs s)) :: rest), w2) /\
      files (host w2) = files (host w1) /\ recorder w2 = recorder w1.
Proof.
  intros Hs Ht Hparse Hempty Hslash w1 Hrec Hfiles.
  assert (Hdir1 : sessionsDir (recorder w1) = sessionsDir (recorder w))
    by (now rewrite Hrec).
  destruct (listSavedSessions_spec w1)
    as (items & w2 & Hrun & Hrec2 & Hfiles2 & _ & _ & _ & _ & Hall & Hcomplete & Hnames).
  assert (Hfile : mapGet (pathJoin (sessionsDir (recorder w1)) (savedName w s))
                         (files (host w1)) = Some text).
  { rewrite Hdir1, Hfiles. apply mapGet_mapSet_same. }
  assert (Hin : In (savedName w s, written (sessionToJs s)) items).
  { destruct (readdir_lists w1 _ _ _ (mapGet_In _ _ _ Hfile) Hslash) as (names & Hd & Hn).
    apply (Hcomplete (savedName w s) text); try assumption.
    - now rewrite Hd.
    - apply endsWith_savedName. }
  assert (Hsame : forall item, In item items ->
                    item = (savedName w s, written (sessionToJs s))).
  { intros [name v] Hitem.
    assert (Hname : name = savedName w s).
    { specialize (Hnames _ Hitem). cbn [fst readdir] in Hnames.
      apply in_flat_map in Hnames. destruct Hnames as ([q t'] & Hq & Hg).
      rewrite Hfiles in Hq. apply In_mapSet_inv in Hq. destruct Hq as [Hq|Hq].
      - exfalso. cbn [readdir fst] in Hempty. injection Hempty as Hempty.
        assert (Hnone : In name
                  (flat_map
                     (fun entry =>
                        match stripPrefix (sessionsDir (recorder w) ++ "/") (fst entry) with
                        | Some name => if includesStr name "/" then [] else [name]
                        | None => []
                        end) (files (host w)))).
        { apply in_flat_map. exists (q, t'). split; [exact Hq|].
          now rewrite <- Hdir1. }
        rewrite Hempty in Hnone. exact Hnone.
      - injection Hq as -> ->. cbn [fst] in Hg. rewrite Hdir1 in Hg.
        unfold savedPath, pathJoin in Hg.
        replace (sessionsDir (recorder w) ++ "/" ++ savedName w s)%string
          with ((sessionsDir (recorder w) ++ "/") ++ savedName w s)%string in Hg
          by (now rewrite append_assoc).
        rewrite stripPrefix_app, Hslash in Hg. destruct Hg as [<-|[]]. reflexivity. }
    subst name. f_equal.
    rewrite Forall_forall in Hall. destruct (Hall _ Hitem) as [_ (text0 & Hf0 & Hp0)].
    cbn [fst snd] in Hf0, Hp0. rewrite Hfile in Hf0. injection Hf0 as <-. congruence. }
  destruct items as [|item rest]; [destruct Hin|].
  rewrite (Hsame item (or_introl eq_refl)) in Hrun.
  exists rest, w2. split; [exact Hrun|]. split; assumption.
Qed.

(** X12.  A session saved into an empty sessions directory can be turned into a
    test by its identifier after the recorder's memory is cleared: the
    session is found in its file, and [generatePlaywrightTest] returns what
    the generator makes of the session itself. *)
Theorem cleared_session_generates_its_test_from_disk
    (w : World) (i : string) (s : Session.t) (options : TestOptions) :
  sessionOfInstance w i = Some s ->
  storableSession s = true ->
  fst (readdir (sessionsDir (recorder w)) w) = Ok [] ->
  includesStr (savedName w s) "/" = false ->
  includesStr (Session.id s) "/" = false ->
  includesStr (Session.id s) ".json" = false ->
  exists w1 w2,
    saveSession i w = (Ok (savedPath w s), w1) /\
    sessionOfInstance (snd (clearSessions w1)) i = None /\
    generatePlaywrightTest (Session.id s) options (snd (clearSessions w1))
    = (testSource s options, w2) /\
    files (host w2) = files (host w1).
Proof.
  unfold sessionOfInstance. intros Hs Hst Hempty Hslash Hid1 Hid2.
  destruct (saveSession_effect w i s Hs) as (text & Ht & Hsave).
  destruct (stored_session_text s Hst) as (text' & Ht' & Hparse & Hview).
  rewrite Ht in Ht'. injection Ht' as <-.
  set (w1 := withHost w (hostAfterSave w s text)).
  destruct (listing_after_first_save w i s text Hs Ht Hparse Hempty Hslash
              (snd (clearSessions w1)) eq_refl eq_refl)
    as (rest & w2 & Hlist & Hfiles2 & Hrec2).
  exists w1, w2. split; [exact Hsave|]. split; [reflexivity|]. split; [|exact Hfiles2].
  unfold generatePlaywrightTest. rewrite Hid1, Hid2. cbn [orb].
  unfold bindM at 1. unfold bindM at 1, getRecorder. cbn [clearSessions snd recorder
    withSessions sessions map find].
  unfold bindM at 1, findSessionById.
  change (withSessions w1 []) with (snd (clearSessions w1)). rewrite Hlist.
  rewrite (firstWithId_head _ _ _ _ (id_of_written_session s)).
  unfold typed. rewrite Hview. unfold ret, liftRes. reflexivity.
Qed.

Lemma cleared_session_generates_its_test_from_disk_witness :
  exists w1 w2,
    saveSession "instance-1"
      {| recorder := recorderWith true true [("instance-1", recordedVisit)];
         host := sampleHost |}
    = (Ok "/tmp/sessions/session_e0bd2f64_2025-08-12T09-13-34-0Z.json", w1) /\
    generatePlaywrightTest "e0bd2f64"
      {| testName := None; expectedString := None; timeout := None |}
      (snd (clearSessions w1))
    = (testSource recordedVisit
         {| testName := None; expectedString := None; timeout := None |}, w2).
Proof.
  destruct (cleared_session_generates_its_test_from_disk
              {| recorder := recorderWith true true [("instance-1", recordedVisit)];
                 host := sampleHost |} "instance-1" recordedVisit
              {| testName := None; expectedString := None; timeout := None |}
              eq_refl eq_refl eq_refl eq_refl eq_refl eq_refl)
    as (w1 & w2 & Hsave & _ & Hgen & _).
  exists w1, w2. split; [exact Hsave|exact Hgen].
Defined.

(** ** Saving a generated test *)



(** ** The sanitizer, applied again *)

Lemma setProp_same (ps : Props) (k : string) (v : JsValue) :
  lookup k ps = Some v -> setProp ps k v = ps.
Proof.
  induction ps as [|[k' v'] rest IH]; [discriminate|].
  cbn [lookup setProp]. destruct (String.eqb_spec k' k) as [->|Hne].
  - now intros [= ->].
  - intros H. now rewrite IH.
Qed.

Lemma setProp_setProp (ps : Props) (k : string) (v v' : JsValue) :
  setProp (setProp ps k v) k v' = setProp ps k v'.
Proof.
  induction ps as [|[k0 v0] rest IH]; cbn [setProp].
  - now rewrite String.eqb_refl.
  - destruct (String.eqb_spec k0 k) as [->|Hne]; cbn [setProp].
    + now rewrite String.eqb_refl.
    + destruct (String.eqb_spec k0 k); [contradiction|]. now rewrite IH.
Qed.

Lemma setProp_keys (ps : Props) (k : string) (v x : JsValue) :
  lookup k ps = Some x -> map fst (setProp ps k v) = map fst ps.
Proof.
  induction ps as [|[k' v'] rest IH]; [discriminate|].
  cbn [lookup setProp]. destruct (String.eqb_spec k' k) as [->|Hne]; [reflexivity|].
  intros H. cbn [map fst]. now rewrite IH.
Qed.

Lemma truthy_propOf_lookup (ps : Props) (k : string) :
  truthy (propOf ps k) = true -> lookup k ps = Some (propOf ps k).
Proof. unfold propOf. destruct (lookup k ps); [reflexivity|discriminate]. Qed.

Lemma redactField_keys (ps : Props) (f : string) :
  map fst (redactField ps f) = map fst ps.
Proof.
  unfold redactField. destruct (truthy (propOf ps f)) eqn:Ht; [|reflexivity].
  now apply setProp_keys with (x := propOf ps f), truthy_propOf_lookup.
Qed.

(** X14.  [sanitizeParameters] gives an object that has exactly the keys of its
    argument, in their order: it adds no parameter and drops none.  For an
    argument that is [undefined] or [null] the object is empty. *)
Theorem sanitizeParameters_keeps_the_keys (params : JsValue) :
  exists sanitized,
    sanitizeParameters params = JObj sanitized /\
    map fst sanitized = map fst (spread params) /\
    (forall ps, params = JObj ps -> map fst sanitized = map fst ps) /\
    (if nullish params then sanitized = [] else True).
Proof.
  unfold sanitizeParameters. eexists. split; [reflexivity|].
  assert (Hkeys : forall ps,
            map fst (if truthy (propOf (fold_left redactField sensitiveFields ps) "screenshot")
                     then setProp (fold_left redactField sensitiveFields ps) "screenshot"
                                  (JStr SCREENSHOT_DATA)
                     else fold_left redactField sensitiveFields ps)
            = map fst ps).
  { intros ps. cbn [sensitiveFields fold_left].
    set (r := redactField (redactField (redactField (redactField ps _) _) _) _).
    assert (Hr : map fst r = map fst ps).
    { subst r. now rewrite !redactField_keys. }
    destruct (truthy (propOf r "screenshot")) eqn:Ht; [|exact Hr].
    rewrite <- Hr. now apply setProp_keys with (x := propOf r "screenshot"),
                     truthy_propOf_lookup. }
  split; [apply Hkeys|]. split; [intros ps ->; apply Hkeys|].
  destruct params; cbn [nullish]; trivial.
Qed.

Lemma sanitizeParameters_spread (params : JsValue) :
  sanitizeParameters params = sanitizeParameters (JObj (spread params)).
Proof. reflexivity. Qed.

Lemma redactField_fixed (ps : Props) (f : string) (v : JsValue) :
  (truthy (propOf ps f) = true -> propOf ps f = v) ->
  (if truthy (propOf ps f) then setProp ps f v else ps) = ps.
Proof.
  intros H. destruct (truthy (propOf ps f)) eqn:Ht; [|reflexivity].
  apply setProp_same. rewrite <- (H eq_refl). now apply truthy_propOf_lookup.
Qed.

(** X15.  Sanitizing sanitized parameters changes nothing. *)
Theorem sanitizeParameters_is_idempotent (params : JsValue) :
  sanitizeParameters (sanitizeParameters params) = sanitizeParameters params.
Proof.
  rewrite (sanitizeParameters_spread params).
  set (ps := spread params). clearbody ps.
  pose proof (sanitizeParameters_propOf ps) as Hget.
  destruct (sanitizeParameters (JObj ps)) as [| | | | | |q] eqn:Hq;
    try (unfold sanitizeParameters in Hq; discriminate).
  assert (Hprop : forall k, propOf q k =
            if includes sensitiveFields k && truthy (propOf ps k) then JStr REDACTED
            else if (k =? "screenshot")%string && truthy (propOf ps k)
                 then JStr SCREENSHOT_DATA else propOf ps k).
  { intros k. specialize (Hget k). rewrite getProp_object in Hget. congruence. }
  clear Hget.
  assert (Hsens : forall f, In f sensitiveFields ->
            truthy (propOf q f) = true -> propOf q f = JStr REDACTED).
  { intros f Hin. rewrite (Hprop f).
    assert (Hinc : includes sensitiveFields f = true).
    { unfold includes. apply existsb_exists. exists f.
      split; [exact Hin|apply String.eqb_refl]. }
    rewrite Hinc. cbn [andb]. destruct (truthy (propOf ps f)) eqn:Ht; [reflexivity|].
    destruct ((f =? "screenshot")%string); cbn [andb]; congruence. }
  assert (Hshot : truthy (propOf q "screenshot") = true ->
                  propOf q "screenshot" = JStr SCREENSHOT_DATA).
  { rewrite (Hprop "screenshot").
    change (includes sensitiveFields "screenshot") with false. cbn [andb].
    change ("screenshot" =? "screenshot")%string with true. cbn [andb].
    destruct (truthy (propOf ps "screenshot")) eqn:Ht; [reflexivity|congruence]. }
  unfold sanitizeParameters. cbn [spread sensitiveFields fold_left]. unfold redactField.
  rewrite (redactField_fixed q "password") by (apply Hsens; simpl; auto).
  rewrite (redactField_fixed q "token") by (apply Hsens; simpl; auto).
  rewrite (redactField_fixed q "apiKey") by (apply Hsens; simpl; auto).
  rewrite (redactField_fixed q "secret") by (apply Hsens; simpl; auto).
  now rewrite (redactField_fixed q "screenshot") by exact Hshot.
Qed.

(** ** The result sanitizer, applied again *)

Lemma substring0_append (n : nat) (a b : string) :
  n <= String.length a -> String.substring 0 n (a ++ b) = String.substring 0 n a.
Proof.
  revert a. induction n as [|n IH]; intros a Hn.
  - destruct a, b; reflexivity.
  - destruct a as [|c a]; cbn in Hn; [lia|]. cbn. rewrite IH; [reflexivity|lia].
Qed.

Lemma substring0_substring0 (n : nat) (s : string) :
  String.substring 0 n (String.substring 0 n s) = String.substring 0 n s.
Proof.
  revert s. induction n as [|n IH]; intros s.
  - destruct s; reflexivity.
  - destruct s as [|c s]; [reflexivity|]. cbn. now rewrite IH.
Qed.

(** A truncated text is its own truncation. *)
Lemma truncation_fixed (t : string) :
  1000 < String.length t ->
  let cut := (String.substring 0 1000 t ++ TRUNCATED)%string in
  (1000 <? String.length cut)%nat = true /\
  (String.substring 0 1000 cut ++ TRUNCATED)%string = cut.
Proof.
  intros Hlen cut. subst cut. split.
  - apply Nat.ltb_lt. rewrite length_append, length_substring0 by lia. cbn. lia.
  - rewrite substring0_append by (rewrite length_substring0; lia).
    now rewrite substring0_substring0.
Qed.

Lemma truncated_fixed (f : string) (dps : Props) :
  (forall s, propOf dps f = JStr s -> 1000 < String.length s ->
             exists t, 1000 < String.length t /\
                       s = (String.substring 0 1000 t ++ TRUNCATED)%string) ->
  truncated f dps = dps.
Proof.
  intros H. unfold truncated. destruct (propOf dps f) as [| | | |s| |] eqn:Hp; trivial.
  destruct (Nat.ltb_spec 1000 (String.length s)) as [Hlt|Hge]; [|reflexivity].
  destruct (H s eq_refl Hlt) as (t & Ht & ->).
  destruct (truncation_fixed t Ht) as [_ Hfix]. cbv zeta in Hfix. rewrite Hfix.
  apply setProp_same. unfold propOf in Hp.
  destruct (lookup f dps); [now subst|discriminate].
Qed.

Lemma screenshotReplaced_fixed (dps : Props) :
  (truthy (propOf dps "screenshot") = true ->
   propOf dps "screenshot" = JStr SCREENSHOT_DATA) ->
  screenshotReplaced dps = dps.
Proof. intros H. unfold screenshotReplaced. now apply redactField_fixed. Qed.

Lemma sanitizedData_not_string (dps : Props) (f : string) :
  In f largeFields ->
  (forall t, propOf dps f <> JStr t) ->
  propOf (sanitizedData dps) f = propOf dps f.
Proof.
  intros Hin Hnot. unfold sanitizedData.
  assert (Hsame : forall g d, propOf d f = propOf dps f ->
                    propOf (truncated g d) f = propOf dps f).
  { intros g d Hd. destruct (String.eqb_spec g f) as [->|Hne].
    - unfold truncated. destruct (propOf d f) as [| | | |s0| |] eqn:Hv; congruence.
    - now rewrite propOf_truncated_other. }
  assert (Hshot : forall d, propOf d f = propOf dps f ->
                    propOf (screenshotReplaced d) f = propOf dps f).
  { intros d Hd. rewrite propOf_screenshotReplaced_other; [exact Hd|].
    destruct Hin as [<-|[<-|[<-|[]]]]; discriminate. }
  apply Hsame, Hsame, Hshot, Hsame. reflexivity.
Qed.

Lemma string_or_not (v : JsValue) : (exists t, v = JStr t) \/ (forall t, v <> JStr t).
Proof. destruct v; try (right; intros t; discriminate). left. eauto. Qed.

Lemma sanitizedData_field (dps : Props) (f s : string) :
  In f largeFields ->
  propOf (sanitizedData dps) f = JStr s -> 1000 < String.length s ->
  exists t, 1000 < String.length t /\
            s = (String.substring 0 1000 t ++ TRUNCATED)%string.
Proof.
  intros Hin Hp Hlen.
  destruct (string_or_not (propOf dps f)) as [(t & Ht)|Hnot].
  - rewrite (sanitizedData_large dps f t Hin Ht) in Hp.
    destruct (Nat.ltb_spec 1000 (String.length t)) as [Hlt|Hge].
    + exists t. split; [exact Hlt|]. now injection Hp as <-.
    + injection Hp as <-. lia.
  - exfalso. rewrite (sanitizedData_not_string dps f Hin Hnot) in Hp.
    now apply (Hnot s).
Qed.

Lemma sanitizedData_idempotent (dps : Props) :
  sanitizedData (sanitizedData dps) = sanitizedData dps.
Proof.
  set (d := sanitizedData dps).
  assert (Hf : forall f, In f largeFields -> truncated f d = d).
  { intros f Hin. apply truncated_fixed. intros s Hp Hlen.
    now apply (sanitizedData_field dps f s Hin). }
  unfold sanitizedData at 1.
  rewrite (Hf "html") by (simpl; auto).
  rewrite screenshotReplaced_fixed.
  - rewrite (Hf "markdown") by (simpl; auto). apply Hf. simpl; auto.
  - subst d. rewrite sanitizedData_screenshot.
    destruct (truthy (propOf dps "screenshot")) eqn:Ht; [reflexivity|congruence].
Qed.

Lemma stringOrFalsy_sanitizedData (dps : Props) (f : string) :
  In f largeFields ->
  stringOrFalsy (propOf dps f) = true ->
  stringOrFalsy (propOf (sanitizedData dps) f) = true.
Proof.
  intros Hin Hs.
  destruct (string_or_not (propOf dps f)) as [(t & Ht)|Hnot].
  - now rewrite (sanitizedData_large dps f t Hin Ht).
  - now rewrite (sanitizedData_not_string dps f Hin Hnot).
Qed.

(** X16.  For a result with a [data] object whose [html], [markdown] and [content]
    are strings or falsy, [sanitizeResult] returns a result on which it has
    no further effect; every member of the result other than [data], and
    every member of [data] other than [html], [screenshot], [markdown] and
    [content], is as it was. *)
Theorem sanitizeResult_is_idempotent (ps dps : Props) :
  lookup "data" ps = Some (JObj dps) ->
  (forall f, In f largeFields -> stringOrFalsy (propOf dps f) = true) ->
  exists sanitized,
    sanitizeResult (JObj ps) = Ok sanitized /\
    sanitizeResult sanitized = Ok sanitized /\
    (forall k, k <> "data" -> getProp sanitized k = getProp (JObj ps) k) /\
    (forall k, ~ In k ["html"; "screenshot"; "markdown"; "content"] ->
               getProp (optGet sanitized "data") k = Ok (propOf dps k)).
Proof.
  intros Hd Hall.
  exists (JObj (setProp ps "data" (JObj (sanitizedData dps)))).
  split; [now apply sanitizeResult_data|]. split; [|split].
  - rewrite (sanitizeResult_data _ (sanitizedData dps)).
    + now rewrite setProp_setProp, sanitizedData_idempotent.
    + apply lookup_setProp_same.
    + intros f Hin. apply stringOrFalsy_sanitizedData; auto.
  - intros k Hk. rewrite !getProp_object. f_equal.
    apply propOf_setProp_other. congruence.
  - intros k Hk. rewrite optGet_object, propOf_setProp_same, getProp_object. f_equal.
    unfold sanitizedData.
    rewrite !propOf_truncated_other, propOf_screenshotReplaced_other,
      propOf_truncated_other; trivial;
      intros E; subst k; apply Hk; simpl; auto.
Qed.

Lemma sanitizeResult_is_idempotent_witness :
  exists sanitized,
    sanitizeResult
      (JObj [("success", JBool true);
             ("data", JObj [("html", JStr (xs 1200)); ("title", JStr "Home")])])
    = Ok sanitized /\
    sanitizeResult sanitized = Ok sanitized /\
    getProp (optGet sanitized "data") "title" = Ok (JStr "Home").
Proof.
  destruct (sanitizeResult_is_idempotent
              [("success", JBool true);
               ("data", JObj [("html", JStr (xs 1200)); ("title", JStr "Home")])]
              [("html", JStr (xs 1200)); ("title", JStr "Home")] eq_refl)
    as (sanitized & Hrun & Hagain & _ & Hdata).
  - intros f [<-|[<-|[<-|[]]]]; reflexivity.
  - exists sanitized. split; [exact Hrun|]. split; [exact Hagain|].
    apply (Hdata "title"). simpl. intuition discriminate.
Defined.

(** ** A list where a text is expected *)

Lemma truncateField_list (f : string) (dps : Props) (items : list JsValue) :
  propOf dps f = JArr items -> 1000 < List.length items ->
  truncateField f (JObj dps) = Throw "TypeError: substring is not a function".
Proof.
  intros Hp Hlen. unfold truncateField. rewrite optGet_object, Hp.
  change (optGet (JArr items) "length") with (JNum (Z.of_nat (List.length items))).
  cbn [truthy toNumber numGt andb].
  assert (Hz : (1000 <? Z.of_nat (List.length items))%Z = true) by (apply Z.ltb_lt; lia).
  now rewrite Hz.
Qed.

Lemma truncateField_cases (f : string) (dps : Props) :
  (exists m, truncateField f (JObj dps) = Throw m)
  \/ exists d1, truncateField f (JObj dps) = Ok (JObj d1) /\
                forall k, f <> k -> propOf d1 k = propOf dps k.
Proof.
  unfold truncateField.
  destruct (truthy (optGet (JObj dps) f)
            && numGt (toNumber (optGet (optGet (JObj dps) f) "length")) (Some 1000%Z)).
  - destruct (substring0 (optGet (JObj dps) f) 1000) as [cut|m]; cbn [bind assign].
    + right. eexists. split; [reflexivity|]. intros k Hk. now apply propOf_setProp_other.
    + left. now exists m.
  - right. exists dps. split; [reflexivity|trivial].
Qed.

Lemma sanitizeResult_list (ps dps : Props) (f : string) (items : list JsValue) :
  lookup "data" ps = Some (JObj dps) ->
  In f largeFields -> propOf dps f = JArr items -> 1000 < List.length items ->
  exists m, sanitizeResult (JObj ps) = Throw m.
Proof.
  intros Hd Hin Hp Hlen. unfold sanitizeResult. cbn [truthy negb].
  rewrite getProp_object. unfold propOf at 1. rewrite Hd. cbn [bind truthy negb spread].
  destruct (String.eqb_spec f "html") as [->|Hhtml].
  { rewrite (truncateField_list "html" dps items Hp Hlen). cbn [bind]. eauto. }
  destruct (truncateField_cases "html" dps) as [(m & ->)|(d1 & -> & H1)];
    cbn [bind]; [eauto|].
  rewrite placeholderScreenshot_object. cbn [bind].
  assert (Hp2 : propOf (screenshotReplaced d1) f = JArr items).
  { rewrite propOf_screenshotReplaced_other.
    - rewrite H1 by congruence. exact Hp.
    - destruct Hin as [<-|[<-|[<-|[]]]]; discriminate. }
  destruct (String.eqb_spec f "markdown") as [->|Hmd].
  { rewrite (truncateField_list "markdown" _ items Hp2 Hlen). cbn [bind]. eauto. }
  destruct (truncateField_cases "markdown" (screenshotReplaced d1))
    as [(m & ->)|(d3 & -> & H3)]; cbn [bind]; [eauto|].
  assert (Hp3 : propOf d3 f = JArr items) by (rewrite H3 by congruence; exact Hp2).
  assert (Hc : f = "content").
  { destruct Hin as [<-|[<-|[<-|[]]]]; congruence. }
  subst f. rewrite (truncateField_list "content" _ items Hp3 Hlen). cbn [bind]. eauto.
Qed.

Lemma recordAction_throws (w : World) (i : string) (a : ActionInput) (s : Session.t)
    (m : string) :
  recordingEnabled (recorder w) = true ->
  mapGet i (sessions (recorder w)) = Some s ->
  storedResult (captureFullPageData (recorder w)) a = Throw m ->
  exists w', recordAction i a w = (Throw m, w') /\ recorder w' = recorder w /\
             files (host w') = files (host w).
Proof.
  intros He Hs Hst.
  unfold recordAction, bindM, getRecorder, dateNow, newUuid, nowISO, dateNow, liftRes.
  cbn [recorder host withHost withSessions sessions autoSave captureFullPageData
       recordingEnabled].
  rewrite He, Hs, Hst. cbn [negb]. eexists. repeat split.
Qed.

(** X17.  When a tool outside full capture returns a result whose [data] holds,
    under [html], [markdown] or [content], a list of more than 1000 items,
    the sanitizer asks the list for a substring: [recordAction] throws a
    TypeError, appends no record and writes no file. *)
Theorem long_list_under_data_makes_recording_throw
    (w : World) (i : string) (a : ActionInput) (s : Session.t)
    (ps dps : Props) (f : string) (items : list JsValue) :
  recordingEnabled (recorder w) = true ->
  sessionOfInstance w i = Some s ->
  captureFullPageData (recorder w) && includes dataCapturingTools (in_tool a) = false ->
  in_result a = JObj ps ->
  lookup "data" ps = Some (JObj dps) ->
  In f largeFields -> propOf dps f = JArr items -> 1000 < List.length items ->
  exists m w',
    sanitizeResult (in_result a) = Throw m /\
    recordAction i a w = (Throw m, w') /\
    sessionOfInstance w' i = Some s /\
    files (host w') = files (host w).
Proof.
  unfold sessionOfInstance. intros He Hs Hoff Hr Hd Hin Hp Hlen.
  destruct (sanitizeResult_list ps dps f items Hd Hin Hp Hlen) as [m Hm].
  assert (Hst : storedResult (captureFullPageData (recorder w)) a = Throw m).
  { unfold storedResult, processResult. rewrite Hr. cbn [truthy negb].
    rewrite Hoff. exact Hm. }
  destruct (recordAction_throws w i a s m He Hs Hst) as (w' & Hrun & Hrec & Hfiles).
  exists m, w'. rewrite Hr. split; [exact Hm|]. split; [exact Hrun|].
  split; [now rewrite Hrec|exact Hfiles].
Qed.

Lemma long_list_under_data_makes_recording_throw_witness :
  exists m w',
    recordAction "instance-1"
      (inputOf "browser_evaluate" (JObj [("script", JStr "rows()")])
         (JObj [("data", JObj [("content", JArr (repeat (JNum 0) 1001))])]))
      (sampleWorld true) = (Throw m, w') /\
    sessionOfInstance w' "instance-1" = Some sampleSession.
Proof.
  destruct (long_list_under_data_makes_recording_throw (sampleWorld true) "instance-1"
              (inputOf "browser_evaluate" (JObj [("script", JStr "rows()")])
                 (JObj [("data", JObj [("content", JArr (repeat (JNum 0) 1001))])]))
              sampleSession
              [("data", JObj [("content", JArr (repeat (JNum 0) 1001))])]
              [("content", JArr (repeat (JNum 0) 1001))]
              "content" (repeat (JNum 0) 1001)
              eq_refl eq_refl eq_refl eq_refl eq_refl)
    as (m & w' & _ & Hrun & Hget & _).
  - simpl. auto.
  - reflexivity.
  - rewrite repeat_length. lia.
  - exists m, w'. split; [exact Hrun|exact Hget].
Defined.

(** ** The comparator's report *)

Lemma setProp_nonempty (ps : Props) (k : string) (v : JsValue) : setProp ps k v <> [].
Proof. destruct ps as [|[k' v'] rest]; cbn; [|destruct (k' =? k)%string]; discriminate. Qed.

Lemma reported (ps : Props) :
  ps <> [] ->
  match ps with
  | [] => JUndefined
  | _ => JObj ps
  end = JObj ps.
Proof. destruct ps; [contradiction|reflexivity]. Qed.

(** X18.  A verdict of mismatch always comes with the differences behind it: when
    [match] is false, [differences] is an object with at least one member.
    Without content comparison the converse holds too: a match reports no
    differences. *)
Theorem mismatch_always_lists_differences
    (original replay : JsValue) (tool : string) (compareContent : bool) :
  (match_ (compareResults original replay tool compareContent) = false ->
   exists ps, differences (compareResults original replay tool compareContent) = JObj ps
              /\ ps <> [])
  /\ (compareContent = false ->
      match_ (compareResults original replay tool compareContent) = true ->
      differences (compareResults original replay tool compareContent) = JUndefined).
Proof.
  split.
  - unfold compareResults. destruct compareContent; cbn [negb].
    + destruct (strictEq (optGet (optGet original "data") "url")
                         (optGet (optGet replay "data") "url")); cbn [negb match_ differences];
        [discriminate|]. intros _.
      set (d1 := setProp [] "url" _).
      assert (H1 : d1 <> []) by apply setProp_nonempty.
      clearbody d1.
      set (d2 := if negb (strictEq (optGet (optGet original "data") "title")
                                   (optGet (optGet replay "data") "title"))
                 then setProp d1 "title" _ else d1).
      assert (H2 : d2 <> []).
      { subst d2. destruct (negb _); [apply setProp_nonempty|exact H1]. }
      clearbody d2.
      match goal with
      | |- exists ps, match ?d with [] => _ | _ => _ end = _ /\ _ =>
          assert (H3 : d <> []);
            [|exists d; split; [now apply reported|exact H3]]
      end.
      destruct (truthy _ && truthy _); [|exact H2].
      destruct (exceedsTenth _ _); [apply setProp_nonempty|exact H2].
    + destruct (strictEq (optGet original "success") (optGet replay "success"));
        cbn [negb match_ differences]; [discriminate|]. intros _.
      eexists. split; [reflexivity|discriminate].
  - intros ->. unfold compareResults. cbn [negb match_ differences].
    now intros ->.
Qed.

Lemma mismatch_always_lists_differences_witness :
  exists ps,
    differences
      (compareResults
         (JObj [("data", JObj [("url", JStr "https://example.com/a")])])
         (JObj [("data", JObj [("url", JStr "https://example.com/b")])])
         "browser_navigate" true) = JObj ps
    /\ ps <> [].
Proof.
  apply (proj1 (mismatch_always_lists_differences
                  (JObj [("data", JObj [("url", JStr "https://example.com/a")])])
                  (JObj [("data", JObj [("url", JStr "https://example.com/b")])])
                  "browser_navigate" true)).
  reflexivity.
Defined.

(** ** What the tool surface records, and how it compares *)

Lemma strictEq_undefined (v : JsValue) : truthy v = true -> strictEq JUndefined v = false.
Proof. now destruct v. Qed.

Lemma toolActionInput_plain (name : string) (args result : JsValue) :
  includes plainlyRecordedTools name = true ->
  toolActionInput name args result
  = Some (recordedAs name args result (optGet result "data")).
Proof. intros H. unfold toolActionInput. now rewrite H. Qed.

Lemma storedResult_flat (capture : bool) (action : ActionInput) (data : Props) :
  in_result action = JObj data ->
  lookup "data" data = None ->
  storedResult capture action = Ok (JObj data).
Proof.
  intros Hr Hd. unfold storedResult, processResult. rewrite Hr. cbn [truthy negb].
  destruct (capture && includes dataCapturingTools (in_tool action)); [reflexivity|].
  unfold sanitizeResult. cbn [truthy negb]. rewrite getProp_object. unfold propOf.
  rewrite Hd. reflexivity.
Qed.

(** X19.  The tool surface records [result.data] of a successful call, not the
    result.  So when the data has no [success] and no [data] member of its
    own, the record keeps the data as it is under either capture mode, and
    comparing that record with the very result it came from reports a
    mismatch: without content comparison always, and with content comparison
    whenever the data has a [url] that is a string. *)
Theorem recorded_data_never_matches_the_result_it_came_from
    (capture : bool) (name : string) (args result : JsValue) (data : Props)
    (action : ActionInput) :
  toolActionInput name args result = Some action ->
  includes plainlyRecordedTools name = true ->
  truthy (optGet result "success") = true ->
  optGet result "data" = JObj data ->
  lookup "success" data = None ->
  lookup "data" data = None ->
  storedResult capture action = Ok (JObj data) /\
  match_ (compareResults (JObj data) result name false) = false /\
  (isString (propOf data "url") = true ->
   match_ (compareResults (JObj data) result name true) = false).
Proof.
  intros Hin Hplain Hok Hdata Hs Hd.
  rewrite (toolActionInput_plain name args result Hplain) in Hin. injection Hin as <-.
  split; [|split].
  - apply storedResult_flat; [|exact Hd]. cbn [recordedAs in_result]. now rewrite Hok.
  - unfold compareResults. cbn [negb match_]. rewrite optGet_object. unfold propOf.
    rewrite Hs. now apply strictEq_undefined.
  - intros Hurl. rewrite deep_match_depends_on_url_only.
    rewrite Hdata, !optGet_object. unfold propOf at 1. rewrite Hd.
    change (optGet JUndefined "url") with JUndefined.
    destruct (propOf data "url"); (discriminate || reflexivity).
Qed.

Lemma recorded_data_never_matches_the_result_it_came_from_witness :
  match_ (compareResults
            (JObj [("url", JStr "https://example.com"); ("title", JStr "Example")])
            (JObj [("success", JBool true);
                   ("data", JObj [("url", JStr "https://example.com");
                                  ("title", JStr "Example")])])
            "browser_navigate" false) = false.
Proof.
  apply (proj1 (proj2 (recorded_data_never_matches_the_result_it_came_from true
                  "browser_navigate"
                  (JObj [("instanceId", JStr "instance-1"); ("url", JStr "https://example.com")])
                  (JObj [("success", JBool true);
                         ("data", JObj [("url", JStr "https://example.com");
                                        ("title", JStr "Example")])])
                  [("url", JStr "https://example.com"); ("title", JStr "Example")]
                  _ eq_refl eq_refl eq_refl eq_refl eq_refl eq_refl))).
Defined.

(** ** Recording through the tool surface *)

(** The record [recordAction] appends, field by field. *)
Lemma recordAction_record (w : World) (i : string) (a : ActionInput) (s : Session.t)
    (stored : JsValue) :
  recordingEnabled (recorder w) = true ->
  mapGet i (sessions (recorder w)) = Some s ->
  storedResult (captureFullPageData (recorder w)) a = Ok stored ->
  exists w' rec,
    recordAction i a w = (Ok tt, w') /\
    recorder w'
    = recorder (withSessions w (mapSet i (Session.push s rec) (sessions (recorder w)))) /\
    ActionRecord.tool rec = in_tool a /\
    ActionRecord.parameters rec = sanitizeParameters (in_parameters a) /\
    ActionRecord.result rec = stored /\
    ActionRecord.error rec = in_error a /\
    ActionRecord.metadata rec = in_metadata a /\
    ActionRecord.pageData rec = in_pageData a /\
    ActionRecord.id rec = uuidv4 (host w) (uuidReads (host w)).
Proof.
  intros He Hs Hst.
  unfold recordAction, bindM, getRecorder, dateNow, newUuid, nowISO, dateNow, liftRes,
    setSession.
  rewrite He, Hs.
  cbn [recorder host withHost withSessions sessions autoSave captureFullPageData
       recordingEnabled].
  rewrite Hst. cbn [negb].
  match goal with |- context [mapSet i (Session.push s ?r) _] => set (rec := r) end.
  match goal with |- context [(if autoSave (recorder w) then _ else _) ?w1] => set (w2 := w1) end.
  assert (Hg : mapGet i (sessions (recorder w2)) = Some (Session.push s rec)).
  { subst w2. cbn. apply mapGet_mapSet_same. }
  destruct (autoSave_effect w2 i _ (autoSave (recorder w)) Hg) as (w' & Hrun & Hrec & _).
  unfold bindM in Hrun. rewrite Hrun. exists w', rec. rewrite Hrec.
  repeat split; reflexivity.
Qed.

Lemma recordToolCall_recorded (w : World) (name : string) (args result : JsValue)
    (aps : Props) (i : string) (action : ActionInput) :
  args = JObj aps -> lookup "instanceId" aps = Some (JStr i) ->
  toolActionInput name args result = Some action ->
  recordToolCall name args result w = recordAction i action w.
Proof.
  intros -> Hi Ha. unfold recordToolCall.
  destruct (String.eqb_spec name "browser_create_instance") as [->|_];
    [discriminate Ha|].
  rewrite Ha, optGet_object. unfold propOf. now rewrite Hi.
Qed.

(** X20.  Through the tool surface a screenshot and a page's markdown never reach
    the session: whatever a successful [browser_screenshot] or
    [browser_get_markdown] returned, and under either capture mode, the
    record appended holds the placeholder object in place of the result. *)
Theorem page_captures_are_recorded_as_placeholders
    (w : World) (i : string) (s : Session.t) (name : string) (args result : JsValue)
    (aps : Props) :
  recordingEnabled (recorder w) = true ->
  sessionOfInstance w i = Some s ->
  args = JObj aps -> lookup "instanceId" aps = Some (JStr i) ->
  truthy (optGet result "success") = true ->
  name = "browser_screenshot" \/ name = "browser_get_markdown" ->
  exists w' rec,
    recordToolCall name args result w = (Ok tt, w') /\
    sessionOfInstance w' i = Some (Session.push s rec) /\
    ActionRecord.tool rec = name /\
    ActionRecord.result rec
    = if (name =? "browser_screenshot")%string
      then JObj [("screenshot", JStr "[SCREENSHOT_DATA]")]
      else JObj [("markdown", JStr "[TRUNCATED]")].
Proof.
  unfold sessionOfInstance. intros He Hs Hargs Hi Hok Hname.
  set (placeholder := if (name =? "browser_screenshot")%string
                      then JObj [("screenshot", JStr "[SCREENSHOT_DATA]")]
                      else JObj [("markdown", JStr "[TRUNCATED]")]).
  assert (Ha : toolActionInput name args result
               = Some (recordedAs name args result placeholder)).
  { subst placeholder. destruct Hname as [->| ->]; reflexivity. }
  rewrite (recordToolCall_recorded w name args result aps i _ Hargs Hi Ha).
  assert (Hst : storedResult (captureFullPageData (recorder w))
                  (recordedAs name args result placeholder) = Ok placeholder).
  { destruct Hname as [->| ->]; subst placeholder;
      (apply storedResult_flat; [cbn [recordedAs in_result]; now rewrite Hok|reflexivity]). }
  destruct (recordAction_record w i _ s placeholder He Hs Hst)
    as (w' & rec & Hrun & Hrec & Htool & _ & Hres & _).
  exists w', rec. split; [exact Hrun|]. rewrite Hrec. cbn [recorder withSessions sessions].
  split; [apply mapGet_mapSet_same|]. split; [exact Htool|exact Hres].
Qed.

Lemma page_captures_are_recorded_as_placeholders_witness :
  exists w' rec,
    recordToolCall "browser_screenshot"
      (JObj [("instanceId", JStr "instance-1"); ("fullPage", JBool true)])
      (JObj [("success", JBool true); ("data", JObj [("data", JStr "iVBORw0KGgo=")])])
      (sampleWorld true) = (Ok tt, w') /\
    sessionOfInstance w' "instance-1" = Some (Session.push sampleSession rec) /\
    ActionRecord.result rec = JObj [("screenshot", JStr "[SCREENSHOT_DATA]")].
Proof.
  destruct (page_captures_are_recorded_as_placeholders (sampleWorld true) "instance-1"
              sampleSession "browser_screenshot"
              (JObj [("instanceId", JStr "instance-1"); ("fullPage", JBool true)])
              (JObj [("success", JBool true); ("data", JObj [("data", JStr "iVBORw0KGgo=")])])
              [("instanceId", JStr "instance-1"); ("fullPage", JBool true)]
              eq_refl eq_refl eq_refl eq_refl eq_refl (or_introl eq_refl))
    as (w' & rec & Hrun & Hget & _ & Hres).
  exists w', rec. split; [exact Hrun|]. split; [exact Hget|exact Hres].
Defined.

(** X21.  A tool whose outcome the tool surface records from the result it
    returned is recorded when it fails, too: the session of the instance
    named in the arguments gets one more record, with the tool's name, the
    sanitized arguments, the error of the result and no result. *)
Theorem failed_tool_call_is_recorded_with_its_error
    (w : World) (i : string) (s : Session.t) (name : string) (args result : JsValue)
    (aps : Props) (action : ActionInput) :
  recordingEnabled (recorder w) = true ->
  sessionOfInstance w i = Some s ->
  args = JObj aps -> lookup "instanceId" aps = Some (JStr i) ->
  toolActionInput name args result = Some action ->
  truthy (optGet result "success") = false ->
  exists w' rec,
    recordToolCall name args result w = (Ok tt, w') /\
    sessionOfInstance w' i = Some (Session.push s rec) /\
    ActionRecord.tool rec = name /\
    ActionRecord.parameters rec = sanitizeParameters args /\
    ActionRecord.result rec = JUndefined /\
    ActionRecord.error rec = asString (optGet result "error").
Proof.
  unfold sessionOfInstance. intros He Hs Hargs Hi Ha Hfail.
  rewrite (recordToolCall_recorded w name args result aps i _ Hargs Hi Ha).
  assert (Hshape : exists recorded, action = recordedAs name args result recorded).
  { unfold toolActionInput in Ha.
    destruct (includes plainlyRecordedTools name); [injection Ha as <-; eauto|].
    destruct (name =? "browser_screenshot")%string; [injection Ha as <-; eauto|].
    destruct (name =? "browser_get_markdown")%string; [injection Ha as <-; eauto|].
    destruct (name =? "browser_screenshot_describe")%string; [|discriminate].
    rewrite Hfail in Ha. discriminate. }
  destruct Hshape as (recorded & ->).
  assert (Hst : storedResult (captureFullPageData (recorder w))
                  (recordedAs name args result recorded) = Ok JUndefined).
  { unfold storedResult. cbn [recordedAs in_result]. now rewrite Hfail. }
  destruct (recordAction_record w i _ s JUndefined He Hs Hst)
    as (w' & rec & Hrun & Hrec & Htool & Hpar & Hres & Herr & _).
  exists w', rec. split; [exact Hrun|]. rewrite Hrec. cbn [recorder withSessions sessions].
  split; [apply mapGet_mapSet_same|]. repeat split; assumption.
Qed.

Lemma failed_tool_call_is_recorded_with_its_error_witness :
  exists w' rec,
    recordToolCall "browser_click"
      (JObj [("instanceId", JStr "instance-1"); ("selector", JStr "#go")])
      (JObj [("success", JBool false); ("error", JStr "Click failed: timeout")])
      (sampleWorld true) = (Ok tt, w') /\
    sessionOfInstance w' "instance-1" = Some (Session.push sampleSession rec) /\
    ActionRecord.result rec = JUndefined /\
    ActionRecord.error rec = Some "Click failed: timeout".
Proof.
  destruct (failed_tool_call_is_recorded_with_its_error (sampleWorld true) "instance-1"
              sampleSession "browser_click"
              (JObj [("instanceId", JStr "instance-1"); ("selector", JStr "#go")])
              (JObj [("success", JBool false); ("error", JStr "Click failed: timeout")])
              [("instanceId", JStr "instance-1"); ("selector", JStr "#go")]
              _ eq_refl eq_refl eq_refl eq_refl eq_refl eq_refl)
    as (w' & rec & Hrun & Hget & _ & _ & Hres & Herr).
  exists w', rec. repeat split; assumption.
Defined.

(** ** Replay, in general *)

Section ReplayLaws.

Variable Env : Type.
Variable createInstance : CreateConfig -> JsValue -> Env -> res JsValue * Env.
Variable executeTools : string -> JsValue -> Env -> res JsValue * Env.
Variable capturePageData : JsValue -> Env -> JsValue * Env.

(** X22.  Once its instance is created, [replaySession] reports that instance and
    issues one call per recorded action, in order, whatever the earlier calls
    returned or threw; in every call the recorded parameters are kept, but
    for [instanceId], which is the new instance. *)
Theorem replay_reissues_every_action_under_the_new_instance
    (sessionData : Session.t) (st : ReplayState Env) (instanceId : JsValue) :
  creates Env createInstance sessionData st instanceId ->
  ro_instanceId (fst (replaySessionData Env createInstance executeTools sessionData st))
  = instanceId /\
  invocations
    (events Env (snd (replaySessionData Env createInstance executeTools sessionData st)))
  = invocations (events Env st)
      ++ map (fun a => (ActionRecord.tool a, replayParams a instanceId))
             (Session.actions sessionData) /\
  (forall a, getProp (replayParams a instanceId) "instanceId" = Ok instanceId) /\
  (forall a k, k <> "instanceId" ->
               getProp (replayParams a instanceId) k
               = Ok (propOf (spread (ActionRecord.parameters a)) k)).
Proof.
  intros Hc. split; [|split; [|split]].
  - destruct Hc as (cr & success & data & e & Hc & Hs & Ht & Hd & Hi).
    unfold replaySessionData. rewrite Hc. cbn [bind]. rewrite Hs. cbn [bind].
    rewrite Ht. cbn [negb]. rewrite Hd. cbn [bind]. rewrite Hi. cbn [bind].
    now destruct (replayLoop Env executeTools instanceId _ [] _).
  - now apply replaySessionData_invocations.
  - intros a. unfold replayParams. rewrite getProp_object. f_equal.
    apply propOf_setProp_same.
  - intros a k Hk. unfold replayParams. rewrite getProp_object. f_equal.
    apply propOf_setProp_other. congruence.
Qed.

(** X23.  When the browser manager refuses to create the instance, both replays
    answer [success: false] with the one error "Failed to create instance:
    ..." and no instance, and call no tool. *)
Theorem failed_creation_replays_nothing
    (sessionData : Session.t) (options : VerifyOptions) (st : ReplayState Env)
    (createResult success : JsValue) (e : Env) :
  createInstance (createConfigOf sessionData) (Session.metadata sessionData) (env Env st)
  = (Ok createResult, e) ->
  getProp createResult "success" = Ok success ->
  truthy success = false ->
  fst (replaySessionData Env createInstance executeTools sessionData st)
  = {| ro_success := false; ro_instanceId := JUndefined;
       ro_errors := Some [("Failed to create instance: "
                             ++ toString (optGet createResult "error"))%string] |} /\
  invocations
    (events Env (snd (replaySessionData Env createInstance executeTools sessionData st)))
  = invocations (events Env st) /\
  vo_success (fst (replayVerifiedData Env createInstance executeTools capturePageData
                     sessionData options st)) = false /\
  vo_errors (fst (replayVerifiedData Env createInstance executeTools capturePageData
                    sessionData options st))
  = Some [("Failed to create instance: "
             ++ toString (optGet createResult "error"))%string] /\
  invocations
    (events Env (snd (replayVerifiedData Env createInstance executeTools capturePageData
                        sessionData options st)))
  = invocations (events Env st).
Proof.
  intros Hc Hs Ht.
  unfold replaySessionData, replayVerifiedData. rewrite Hc. cbn [bind]. rewrite Hs.
  cbn [bind]. rewrite Ht. cbn [negb fst snd failedReplay failedVerification vo_success
    vo_errors]. unfold emit. cbn [events]. rewrite invocations_app. cbn [invocations].
  rewrite List.app_nil_r. repeat split.
Qed.

Lemma replayLoop_run (instanceId : JsValue) (actions : list ActionRecord.t)
    (errors : list string) (st : ReplayState Env) :
  exists errors' st',
    replayLoop Env executeTools instanceId actions errors st = (errors', st').
Proof. destruct (replayLoop Env executeTools instanceId actions errors st). eauto. Qed.

(** X24.  Whatever happens, the outcome of a replay has [success] true exactly when
    it reports no errors, and the errors it reports are never an empty
    list. *)
Theorem replay_succeeds_exactly_without_errors
    (sessionData : Session.t) (options : VerifyOptions) (st : ReplayState Env) :
  let basic := fst (replaySessionData Env createInstance executeTools sessionData st) in
  let verified := fst (replayVerifiedData Env createInstance executeTools capturePageData
                         sessionData options st) in
  ro_success basic = match ro_errors basic with None => true | Some _ => false end /\
  ro_errors basic <> Some [] /\
  vo_success verified = match vo_errors verified with None => true | Some _ => false end /\
  vo_errors verified <> Some [] /\
  vo_comparison verified <> Some [].
Proof.
  cbv zeta. unfold replaySessionData, replayVerifiedData.
  destruct (createInstance (createConfigOf sessionData) (Session.metadata sessionData)
              (env Env st)) as [[cr|m] e]; cbn [bind];
    [|cbn; repeat split; discriminate].
  destruct (getProp cr "success") as [success|m]; cbn [bind];
    [|cbn; repeat split; discriminate].
  destruct (truthy success); cbn [negb]; [|cbn; repeat split; discriminate].
  destruct (getProp cr "data") as [data|m]; cbn [bind];
    [|cbn; repeat split; discriminate].
  destruct (getProp data "instanceId") as [instanceId|m]; cbn [bind];
    [|cbn; repeat split; discriminate].
  destruct (replayLoop_run instanceId (Session.actions sessionData) []
              (emit Env st e [Create (createConfigOf sessionData)
                                (Session.metadata sessionData)]))
    as (errors & st' & ->).
  cbn [fst ro_success ro_errors vo_success vo_errors vo_comparison].
  set (final := verifyLoop _ _ _ _ _ _ _ _).
  destruct errors, (ls_errors Env final), (ls_comparison Env final);
    cbn; repeat split; discriminate.
Qed.

(** The verifying loop with stop-on-error, started without errors, ends with
    at most one. *)
Lemma verifyLoop_stops (options : VerifyOptions) (instanceId : JsValue)
    (actions : list ActionRecord.t) :
  flag (stopOnError options) = true ->
  forall (i : nat) (acc : LoopState Env),
    ls_errors Env acc = [] ->
    List.length
      (ls_errors Env
         (verifyLoop Env executeTools capturePageData options instanceId i actions acc))
    <= 1.
Proof.
  intros Hstop. induction actions as [|a rest IH]; intros i acc Hacc.
  - cbn. rewrite Hacc. cbn. lia.
  - cbn [verifyLoop]. rewrite Hstop. rewrite Hacc.
    destruct (executeTools (ActionRecord.tool a) (replayParams a instanceId)
                (env Env (ls_state Env acc))) as [r e].
    destruct r as [result|m]; cbn [bind]; [|cbn; lia].
    destruct (getProp result "success") as [success|m]; cbn [bind]; [|cbn; lia].
    destruct (truthy success); cbn [negb andb]; [|cbn; lia].
    destruct (flag (captureNewData options) && isPageStateAction (ActionRecord.tool a)).
    + destruct (capturePageData instanceId _) as [pageData e']. now apply IH.
    + now apply IH.
Qed.

(** X25.  With stop-on-error the verifying replay reports at most one error: it
    stops at the first action that fails or throws. *)
Theorem stop_on_error_reports_one_error_at_most
    (sessionData : Session.t) (options : VerifyOptions) (st : ReplayState Env) :
  flag (stopOnError options) = true ->
  match vo_errors (fst (replayVerifiedData Env createInstance executeTools capturePageData
                          sessionData options st)) with
  | Some errors => List.length errors = 1
  | None => True
  end.
Proof.
  intros Hstop. unfold replayVerifiedData.
  destruct (createInstance (createConfigOf sessionData) (Session.metadata sessionData)
              (env Env st)) as [[cr|m] e]; cbn [bind]; [|reflexivity].
  destruct (getProp cr "success") as [success|m]; cbn [bind]; [|reflexivity].
  destruct (truthy success); cbn [negb]; [|reflexivity].
  destruct (getProp cr "data") as [data|m]; cbn [bind]; [|reflexivity].
  destruct (getProp data "instanceId") as [instanceId|m]; cbn [bind]; [|reflexivity].
  cbn [fst vo_errors].
  match goal with
  | |- context [ls_errors Env (verifyLoop _ _ _ _ _ ?i ?l ?acc)] =>
      pose proof (verifyLoop_stops options instanceId l Hstop i acc eq_refl) as Hlen
  end.
  destruct (ls_errors Env _) as [|x [|y more]]; cbn in *; trivial. lia.
Qed.

(** The records after the verifying loop: those before it and the actions
    it went through, each as it was but for its page data. *)
Lemma verifyLoop_actions (options : VerifyOptions) (instanceId : JsValue)
    (actions : list ActionRecord.t) :
  forall (i : nat) (acc : LoopState Env),
    map (fun a => ActionRecord.withPageData a JUndefined)
        (ls_actions Env
           (verifyLoop Env executeTools capturePageData options instanceId i actions acc))
    = map (fun a => ActionRecord.withPageData a JUndefined)
          (ls_actions Env acc ++ actions)
    /\ (flag (captureNewData options) = false ->
        ls_actions Env
          (verifyLoop Env executeTools capturePageData options instanceId i actions acc)
        = ls_actions Env acc ++ actions)
    /\ (flag (verifyResults options) = false ->
        ls_comparison Env
          (verifyLoop Env executeTools capturePageData options instanceId i actions acc)
        = ls_comparison Env acc).
Proof.
  induction actions as [|a rest IH]; intros i acc.
  - cbn. rewrite List.app_nil_r. repeat split.
  - cbn [verifyLoop].
    destruct (executeTools (ActionRecord.tool a) (replayParams a instanceId)
                (env Env (ls_state Env acc))) as [r e].
    assert (Hcons : forall l : list ActionRecord.t, (l ++ [a]) ++ rest = l ++ a :: rest).
    { intros l. now rewrite <- List.app_assoc. }
    destruct r as [result|m]; cbn [bind].
    + destruct (getProp result "success") as [success|m]; cbn [bind].
      * destruct (negb (truthy success) && flag (stopOnError options));
          [cbn [ls_actions ls_comparison]; repeat split|].
        destruct (flag (captureNewData options) && isPageStateAction (ActionRecord.tool a))
          eqn:Hcap.
        -- destruct (capturePageData instanceId _) as [pageData e'].
           match goal with
           | |- context [verifyLoop _ _ _ _ _ ?j rest ?acc'] =>
               destruct (IH j acc') as (H1 & H2 & H3)
           end.
           cbn [ls_actions ls_comparison] in H1, H2, H3.
           split; [|split].
           ++ rewrite H1, !map_app. cbn [map]. now rewrite <- List.app_assoc.
           ++ intros Hoff. rewrite Hoff in Hcap. discriminate.
           ++ intros Hoff. rewrite (H3 Hoff). now rewrite Hoff.
        -- match goal with
           | |- context [verifyLoop _ _ _ _ _ ?j rest ?acc'] =>
               destruct (IH j acc') as (H1 & H2 & H3)
           end.
           cbn [ls_actions ls_comparison] in H1, H2, H3.
           split; [|split].
           ++ now rewrite H1, Hcons.
           ++ intros Hoff. now rewrite (H2 Hoff), Hcons.
           ++ intros Hoff. rewrite (H3 Hoff). now rewrite Hoff.
      * destruct (flag (stopOnError options));
          [cbn [ls_actions ls_comparison]; repeat split|].
        match goal with
        | |- context [verifyLoop _ _ _ _ _ ?j rest ?acc'] =>
            destruct (IH j acc') as (H1 & H2 & H3)
        end.
        cbn [ls_actions ls_comparison] in H1, H2, H3.
        split; [|split].
        -- now rewrite H1, Hcons.
        -- intros Hoff. now rewrite (H2 Hoff), Hcons.
        -- intros Hoff. now rewrite (H3 Hoff).
    + destruct (flag (stopOnError options));
        [cbn [ls_actions ls_comparison]; repeat split|].
      match goal with
      | |- context [verifyLoop _ _ _ _ _ ?j rest ?acc'] =>
          destruct (IH j acc') as (H1 & H2 & H3)
      end.
      cbn [ls_actions ls_comparison] in H1, H2, H3.
      split; [|split].
      * now rewrite H1, Hcons.
      * intros Hoff. now rewrite (H2 Hoff), Hcons.
      * intros Hoff. now rewrite (H3 Hoff).
Qed.

(** X26.  The verifying replay writes nothing but page data into the session's
    action records: afterwards they are the recorded actions other than
    instance creation, in order, each as it was but for its [pageData].
    With capture of new data off they are untouched, and with verification
    of results off no comparison is reported. *)
Theorem verifying_replay_rewrites_page_data_only
    (sessionData : Session.t) (options : VerifyOptions) (st : ReplayState Env) :
  let outcome := fst (replayVerifiedData Env createInstance executeTools capturePageData
                        sessionData options st) in
  map (fun a => ActionRecord.withPageData a JUndefined) (vo_actions outcome)
  = map (fun a => ActionRecord.withPageData a JUndefined)
        (filter notCreateInstance (Session.actions sessionData))
  /\ (flag (captureNewData options) = false ->
      vo_actions outcome = filter notCreateInstance (Session.actions sessionData))
  /\ (flag (verifyResults options) = false -> vo_comparison outcome = None).
Proof.
  cbv zeta. unfold replayVerifiedData.
  destruct (createInstance (createConfigOf sessionData) (Session.metadata sessionData)
              (env Env st)) as [[cr|m] e]; cbn [bind]; [|cbn; repeat split].
  destruct (getProp cr "success") as [success|m]; cbn [bind]; [|cbn; repeat split].
  destruct (truthy success); cbn [negb]; [|cbn; repeat split].
  destruct (getProp cr "data") as [data|m]; cbn [bind]; [|cbn; repeat split].
  destruct (getProp data "instanceId") as [instanceId|m]; cbn [bind]; [|cbn; repeat split].
  cbn [fst vo_actions vo_comparison].
  match goal with
  | |- context [verifyLoop _ _ _ _ _ ?i ?l ?acc] =>
      destruct (verifyLoop_actions options instanceId l i acc) as (H1 & H2 & H3)
  end.
  cbn [ls_actions ls_comparison app] in H1, H2, H3.
  split; [exact H1|]. split; [exact H2|].
  intros Hoff. now rewrite (H3 Hoff).
Qed.

End ReplayLaws.

(** ** The two generators, side by side *)

Lemma not_escaping (tool : string) :
  includes escapingTools tool = false ->
  (tool =? "browser_type")%string = false /\
  (tool =? "browser_fill")%string = false /\
  (tool =? "browser_wait_for_element")%string = false.
Proof.
  unfold includes. cbn [existsb escapingTools]. intros H.
  apply orb_false_iff in H. destruct H as [H1 H].
  apply orb_false_iff in H. destruct H as [H2 H].
  apply orb_false_iff in H. destruct H as [H3 _].
  rewrite String.eqb_sym in H1. rewrite String.eqb_sym in H2. rewrite String.eqb_sym in H3.
  auto.
Qed.

(** X27.  For every tool other than [browser_type], [browser_fill] and
    [browser_wait_for_element], the test generator's statement is the script
    exporter's statement behind two spaces: both give a statement, both give
    none, or both throw the same error. *)
Theorem generators_agree_outside_escaping (a : ActionRecord.t) :
  includes escapingTools (ActionRecord.tool a) = false ->
  actionToPlaywrightTest a
  = bind (actionToPlaywrightCommand a)
         (fun command => Ok (option_map (fun c => ("  " ++ c)%string) command)).
Proof.
  intros H. destruct (not_escaping _ H) as (Ht & Hf & Hw).
  unfold actionToPlaywrightTest, actionToPlaywrightCommand.
  rewrite Ht, Hf, Hw.
  destruct (ActionRecord.tool a =? "browser_navigate")%string.
  { destruct (param a "url"); reflexivity. }
  destruct (ActionRecord.tool a =? "browser_click")%string.
  { destruct (param a "selector"); reflexivity. }
  destruct (ActionRecord.tool a =? "browser_select_option")%string.
  { destruct (param a "selector"); [|reflexivity]. destruct (param a "value"); reflexivity. }
  destruct (ActionRecord.tool a =? "browser_screenshot")%string.
  { destruct (param a "fullPage"); reflexivity. }
  destruct (ActionRecord.tool a =? "browser_go_back")%string; [reflexivity|].
  destruct (ActionRecord.tool a =? "browser_go_forward")%string; [reflexivity|].
  destruct (ActionRecord.tool a =? "browser_refresh")%string; [reflexivity|].
  destruct (ActionRecord.tool a =? "browser_evaluate")%string.
  { destruct (param a "script"); reflexivity. }
  reflexivity.
Qed.

Lemma generators_agree_outside_escaping_witness :
  actionToPlaywrightTest
    (recordOf "a2" "browser_navigate" (JObj [("url", JStr "https://example.com")]) JUndefined)
  = Ok (Some "  await page.goto('https://example.com');").
Proof.
  apply (generators_agree_outside_escaping
           (recordOf "a2" "browser_navigate" (JObj [("url", JStr "https://example.com")])
              JUndefined)).
  reflexivity.
Defined.

(** ** The check of the expected text *)

Lemma joinLines_three_parts (pre middle tail : list string) :
  pre <> [] -> middle <> [] -> tail <> [] ->
  joinLines ((pre ++ middle) ++ tail)
  = (joinLines pre ++ String JSON.newline (joinLines middle)
       ++ String JSON.newline (joinLines tail))%string.
Proof.
  intros H1 H2 H3. rewrite joinLines_suffix; [|destruct pre; [contradiction|discriminate]|exact H3].
  rewrite (joinLines_suffix pre middle H1 H2). now rewrite append_assoc.
Qed.

(** X28.  With a non-empty expected text, every generated test ends with the check
    that the page content contains that text, its quotes escaped, followed by
    the liveness lines. *)
Theorem expected_text_is_checked_before_liveness
    (session : Session.t) (options : TestOptions) (e src : string) :
  expectedString options = Some e ->
  e <> "" ->
  testSource session options = Ok src ->
  exists pre,
    src = (pre ++ String JSON.newline "  // Verify expected content"
             ++ String JSON.newline "  const content = await page.content();"
             ++ String JSON.newline
                  ("  expect(content).toContain('" ++ escapeQuotes e ++ "');")
             ++ livenessSuffix)%string.
Proof.
  intros He Hne. unfold testSource. rewrite He.
  destruct (String.eqb_spec e "") as [->|_]; [contradiction|].
  destruct (testActionLines (filter notCreateInstance (Session.actions session)))
    as [body|m]; cbn [bind]; [|discriminate].
  intros [= <-]. unfold livenessSuffix.
  match goal with
  | |- exists pre, joinLines (((?l ++ ?x) ++ livenessLines) ++ ["});"]) = _ =>
      exists (joinLines l);
      rewrite <- (List.app_assoc (l ++ x) livenessLines ["});"]);
      rewrite (joinLines_three_parts l x (livenessLines ++ ["});"]));
        [reflexivity| |discriminate|discriminate]
  end.
  destruct (Session.config session) as [[hl [v|] ua]|]; discriminate.
Qed.

Lemma expected_text_is_checked_before_liveness_witness :
  exists pre,
    testSource (sessionOf [])
      {| testName := None; expectedString := Some "It's done"; timeout := None |}
    = Ok (pre ++ String JSON.newline "  // Verify expected content"
            ++ String JSON.newline "  const content = await page.content();"
            ++ String JSON.newline "  expect(content).toContain('It\'s done');"
            ++ livenessSuffix)%string.
Proof.
  destruct (expected_text_is_checked_before_liveness (sessionOf [])
              {| testName := None; expectedString := Some "It's done"; timeout := None |}
              "It's done"
              (joinLines
                 [ "import { test, expect } from '@playwright/test';"; "";
                   "test('Test session e0bd2f64', async ({ page }) => {";
                   "  test.setTimeout(30000);"; "";
                   "  // Set viewport";
                   "  await page.setViewportSize({ width: 1280, height: 720 });"; "";
                   "  // Verify expected content";
                   "  const content = await page.content();";
                   "  expect(content).toContain('It\'s done');";
                   "  // Verify page loaded without errors";
                   "  const url = page.url();";
                   "  expect(url).toBeTruthy();";
                   "});" ])
              eq_refl ltac:(discriminate) eq_refl) as (pre & Hsrc).
  exists pre. exact (f_equal Ok Hsrc).
Defined.

(** ** The exported script *)

Lemma actionToPlaywrightCommand_total (a : ActionRecord.t) :
  hasParameters a = true -> exists code, actionToPlaywrightCommand a = Ok code.
Proof.
  unfold hasParameters, actionToPlaywrightCommand, param.
  intros H.
  assert (Hget : forall k, exists v, getProp (ActionRecord.parameters a) k = Ok v).
  { intros k. destruct (ActionRecord.parameters a); try discriminate; cbn; eauto. }
  repeat match goal with
         | |- context [if ?c then _ else _] => destruct c
         | |- context [getProp (ActionRecord.parameters a) ?k] =>
             let v := fresh "v" in
             let E := fresh "E" in
             destruct (Hget k) as (v & E); rewrite E; cbn [bind]
         end; eauto.
Qed.

Lemma commandLines_total (actions : list ActionRecord.t) :
  forallb hasParameters actions = true -> exists lines, commandLines actions = Ok lines.
Proof.
  induction actions as [|a rest IH]; cbn [forallb commandLines]; intros H; [eauto|].
  apply andb_true_iff in H. destruct H as [Ha Hr].
  destruct (actionToPlaywrightCommand_total a Ha) as [code ->].
  destruct (IH Hr) as [lines ->]. cbn [bind]. eauto.
Qed.

(** X29.  Every script [generatePlaywrightScript] returns starts with the two
    comment lines that name the session and its start, and ends with the
    closing of the browser and the call of the replay function; and a script
    is returned whenever no action has [undefined] or [null] for its
    parameters. *)
Theorem exported_script_opens_and_closes (session : Session.t) :
  (forall src,
     generatePlaywrightScript session = Ok src ->
     (exists rest,
        src = ("// Generated Playwright script from session " ++ Session.id session
                 ++ String JSON.newline ("// Created: " ++ Session.startedAt session)
                 ++ String JSON.newline rest)%string)
     /\ exists pre, src = (pre ++ scriptClosing)%string)
  /\ (forallb hasParameters (Session.actions session) = true ->
      exists src, generatePlaywrightScript session = Ok src)
  /\ scriptClosing
     = (String JSON.newline "" ++ String JSON.newline "  await browser.close();"
          ++ String JSON.newline "}" ++ String JSON.newline ""
          ++ String JSON.newline "replay();")%string.
Proof.
  split; [|split; [|reflexivity]].
  - intros src. unfold generatePlaywrightScript.
    destruct (commandLines (Session.actions session)) as [commands|m]; cbn [bind];
      [|discriminate].
    intros H. cbv zeta in H.
    match type of H with
    | Ok (joinLines (?h ++ commands ++ ?t)) = Ok _ =>
        assert (Hsrc : src = joinLines ((h ++ commands) ++ t))
          by (rewrite <- List.app_assoc; congruence);
        assert (Hne : h ++ commands <> []) by (cbn [app]; discriminate)
    end.
    clear H. split.
    + rewrite Hsrc. cbn [app].
      match goal with
      | |- exists rest, joinLines (_ :: _ :: ?h3 :: ?T) = _ => exists (joinLines (h3 :: T))
      end.
      reflexivity.
    + unfold scriptClosing. eexists. rewrite Hsrc.
      apply joinLines_suffix; [exact Hne|discriminate].
  - intros H. unfold generatePlaywrightScript.
    destruct (commandLines_total _ H) as [lines ->]. cbn [bind]. eauto.
Qed.

(** ** Replay, on the samples *)

Lemma replay_reissues_every_action_under_the_new_instance_witness :
  ro_instanceId
    (fst (replaySessionData nat countingCreate countingExecute recordedVisit freshReplay))
  = JStr "replay-0"
  /\ getProp
       (replayParams
          (recordOf "a2" "browser_navigate"
             (JObj [("instanceId", JStr "instance-1"); ("url", JStr "https://example.com")])
             JUndefined)
          (JStr "replay-0")) "instanceId"
     = Ok (JStr "replay-0").
Proof.
  destruct (replay_reissues_every_action_under_the_new_instance nat countingCreate
              countingExecute recordedVisit freshReplay (JStr "replay-0"))
    as (Hid & _ & Hnew & _).
  - unfold creates. repeat eexists.
  - split; [exact Hid|apply Hnew].
Defined.

Lemma failed_creation_replays_nothing_witness :
  fst (replaySessionData nat refusingCreate countingExecute recordedVisit freshReplay)
  = {| ro_success := false; ro_instanceId := JUndefined;
       ro_errors := Some ["Failed to create instance: no browser available"] |}
  /\ invocations
       (events nat (snd (replaySessionData nat refusingCreate countingExecute recordedVisit
                           freshReplay))) = [].
Proof.
  destruct (failed_creation_replays_nothing nat refusingCreate countingExecute noCapture
              recordedVisit plainOptions freshReplay
              (JObj [("success", JBool false); ("error", JStr "no browser available")])
              (JBool false) 0 eq_refl eq_refl eq_refl)
    as (Hout & Hcalls & _).
  split; [exact Hout|exact Hcalls].
Defined.

Lemma stop_on_error_reports_one_error_at_most_witness :
  flag (stopOnError stoppingOptions) = true
  /\ match vo_errors (fst (replayVerifiedData nat countingCreate failingExecute noCapture
                             recordedVisit stoppingOptions freshReplay)) with
     | Some errors => List.length errors = 1
     | None => True
     end.
Proof.
  split; [reflexivity|].
  apply (stop_on_error_reports_one_error_at_most nat countingCreate failingExecute
           noCapture recordedVisit stoppingOptions freshReplay).
  reflexivity.
Defined.

(** On the sample, the verifying replay with stop-on-error stops at the first
    failing call. *)
Lemma stop_on_error_on_sample :
  vo_errors (fst (replayVerifiedData nat countingCreate failingExecute noCapture
                    recordedVisit stoppingOptions freshReplay))
  = Some ["Action 1 (browser_navigate) failed: element not found"]
  /\ invocations
       (events nat (snd (replayVerifiedData nat countingCreate failingExecute noCapture
                           recordedVisit stoppingOptions freshReplay)))
     = [("browser_navigate",
         JObj [("instanceId", JStr "replay-0"); ("url", JStr "https://example.com")])].
Proof. split; vm_compute; reflexivity. Qed.

(** ** Session statistics *)

Lemma usageOf_countOf (u : list (string * Z)) (tool : string) :
  usageOf u tool = countOf u tool.
Proof.
  unfold usageOf, countOf. destruct (mapGet tool u) as [n|]; [|reflexivity].
  destruct (Z.eqb_spec n 0); congruence.
Qed.

Lemma timesUsed_cons (tool : string) (a : ActionRecord.t) (l : list ActionRecord.t) :
  timesUsed tool (a :: l)
  = ((if (ActionRecord.tool a =? tool)%string then 1 else 0) + timesUsed tool l)%Z.
Proof.
  unfold timesUsed. cbn [filter].
  destruct (ActionRecord.tool a =? tool)%string; cbn [List.length]; lia.
Qed.

Lemma timesUsed_nonneg (tool : string) (l : list ActionRecord.t) : (0 <= timesUsed tool l)%Z.
Proof. unfold timesUsed. lia. Qed.

Lemma countOf_mapSet_same (u : list (string * Z)) (tool : string) (v : Z) :
  countOf (mapSet tool v u) tool = v.
Proof. unfold countOf. now rewrite mapGet_mapSet_same. Qed.

Lemma countOf_mapSet_other (u : list (string * Z)) (k tool : string) (v : Z) :
  k <> tool -> countOf (mapSet k v u) tool = countOf u tool.
Proof. intros H. unfold countOf. now rewrite mapGet_mapSet_other. Qed.

(** The counts after the loop, tool by tool. *)
Lemma tally_usage (tool : string) (l : list ActionRecord.t) :
  forall (u : list (string * Z)) (e : Z),
    mapGet tool (fst (fold_left tally l (u, e)))
    = if (timesUsed tool l =? 0)%Z then mapGet tool u
      else Some (countOf u tool + timesUsed tool l)%Z.
Proof.
  induction l as [|a l IH]; intros u e; [reflexivity|].
  cbn [fold_left]. unfold tally at 2. rewrite IH, timesUsed_cons.
  pose proof (timesUsed_nonneg tool l) as Hpos.
  rewrite usageOf_countOf.
  destruct (String.eqb_spec (ActionRecord.tool a) tool) as [->|Hne].
  - rewrite mapGet_mapSet_same, countOf_mapSet_same.
    destruct (Z.eqb_spec (timesUsed tool l) 0) as [Hz|Hz];
      destruct (Z.eqb_spec (1 + timesUsed tool l) 0); try lia; f_equal; lia.
  - rewrite mapGet_mapSet_other, countOf_mapSet_other by exact Hne.
    destruct (Z.eqb_spec (timesUsed tool l) 0) as [Hz|Hz];
      destruct (Z.eqb_spec (0 + timesUsed tool l) 0); try lia; try reflexivity; f_equal; lia.
Qed.

Lemma sumCounts_mapSet (u : list (string * Z)) (tool : string) (v : Z) :
  sumCounts (mapSet tool v u) = (sumCounts u - countOf u tool + v)%Z.
Proof.
  induction u as [|[k n] rest IH]; unfold countOf; cbn [mapSet mapGet sumCounts fold_right snd].
  - lia.
  - destruct (String.eqb_spec k tool) as [->|Hne]; cbn [sumCounts fold_right snd].
    + lia.
    + fold (sumCounts (mapSet tool v rest)). fold (sumCounts rest). rewrite IH.
      unfold countOf. lia.
Qed.

Lemma tally_totals (l : list ActionRecord.t) :
  forall (u : list (string * Z)) (e : Z),
    sumCounts (fst (fold_left tally l (u, e))) = (sumCounts u + Z.of_nat (List.length l))%Z
    /\ snd (fold_left tally l (u, e)) = (e + Z.of_nat (List.length (filter failed l)))%Z.
Proof.
  induction l as [|a l IH]; intros u e; [cbn [fold_left fst snd List.length filter]; split; lia|].
  cbn [fold_left]. unfold tally at 2 4.
  match goal with
  | |- context [fold_left tally l (?u1, ?e1)] => destruct (IH u1 e1) as [Hs He]
  end.
  rewrite Hs, He, sumCounts_mapSet, usageOf_countOf. cbn [filter List.length]. unfold failed.
  split; [lia|].
  destruct (ActionRecord.error a) as [msg|]; [|lia].
  destruct (msg =? "")%string; cbn [negb List.length]; lia.
Qed.

(** X30.  For a session in memory whose tools are not named like members of
    [Object.prototype], [getSessionStats] returns statistics in which the
    total is the number of actions, the usage of each tool is the number of
    its actions (and a tool without action has no entry), the usages add up
    to the total, and the error count is the number of actions with a
    non-empty error; for a session with an end the duration is the
    difference of the two instants and nothing is read or changed, and for
    an open one it runs to the current instant. *)
Theorem session_statistics_count_the_actions
    (getTime : string -> option Z) (w : World) (i : string) (s : Session.t) :
  sessionOfInstance w i = Some s ->
  existsb (fun a => includes objectPrototypeKeys (ActionRecord.tool a)) (Session.actions s)
  = false ->
  exists stats w',
    getSessionStats getTime i w = (Ok (Some stats), w') /\
    recorder w' = recorder w /\
    Stats.totalActions stats = Z.of_nat (List.length (Session.actions s)) /\
    (forall tool,
       mapGet tool (Stats.toolUsage stats)
       = if (timesUsed tool (Session.actions s) =? 0)%Z then None
         else Some (timesUsed tool (Session.actions s))) /\
    sumCounts (Stats.toolUsage stats) = Stats.totalActions stats /\
    Stats.errorCount stats = Z.of_nat (List.length (filter failed (Session.actions s))) /\
    (forall e, Session.endedAt s = Some e -> e <> "" ->
               Stats.duration stats = numSub (getTime e) (getTime (Session.startedAt s))
               /\ w' = w) /\
    (Session.endedAt s = None ->
     Stats.duration stats
     = numSub (Some (clock (host w) (clockReads (host w))))
              (getTime (Session.startedAt s))).
Proof.
  unfold sessionOfInstance. intros Hs Hnames.
  unfold getSessionStats, bindM at 1, getRecorder. rewrite Hs, Hnames.
  pose proof (tally_totals (Session.actions s) [] 0%Z) as [Hsum Herr].
  pose proof (fun tool => tally_usage tool (Session.actions s) [] 0%Z) as Huse.
  destruct (fold_left tally (Session.actions s) ([], 0%Z)) as [usage errors].
  cbn [fst snd] in Hsum, Herr, Huse.
  assert (Hfacts :
            (forall tool,
               mapGet tool usage
               = if (timesUsed tool (Session.actions s) =? 0)%Z then None
                 else Some (timesUsed tool (Session.actions s)))
            /\ sumCounts usage = Z.of_nat (List.length (Session.actions s))
            /\ errors = Z.of_nat (List.length (filter failed (Session.actions s)))).
  { split; [|split].
    - intros tool. rewrite Huse. unfold countOf. cbn [mapGet].
      destruct (timesUsed tool (Session.actions s) =? 0)%Z; reflexivity.
    - rewrite Hsum. cbn. lia.
    - rewrite Herr. lia. }
  destruct Hfacts as (Hu & Hsu & He).
  destruct (Session.endedAt s) as [e|] eqn:Hend.
  - destruct (String.eqb_spec e "") as [->|Hne].
    + unfold bindM, dateNow, ret. eexists. eexists. split; [reflexivity|].
      cbn [Stats.totalActions Stats.toolUsage Stats.errorCount Stats.duration recorder
           withHost].
      do 5 (split; [first [reflexivity | assumption]|]).
      split; [|discriminate].
      intros e' He' Hne. exfalso. apply Hne. congruence.
    + unfold bindM, ret. eexists. eexists. split; [reflexivity|].
      cbn [Stats.totalActions Stats.toolUsage Stats.errorCount Stats.duration].
      do 5 (split; [first [reflexivity | assumption]|]).
      split; [|discriminate].
      intros e' He' _. split; [|reflexivity]. congruence.
  - unfold bindM, dateNow, ret. eexists. eexists. split; [reflexivity|].
    cbn [Stats.totalActions Stats.toolUsage Stats.errorCount Stats.duration recorder
         withHost].
    do 5 (split; [first [reflexivity | assumption]|]).
    split; [discriminate|reflexivity].
Qed.

Lemma session_statistics_count_the_actions_witness :
  exists stats w',
    getSessionStats (fun _ => None) "instance-1"
      {| recorder := recorderWith true true [("instance-1", countedSession)];
         host := sampleHost |} = (Ok (Some stats), w') /\
    mapGet "browser_navigate" (Stats.toolUsage stats) = Some 2%Z /\
    mapGet "browser_fill" (Stats.toolUsage stats) = None /\
    Stats.totalActions stats = 3%Z /\
    Stats.errorCount stats = 1%Z.
Proof.
  destruct (session_statistics_count_the_actions (fun _ => None)
              {| recorder := recorderWith true true [("instance-1", countedSession)];
                 host := sampleHost |} "instance-1" countedSession eq_refl eq_refl)
    as (stats & w' & Hrun & _ & Htotal & Huse & _ & Herr & _).
  exists stats, w'. split; [exact Hrun|].
  split; [exact (Huse "browser_navigate")|].
  split; [exact (Huse "browser_fill")|].
  split; [exact Htotal|exact Herr].
Defined.

